(** * Financial-data-analysis: the finance route and its retry executor

    A shallow embedding of the request pipeline of [app/api/finance/route.ts]
    (both copies that live in the repository: the current one, with the retry
    executor and the guarded tool normalizer, and the earlier one) and of the
    retry helper of [app/api/perplexity/route.ts], followed by the properties
    of the written specification that concern them.

    Conventions of the embedding.
    - JavaScript values are restricted to JSON data plus [undefined]; numbers
      are integers ([Z]); a fractional number behaves like a non-zero integer
      for every operation used here (truthiness, nullish tests, copying).
    - Strings are sequences of code units, modelled by [string].
    - An object is the list of its own properties in enumeration order (the
      order of [Object.keys]); property reads are own-property reads, the
      members of [Object.prototype] are not modelled.
    - Exceptions are explicit: a computation yields a [completion].
    - Network calls, the pseudo-random jitter and the built-ins [JSON.parse],
      [JSON.stringify] and [atob] are parameters ([World], [Platform]). *)

From Stdlib Require Import String Ascii List ZArith Lia Bool DecimalString.
Import ListNotations.
Open Scope string_scope.
Set Warnings "-register-all".

(* ================================================================== *)
(** * JavaScript values                                                *)
(* ================================================================== *)

Module JS.

Inductive value : Type :=
| JUndefined
| JNull
| JBool (b : bool)
| JNum (n : Z)
| JStr (s : string)
| JArr (items : list value)
| JObj (props : list (string * value)).

(** Extra fields an error object may carry; [e?.status], [e?.response?.status]
    and [e?.statusCode] are [None] when absent. *)
Record errinfo : Type := mkInfo
  { status : option Z;
    response_status : option Z;
    statusCode : option Z;
    isAPIError : bool }.

Definition plain : errinfo := mkInfo None None None false.

Inductive exn : Type :=
| TypeError
| Error (msg : string) (info : errinfo).

Inductive completion (A : Type) : Type :=
| Normal (a : A)
| Throw (e : exn).
Arguments Normal {A} a.
Arguments Throw {A} e.

Definition bind {A B} (c : completion A) (k : A -> completion B) : completion B :=
  match c with
  | Normal a => k a
  | Throw e => Throw e
  end.

Declare Scope js_scope.
Delimit Scope js_scope with js.
Notation "'let*' x ':=' c 'in' k" := (bind c (fun x => k))
  (at level 61, x pattern, c at next level, right associativity) : js_scope.

Fixpoint mapM {A B} (f : A -> completion B) (l : list A) : completion (list B) :=
  match l with
  | [] => Normal []
  | x :: r => bind (f x) (fun y => bind (mapM f r) (fun ys => Normal (y :: ys)))
  end.

(** ** Coercions and operators *)

Definition truthy (v : value) : bool :=
  match v with
  | JUndefined | JNull => false
  | JBool b => b
  | JNum n => negb (n =? 0)%Z
  | JStr s => negb (s =? EmptyString)
  | JArr _ | JObj _ => true
  end.

Definition nullish (v : value) : bool :=
  match v with
  | JUndefined | JNull => true
  | _ => false
  end.

(** [a || b], [a && b] and [a ?? b] on operands that are already evaluated. *)
Definition js_or (a b : value) : value := if truthy a then a else b.
Definition js_and (a b : value) : value := if truthy a then b else a.
Definition js_coalesce (a b : value) : value := if nullish a then b else a.

Definition typeof (v : value) : string :=
  match v with
  | JUndefined => "undefined"
  | JNull | JArr _ | JObj _ => "object"
  | JBool _ => "boolean"
  | JNum _ => "number"
  | JStr _ => "string"
  end.

Definition isArray (v : value) : bool :=
  match v with
  | JArr _ => true
  | _ => false
  end.

Definition string_of_nat (n : nat) : string := NilZero.string_of_uint (Nat.to_uint n).
Definition string_of_Z (n : Z) : string := NilZero.string_of_int (Z.to_int n).

(** [String(v)], which is also what a template literal and a computed property
    key apply to [v].  The conversion of the code throws on the values that
    [has_primitive] (below) leaves out; a statement that depends on the
    conversion of such a value says so. *)
Fixpoint ToString (v : value) : string :=
  match v with
  | JUndefined => "undefined"
  | JNull => "null"
  | JBool true => "true"
  | JBool false => "false"
  | JNum n => string_of_Z n
  | JStr s => s
  | JArr l =>
      String.concat "," (map (fun x => if nullish x then EmptyString else ToString x) l)
  | JObj _ => "[object Object]"
  end.

(** [l.join(sep)] *)
Definition join (sep : string) (l : list value) : string :=
  String.concat sep (map (fun x => if nullish x then EmptyString else ToString x) l).

(** ** Properties *)

Fixpoint assoc (k : string) (kvs : list (string * value)) : option value :=
  match kvs with
  | [] => None
  | (k', x) :: r => if k' =? k then Some x else assoc k r
  end.

Fixpoint index_lookup {A} (k : string) (i : nat) (l : list A) : option A :=
  match l with
  | [] => None
  | x :: r => if string_of_nat i =? k then Some x else index_lookup k (S i) r
  end.

Definition char_value (c : ascii) : value := JStr (String c EmptyString).

(** [v[k]] on a value that is neither [null] nor [undefined]. *)
Definition prop (v : value) (k : string) : value :=
  match v with
  | JObj kvs =>
      match assoc k kvs with Some x => x | None => JUndefined end
  | JArr l =>
      if k =? "length" then JNum (Z.of_nat (List.length l))
      else match index_lookup k 0 l with Some x => x | None => JUndefined end
  | JStr s =>
      if k =? "length" then JNum (Z.of_nat (String.length s))
      else match index_lookup k 0 (list_ascii_of_string s) with
           | Some c => char_value c
           | None => JUndefined
           end
  | _ => JUndefined
  end.

(** [v[k]] or [v.k]: a [TypeError] on [null] and [undefined]. *)
Definition member (v : value) (k : string) : completion value :=
  if nullish v then Throw TypeError else Normal (prop v k).

(** [v?.k] *)
Definition opt_member (v : value) (k : string) : value :=
  if nullish v then JUndefined else prop v k.

Fixpoint obj_set (k : string) (x : value) (kvs : list (string * value))
  : list (string * value) :=
  match kvs with
  | [] => [(k, x)]
  | (k', y) :: r => if k' =? k then (k, x) :: r else (k', y) :: obj_set k x r
  end.

(** [v.k = x] in strict-mode code, for a name [k] that is not an array index.
    On an array the write creates an expando property, which neither the later
    code of the route nor the serialization of the response reads: the modelled
    array stays as it is. *)
Definition assign (v : value) (k : string) (x : value) : completion value :=
  match v with
  | JObj kvs => Normal (JObj (obj_set k x kvs))
  | JArr l => Normal (JArr l)
  | _ => Throw TypeError
  end.

Fixpoint indexed {A} (i : nat) (l : list A) : list (string * A) :=
  match l with
  | [] => []
  | x :: r => (string_of_nat i, x) :: indexed (S i) r
  end.

(** The own enumerable properties, as [Object.entries] and a spread see them. *)
Definition own_entries (v : value) : list (string * value) :=
  match v with
  | JObj kvs => kvs
  | JArr l => indexed 0 l
  | JStr s => indexed 0 (map char_value (list_ascii_of_string s))
  | _ => []
  end.

Definition Object_entries (v : value) : completion (list (string * value)) :=
  if nullish v then Throw TypeError else Normal (own_entries v).

Definition Object_keys (v : value) : completion (list string) :=
  if nullish v then Throw TypeError else Normal (map fst (own_entries v)).

(** [l[0]] on an array of strings. *)
Definition first_key (l : list string) : value :=
  match l with
  | [] => JUndefined
  | k :: _ => JStr k
  end.

(** ** Where reads and conversions are what the code does *)

(** The names an object answers without owning them, the members of
    [Object.prototype].  On an object, [prop] is [v[k]] for every name it
    owns and for every name that is not one of these. *)
Definition inherited (k : string) : bool :=
  existsb (String.eqb k)
    [ "constructor"; "hasOwnProperty"; "isPrototypeOf"; "propertyIsEnumerable";
      "toLocaleString"; "toString"; "valueOf"; "__proto__";
      "__defineGetter__"; "__defineSetter__"; "__lookupGetter__"; "__lookupSetter__" ].

Definition is_object (v : value) : bool :=
  match v with
  | JObj _ => true
  | _ => false
  end.

(** A computed key that is a string and names no inherited member. *)
Definition plain_key (k : value) : bool :=
  match k with
  | JStr name => negb (inherited name)
  | _ => false
  end.

(** [String(v)] returns (and then returns [ToString v]): an object that owns
    a [toString], which in JSON data is never a function, has no primitive
    value and the conversion throws a [TypeError]; so it does on an array that
    holds such an object, its items being converted one by one. *)
Fixpoint has_primitive (v : value) : bool :=
  match v with
  | JObj kvs => negb (existsb (fun kv => fst kv =? "toString") kvs)
  | JArr l => forallb (fun x => nullish x || has_primitive x) l
  | _ => true
  end.

(** ** Strings *)

Definition nl : string := String (ascii_of_nat 10) EmptyString.

Definition is_space (c : ascii) : bool :=
  let n := nat_of_ascii c in
  ((9 <=? n)%nat && (n <=? 13)%nat) || (n =? 32)%nat || (n =? 160)%nat.

(** [s.trim()] is the empty string exactly when every code unit is white space. *)
Fixpoint blank (s : string) : bool :=
  match s with
  | EmptyString => true
  | String c r => is_space c && blank r
  end.

End JS.
Import JS.
Open Scope js_scope.

(* ================================================================== *)
(** * Built-ins and the outside world                                  *)
(* ================================================================== *)

(** The built-ins the route relies on.  [JSON_parse s] is [None] when
    [JSON.parse(s)] throws; [JSON_stringify v] is [JSON.stringify(v, null, 2)]
    on an object or array; [atob_utf8 b] is
    [decodeURIComponent(escape(atob(b)))], [None] when it throws. *)
Class Platform : Type :=
  { JSON_parse : string -> option value;
    JSON_stringify : value -> string;
    atob_utf8 : string -> option string;
    JSON_parse_empty : JSON_parse EmptyString = None }.

(* ================================================================== *)
(** * The retry executor                                               *)
(* ================================================================== *)

Module Retry.

(** What one run of the executor did: its completion, how many times it called
    the operation, and the delays it slept, in order. *)
Record Run (T : Type) : Type := mkRun
  { outcome : completion T;
    calls : nat;
    sleeps : list Z }.
Arguments mkRun {T} outcome calls sleeps.
Arguments outcome {T} r.
Arguments calls {T} r.
Arguments sleeps {T} r.

Definition truthy_code (c : option Z) : bool :=
  match c with
  | Some n => negb (n =? 0)%Z
  | None => false
  end.

Definition or_code (a b : option Z) : option Z := if truthy_code a then a else b.

(** [statusCode && statusCode >= 400 && statusCode < 500 && statusCode !== 429] *)
Definition client_error (c : option Z) : bool :=
  match c with
  | Some n => (negb (n =? 0) && (400 <=? n) && (n <? 500) && negb (n =? 429))%Z
  | None => false
  end.

(** [retryableErrors && statusCode && !retryableErrors.includes(statusCode)] *)
Definition not_listed (retryableErrors : option (list Z)) (c : option Z) : bool :=
  match retryableErrors, c with
  | Some l, Some n => negb (n =? 0)%Z && negb (existsb (Z.eqb n) l)
  | _, _ => false
  end.

(** [Math.min(initialDelay * Math.pow(2, attempt) + Math.random() * 1000, maxDelay)],
    the random term being supplied by [jitter]. *)
Definition delay (jitter : nat -> Z) (initialDelay maxDelay : Z) (attempt : nat) : Z :=
  Z.min (initialDelay * 2 ^ Z.of_nat attempt + jitter attempt) maxDelay.

Section Executor.
Context {T : Type}.
(** [fn k] is what the operation does the [k]-th time it is called (from 0). *)
Variable fn : nat -> completion T.
Variable jitter : nat -> Z.
Variables maxRetries initialDelay maxDelay : Z.

Section Loop.
(** How the status code is read off an error, and the optional list of
    retryable codes: the two points where the copies of the helper differ. *)
Variable status_of : exn -> option Z.
Variable retryableErrors : option (list Z).

(** The [for] loop, [remaining] iterations before [attempt < maxRetries]
    fails. *)
Fixpoint attempts (remaining attempt called : nat) (lastError : option exn)
         (slept : list Z) : Run T :=
  match remaining with
  | O =>
      mkRun (Throw (match lastError with
                    | Some e => e
                    | None => Error "Max retries exceeded" plain
                    end)) called slept
  | S remaining' =>
      match fn called with
      | Normal v => mkRun (Normal v) (S called) slept
      | Throw error =>
          let statusCode := status_of error in
          if client_error statusCode then mkRun (Throw error) (S called) slept
          else if not_listed retryableErrors statusCode
               then mkRun (Throw error) (S called) slept
          else if (Z.of_nat attempt =? maxRetries - 1)%Z
               then mkRun (Throw error) (S called) slept
          else attempts remaining' (S attempt) (S called) (Some error)
                        (slept ++ [delay jitter initialDelay maxDelay attempt])
      end
  end.

Definition run : Run T := attempts (Z.to_nat maxRetries) 0 0 None [].
End Loop.
End Executor.

End Retry.

(** ** [app/api/perplexity/route.ts]: the helper reads [error?.status] only and
    has no list of retryable codes. *)
Module Perplexity.

Definition statusCode_of (error : exn) : option Z :=
  match error with
  | TypeError => None
  | Error _ i => status i
  end.

Definition retryWithBackoff {T} (jitter : nat -> Z) (fn : nat -> completion T)
           (maxRetries initialDelay maxDelay : Z) : Retry.Run T :=
  Retry.run fn jitter maxRetries initialDelay maxDelay statusCode_of None.

End Perplexity.

(* ================================================================== *)
(** * The tool-output normalizer                                       *)
(* ================================================================== *)

(** [processToolResponse] works on [chartData = toolUseContent.input], the very
    object the model returned, and writes to it.  A computation of type
    [Upd A] takes the current state of that object and gives its completion
    together with the state it leaves behind, also when it throws. *)
Module Normalizer.

Definition Upd (A : Type) : Type := value -> completion A * value.

Definition ret {A} (a : A) : Upd A := fun o => (Normal a, o).
Definition throw {A} (e : exn) : Upd A := fun o => (Throw e, o).
Definition lift {A} (c : completion A) : Upd A := fun o => (c, o).
Definition read : Upd value := fun o => (Normal o, o).

Definition bindU {A B} (c : Upd A) (k : A -> Upd B) : Upd B :=
  fun o =>
    match c o with
    | (Normal a, o') => k a o'
    | (Throw e, o') => (Throw e, o')
    end.

(** [chartData.k = x] *)
Definition write (k : string) (x : value) : Upd unit :=
  fun o =>
    match assign o k x with
    | Normal o' => (Normal tt, o')
    | Throw e => (Throw e, o)
    end.

Declare Scope upd_scope.
Delimit Scope upd_scope with upd.
Notation "x <- c ;; k" := (bindU c (fun x => k))
  (at level 61, c at next level, right associativity) : upd_scope.
Notation "c ;;; k" := (bindU c (fun _ => k))
  (at level 61, right associativity) : upd_scope.
Local Open Scope upd_scope.

Definition parse_error : exn :=
  Error "Invalid chart data structure: data is not valid JSON" plain.
Definition structure_error : exn := Error "Invalid chart data structure" plain.

(** The string case of [data]: parse, parse once more when the result is a
    string again, store the result. *)
Definition parse_data `{Platform} : Upd unit :=
  chartData <- read ;;
  data <- lift (member chartData "data") ;;
  match data with
  | JStr originalDataString =>
      if truthy data then
        match JSON_parse originalDataString with
        | Some (JStr again) =>
            match JSON_parse again with
            | Some parsed => write "data" parsed
            | None => throw parse_error
            end
        | Some parsed => write "data" parsed
        | None => throw parse_error
        end
      else ret tt
  | _ => ret tt
  end.

(** [!chartData.chartType || !chartData.data || !Array.isArray(chartData.data)] *)
Definition validate : Upd unit :=
  chartData <- read ;;
  chartType <- lift (member chartData "chartType") ;;
  let data := prop chartData "data" in
  if negb (truthy chartType) || negb (truthy data) || negb (isArray data)
  then throw structure_error
  else ret tt.

(** The callback of [chartData.data.map] in the pie branch.  The reads
    [item[segmentKey]] and [item[valueKey]] are taken as own-property reads
    and the key as converted by [ToString]: this is what the code does on a
    record that is an object, for a key that converts ([has_primitive]) and
    names no inherited member ([inherited]). *)
Definition reshape (chartData item : value) : completion value :=
  let* keys := Object_keys (prop chartData "chartConfig") in
  let valueKey := first_key keys in
  let* xAxisKey := member (prop chartData "config") "xAxisKey" in
  let segmentKey := js_or xAxisKey (JStr "segment") in
  let* keyed := member item (ToString segmentKey) in
  Normal (JObj
    [ ("segment",
        js_or (js_or (js_or keyed (prop item "segment")) (prop item "category"))
              (prop item "name"));
      ("value", js_coalesce (prop item (ToString valueKey)) (prop item "value")) ]).

Definition items_of (v : value) : list value :=
  match v with
  | JArr l => l
  | _ => []
  end.

Definition is_pie (chartType : value) : bool :=
  match chartType with
  | JStr t => t =? "pie"
  | _ => false
  end.

Definition pie : Upd unit :=
  chartData <- read ;;
  if is_pie (prop chartData "chartType") then
    items <- lift (mapM (reshape chartData) (items_of (prop chartData "data"))) ;;
    write "data" (JArr items) ;;;
    chartData <- read ;;
    config <- lift (assign (prop chartData "config") "xAxisKey" (JStr "segment")) ;;
    write "config" config
  else ret tt.

Definition color (index : nat) : value :=
  JStr ("hsl(var(--chart-" ++ string_of_nat (index + 1) ++ "))").

(** The [reduce] over [Object.entries(chartData.chartConfig)]. *)
Fixpoint assignColors (index : nat) (entries acc : list (string * value))
  : list (string * value) :=
  match entries with
  | [] => acc
  | (key, config) :: rest =>
      assignColors (S index) rest
        (obj_set key (JObj (obj_set "color" (color index) (own_entries config))) acc)
  end.

Definition finish : Upd value :=
  chartData <- read ;;
  entries <- lift (Object_entries (prop chartData "chartConfig")) ;;
  let processedChartConfig := JObj (assignColors 0 entries []) in
  ret (JObj (obj_set "chartConfig" processedChartConfig (own_entries chartData))).

End Normalizer.

(* ================================================================== *)
(** * Model responses and route responses                              *)
(* ================================================================== *)

Record ToolUse : Type := mkToolUse
  { tu_id : string;
    tu_name : string;
    tu_input : value }.

Inductive ContentBlock : Type :=
| TextBlock (text : string)
| ToolUseBlock (t : ToolUse)
| OtherBlock.

Definition is_tool_use (c : ContentBlock) : bool :=
  match c with
  | ToolUseBlock _ => true
  | _ => false
  end.

Fixpoint tool_uses (content : list ContentBlock) : list ToolUse :=
  match content with
  | [] => []
  | ToolUseBlock t :: r => t :: tool_uses r
  | _ :: r => tool_uses r
  end.

Fixpoint texts (content : list ContentBlock) : list string :=
  match content with
  | [] => []
  | TextBlock s :: r => s :: texts r
  | _ :: r => texts r
  end.

(** The JSON body of a route response, before serialization. *)
Inductive Body : Type :=
| Answer (content : string) (hasToolUse : bool) (toolUse : option ToolUse)
         (chartData : option value)
| Rejected (error : string)
| ApiError (details : string) (code : option Z)
| Failed (error : exn).

Record Response : Type := mkResponse
  { http_status : Z;
    body : Body }.

Record Turn : Type := mkTurn
  { role : value;
    content : value }.

(** The body of a request, as [req.json()] gives it. *)
Record Request : Type := mkRequest
  { messages : value;
    fileData : value;
    model : value;
    includeLiveData : value;
    icfMapping : value }.

(** The services the route calls.  Each gives what its [k]-th call (from 0)
    within one retry run does: it resolves to a value or throws.  [jitter site]
    is the random term of the retry run at call site [site]. *)
Record World : Type := mkWorld
  { jitter : nat -> nat -> Z;
    portfolio_api : string -> string -> value -> string -> nat -> completion value;
    perplexity_api : string -> nat -> completion value;
    anthropic_create : value -> list Turn -> nat -> completion (list ContentBlock) }.

(** What a request did to the outside: calls made to each service, and the
    conversation handed to [anthropic.messages.create], if it got that far. *)
Record Trace : Type := mkTrace
  { portfolio_calls : nat;
    search_calls : nat;
    model_calls : nat;
    sent : option (list Turn) }.

(* ================================================================== *)
(** * [app/api/finance/route.ts], current copy                         *)
(* ================================================================== *)

Module Finance.
Import Normalizer.

Definition statusCode_of (error : exn) : option Z :=
  match error with
  | TypeError => None
  | Error _ i =>
      Retry.or_code (Retry.or_code (status i) (response_status i)) (statusCode i)
  end.

Definition retryWithBackoff {T} (jitter : nat -> Z) (fn : nat -> completion T)
           (maxRetries initialDelay maxDelay : Z) (retryableErrors : option (list Z))
  : Retry.Run T :=
  Retry.run fn jitter maxRetries initialDelay maxDelay statusCode_of retryableErrors.

Definition retryable : option (list Z) := Some [429; 500; 502; 503; 504]%Z.

Definition fetchCombinedCSVsByFirm (w : World) (clientId investmentBankerId : string)
           (firmName : value) (portfolioType : string) : Retry.Run value :=
  retryWithBackoff (jitter w 0)
    (portfolio_api w clientId investmentBankerId firmName portfolioType)
    3 1000 10000 retryable.

(** ** The normalizer *)

Definition processToolResponse `{Platform} : Upd value :=
  (parse_data ;;; validate ;;; pie ;;; finish)%upd.

(** ** From the model response to the route response *)

Definition toolUseContent_of (content : list ContentBlock) : option ToolUse :=
  let allToolUseBlocks := tool_uses content in
  match find (fun c => tu_name c =? "generate_graph_data") allToolUseBlocks with
  | Some c => Some c
  | None => List.hd_error allToolUseBlocks
  end.

Definition fullTextContent (content : list ContentBlock) : string :=
  String.concat (nl ++ nl) (texts content).

(** The [try] around [processToolResponse], then [responseData].  The echo
    [toolUse] is built after the normalizer ran, from the same [input] object.
    ([JSON.stringify(responseData)] does not throw on JSON data, so its
    fallback is not modelled.) *)
Definition respond `{Platform} (content : list ContentBlock) : Response :=
  let toolUseContent := toolUseContent_of content in
  let '(processedChartData, toolUse) :=
    match toolUseContent with
    | Some t =>
        let '(result, input) := processToolResponse (tu_input t) in
        (match result with Normal chart => Some chart | Throw _ => None end,
         Some (mkToolUse (tu_id t) (tu_name t) input))
    | None => (None, None)
    end in
  mkResponse 200
    (Answer (fullTextContent content) (existsb is_tool_use content)
            toolUse processedChartData).

(** The outer [catch]. *)
Definition failure (error : exn) : Response :=
  match error with
  | Error msg i =>
      if isAPIError i
      then mkResponse (match status i with Some n => n | None => 200 end)
                      (ApiError msg (status i))
      else mkResponse 500 (Failed error)
  | TypeError => mkResponse 500 (Failed error)
  end.

(** ** Preparing the conversation *)

Definition to_turn (msg : value) : completion Turn :=
  let* r := member msg "role" in
  let* c := member msg "content" in
  Normal (mkTurn r c).

Fixpoint set_last {A} (x : A) (l : list A) : list A :=
  match l with
  | [] => []
  | [_] => [x]
  | y :: r => y :: set_last x r
  end.

Definition text_part (text : value) : value :=
  JObj [("type", JStr "text"); ("text", text)].

Definition image_part (mediaType data : value) : value :=
  JObj [("type", JStr "image");
        ("source", JObj [("type", JStr "base64"); ("media_type", mediaType);
                         ("data", data)])].

(** The [try] block that puts the file into the last message; [None] when
    something in it throws. *)
Definition attach `{Platform} (fileData : value) (messages : list value)
           (anthropicMessages : list Turn) : option (list Turn) :=
  let original := member (List.last messages JUndefined) "content" in
  if truthy (prop fileData "isText") then
    match atob_utf8 (ToString (prop fileData "base64")), original with
    | Some textContent, Normal text =>
        Some (set_last
                (mkTurn (JStr "user")
                   (JArr [ text_part (JStr ("File contents of "
                                            ++ ToString (prop fileData "fileName")
                                            ++ ":" ++ nl ++ nl ++ textContent));
                           text_part text ]))
                anthropicMessages)
    | _, _ => None
    end
  else
    match prop fileData "mediaType" with
    | JStr mediaType =>
        if prefix "image/" mediaType then
          match original with
          | Normal text =>
              Some (set_last
                      (mkTurn (JStr "user")
                         (JArr [ image_part (JStr mediaType) (prop fileData "base64");
                                 text_part text ]))
                      anthropicMessages)
          | Throw _ => None
          end
        else Some anthropicMessages
    | _ => None
    end.

(** Input validation, the conversion of the messages and the file step: either
    a response that ends the request, or the conversation so far. *)
Definition prepare `{Platform} (req : Request) : Response + list Turn :=
  match messages req with
  | JArr msgs =>
      if negb (truthy (model req))
      then inl (mkResponse 400 (Rejected "Model selection is required"))
      else
        match mapM to_turn msgs with
        | Throw e => inl (failure e)
        | Normal anthropicMessages =>
            if truthy (fileData req) then
              if negb (truthy (prop (fileData req) "base64"))
              then inl (mkResponse 400 (Rejected "No file data"))
              else
                match attach (fileData req) msgs anthropicMessages with
                | Some withFile => inr withFile
                | None => inl (mkResponse 400 (Rejected "Failed to process file content"))
                end
            else inr anthropicMessages
        end
  | _ => inl (mkResponse 400 (Rejected "Messages array is required"))
  end.

(** ** Step 1: the two supplementary sources *)

Definition icfData_of (req : Request) : value := js_or (icfMapping req) JNull.

Definition identifiers_complete (icfData : value) : bool :=
  truthy (js_and (js_and (js_and icfData (opt_member icfData "firm_name"))
                         (opt_member icfData "client_id"))
                 (opt_member icfData "investment_banker_id")).

(** Step 1a: the portfolio data ([null] when skipped or failed) and the calls
    made.  The two identifiers are converted by [ToString]; where the
    conversion of the code throws (see [has_primitive]) the [catch] of the step
    leaves the data [null] as a failed fetch does, without a call. *)
Definition step1a (w : World) (req : Request) : value * nat :=
  let icfData := icfData_of req in
  if truthy (includeLiveData req) && identifiers_complete icfData then
    let run := fetchCombinedCSVsByFirm w
                 (ToString (prop icfData "client_id"))
                 (ToString (prop icfData "investment_banker_id"))
                 (prop icfData "firm_name")
                 "MASTER_PROPOSED" in
    (match Retry.outcome run with Normal data => data | Throw _ => JNull end,
     Retry.calls run)
  else (JNull, 0).

Definition is_text_type (t : value) : bool :=
  match t with
  | JStr s => s =? "text"
  | _ => false
  end.

(** [content.filter(c => c.type === 'text').map(c => c.text)] *)
Fixpoint text_parts (parts : list value) : completion (list value) :=
  match parts with
  | [] => Normal []
  | c :: r =>
      let* t := member c "type" in
      let* rest := text_parts r in
      Normal (if is_text_type t then prop c "text" :: rest else rest)
  end.

Definition extract_query (lastUserMessage : value) : completion string :=
  let* content := member lastUserMessage "content" in
  match content with
  | JStr s => Normal s
  | JArr parts =>
      let* ts := text_parts parts in
      Normal (join " " ts)
  | _ => Normal EmptyString
  end.

Record PerplexityData : Type := mkPerplexityData
  { p_content : value;
    p_citations : value;
    p_citationCount : value }.

Definition searchLive (w : World) (query : string) : Retry.Run value :=
  retryWithBackoff (jitter w 1) (perplexity_api w query) 2 2000 8000 retryable.

Definition perplexityData_of (responseData : value) : option PerplexityData :=
  if nullish responseData then None
  else if truthy (js_and (prop responseData "success") (prop responseData "content"))
  then Some (mkPerplexityData
               (prop responseData "content")
               (js_or (prop responseData "citations") (JArr []))
               (js_or (opt_member (prop responseData "citations") "length") (JNum 0)))
  else None.

(** Step 1b: the query of the last message, the search result ([None] when
    skipped, failed or empty) and the calls made. *)
Definition step1b (w : World) (req : Request) (messages : list value)
  : completion (string * option PerplexityData * nat) :=
  if truthy (includeLiveData req) && negb (Nat.eqb (List.length messages) 0) then
    let* extractedUserQuery := extract_query (List.last messages JUndefined) in
    if negb (blank extractedUserQuery) then
      let run := searchLive w extractedUserQuery in
      Normal (extractedUserQuery,
              match Retry.outcome run with
              | Normal responseData => perplexityData_of responseData
              | Throw _ => None
              end,
              Retry.calls run)
    else Normal (extractedUserQuery, None, 0)
  else Normal (EmptyString, None, 0).

(** ** Step 2: the enhanced prompt *)

Definition stockDataSummary `{Platform} (stockData : value) : string :=
  if typeof stockData =? "object"
  then substring 0 3000 (JSON_stringify stockData)
  else substring 0 3000 (ToString stockData).

Definition stock_section `{Platform} (icfData stockData : value) : string :=
  "---" ++ nl
  ++ "**STOCK/PORTFOLIO DATA (Current Holdings & Performance for "
  ++ ToString (js_or (opt_member icfData "firm_account_name") (JStr "Account"))
  ++ " at " ++ ToString (js_or (opt_member icfData "firm_name") (JStr "Firm"))
  ++ "):**" ++ nl
  ++ stockDataSummary stockData ++ nl
  ++ "---" ++ nl ++ nl.

Definition live_section (p : PerplexityData) : string :=
  "---" ++ nl
  ++ "**LIVE DATA FROM WEB SEARCH (Latest Market Information):**" ++ nl
  ++ ToString (p_content p) ++ nl ++ nl
  ++ "**Sources:** " ++ ToString (p_citationCount p) ++ " citation(s) found" ++ nl
  ++ "---" ++ nl ++ nl.

Definition instructions (stockData : value) (perplexityData : option PerplexityData)
  : list string :=
  (if truthy stockData then ["- The current stock/portfolio data provided above"] else [])
  ++ (match perplexityData with
      | Some _ => ["- The latest live market data from web search"]
      | None => []
      end)
  ++ (match perplexityData with
      | Some _ => if truthy stockData
                  then ["- Combine both sources for comprehensive analysis"] else []
      | None => []
      end).

Definition enhancedPrompt `{Platform} (icfData stockData : value)
           (perplexityData : option PerplexityData) (extractedUserQuery : string)
  : string :=
  "Original Query: " ++ extractedUserQuery ++ nl ++ nl
  ++ (if truthy stockData then stock_section icfData stockData else EmptyString)
  ++ (match perplexityData with
      | Some p => if truthy (p_content p) then live_section p else EmptyString
      | None => EmptyString
      end)
  ++ "Please analyze the above query using:" ++ nl
  ++ String.concat nl (instructions stockData perplexityData) ++ nl ++ nl
  ++ "Incorporate all available information into your analysis and visualizations.".

(** [contentArray.find(c => c.type === 'text')] followed by the write to its
    [text]; [None] when no part is a text part. *)
Fixpoint set_first_text (prompt : string) (parts : list value)
  : completion (option (list value)) :=
  match parts with
  | [] => Normal None
  | c :: r =>
      let* t := member c "type" in
      if is_text_type t then
        let* c' := assign c "text" (JStr prompt) in
        Normal (Some (c' :: r))
      else
        let* r' := set_first_text prompt r in
        Normal (option_map (cons c) r')
  end.

Definition rewrite_turn (prompt : string) (t : Turn) : completion Turn :=
  match content t with
  | JStr _ => Normal (mkTurn (role t) (JStr prompt))
  | JArr contentArray =>
      let* found := set_first_text prompt contentArray in
      Normal (mkTurn (role t)
                (JArr (match found with
                       | Some updated => updated
                       | None => text_part (JStr prompt) :: contentArray
                       end)))
  | _ => Normal t
  end.

Fixpoint rewrite_last (prompt : string) (l : list Turn) : completion (list Turn) :=
  match l with
  | [] => Throw TypeError
  | [t] => let* t' := rewrite_turn prompt t in Normal [t']
  | t :: r => let* r' := rewrite_last prompt r in Normal (t :: r')
  end.

Definition fusion_applies (req : Request) (stockData : value)
           (perplexityData : option PerplexityData) (extractedUserQuery : string) : bool :=
  truthy (includeLiveData req)
  && negb (extractedUserQuery =? EmptyString)
  && (truthy stockData || match perplexityData with Some _ => true | None => false end).

Definition step2 `{Platform} (req : Request) (stockData : value)
           (perplexityData : option PerplexityData) (extractedUserQuery : string)
           (anthropicMessages : list Turn) : completion (list Turn) :=
  if fusion_applies req stockData perplexityData extractedUserQuery
  then rewrite_last
         (enhancedPrompt (icfData_of req) stockData perplexityData extractedUserQuery)
         anthropicMessages
  else Normal anthropicMessages.

(** ** The route *)

Definition createMessage (w : World) (req : Request) (anthropicMessages : list Turn)
  : Retry.Run (list ContentBlock) :=
  retryWithBackoff (jitter w 2) (anthropic_create w (model req) anthropicMessages)
    3 2000 15000 retryable.

Definition POST `{Platform} (w : World) (req : Request) : Response * Trace :=
  match prepare req with
  | inl response => (response, mkTrace 0 0 0 None)
  | inr anthropicMessages =>
      let '(stockData, portfolioCalls) := step1a w req in
      match step1b w req (items_of (messages req)) with
      | Throw e => (failure e, mkTrace portfolioCalls 0 0 None)
      | Normal (extractedUserQuery, perplexityData, searchCalls) =>
          match step2 req stockData perplexityData extractedUserQuery anthropicMessages with
          | Throw e => (failure e, mkTrace portfolioCalls searchCalls 0 None)
          | Normal fused =>
              let run := createMessage w req fused in
              (match Retry.outcome run with
               | Normal content => respond content
               | Throw e => failure e
               end,
               mkTrace portfolioCalls searchCalls (Retry.calls run) (Some fused))
          end
      end
  end.

End Finance.

(* ================================================================== *)
(** * [app/api/finance/route.ts], earlier copy                         *)
(* ================================================================== *)

(** The earlier copy of the route differs from the current one, past the model
    call, in three places: it has no string case for [data], it takes the first
    text block and the first tool-use block only, and it calls the normalizer
    outside any [try] of its own. *)
Module FinanceEarlier.
Import Normalizer.

Definition processToolResponse : Upd value :=
  (validate ;;; pie ;;; finish)%upd.

Definition toolUseContent_of (content : list ContentBlock) : option ToolUse :=
  List.hd_error (tool_uses content).

Definition textContent_of (content : list ContentBlock) : option string :=
  List.hd_error (texts content).

(** From the model response down to the end of [POST], outer [catch] included.
    The log statement that comes first reads [response.content[0].type], a
    [TypeError] on an empty response. *)
Definition respond (content : list ContentBlock) : Response :=
  match content with
  | [] => Finance.failure TypeError
  | _ :: _ =>
      let text :=
        match textContent_of content with Some s => s | None => EmptyString end in
      match toolUseContent_of content with
      | Some t =>
          match processToolResponse (tu_input t) with
          | (Normal chart, input) =>
              mkResponse 200
                (Answer text (existsb is_tool_use content)
                        (Some (mkToolUse (tu_id t) (tu_name t) input)) (Some chart))
          | (Throw e, _) => Finance.failure e
          end
      | None => mkResponse 200 (Answer text (existsb is_tool_use content) None None)
      end
  end.

End FinanceEarlier.

(* ================================================================== *)
(** * A reference platform                                             *)
(* ================================================================== *)

(** An executable [Platform] for running the model on concrete requests.  It
    covers the part of each built-in the examples need: JSON text with integer
    numbers and the short escapes, two-space serialization, base64 of ASCII
    text.  Outside that part it reports failure. *)
Module Reference.

Definition code (c : ascii) : nat := nat_of_ascii c.
Definition chr (n : nat) : string := String (ascii_of_nat n) EmptyString.
Definition dq : string := chr 34.
Definition bs : string := chr 92.

Definition is_ws (c : ascii) : bool :=
  let n := code c in
  (n =? 32)%nat || (n =? 9)%nat || (n =? 10)%nat || (n =? 13)%nat.

Definition is_digit (c : ascii) : bool :=
  ((48 <=? code c) && (code c <=? 57))%nat.

Fixpoint skip_ws (l : list ascii) : list ascii :=
  match l with
  | c :: r => if is_ws c then skip_ws r else l
  | [] => []
  end.

Fixpoint digits (l : list ascii) (acc : Z) : Z * list ascii :=
  match l with
  | c :: r =>
      if is_digit c then digits r (acc * 10 + Z.of_nat (code c - 48))%Z else (acc, l)
  | [] => (acc, [])
  end.

(** An integer without sign; no leading zero, no fraction, no exponent. *)
Definition number (l : list ascii) : option (Z * list ascii) :=
  let '(n, r) := digits l 0%Z in
  match l, r with
  | c :: d :: _, _ =>
      if ((code c =? 48)%nat && is_digit d) || negb (is_digit c) then None
      else match r with
           | e :: _ =>
               if ((code e =? 46) || (code e =? 101) || (code e =? 69))%nat
               then None else Some (n, r)
           | [] => Some (n, r)
           end
  | [c], _ => if is_digit c then Some (n, r) else None
  | [], _ => None
  end.

Definition unescape (c : ascii) : option ascii :=
  let n := code c in
  if ((n =? 34) || (n =? 92) || (n =? 47))%nat then Some c
  else if (n =? 98)%nat then Some (ascii_of_nat 8)
  else if (n =? 102)%nat then Some (ascii_of_nat 12)
  else if (n =? 110)%nat then Some (ascii_of_nat 10)
  else if (n =? 114)%nat then Some (ascii_of_nat 13)
  else if (n =? 116)%nat then Some (ascii_of_nat 9)
  else None.

Definition push (c : ascii) (p : string * list ascii) : string * list ascii :=
  (String c (fst p), snd p).

(** The inside of a string literal, up to and including the closing quote. *)
Fixpoint string_body (l : list ascii) : option (string * list ascii) :=
  match l with
  | [] => None
  | c :: r =>
      if (code c =? 34)%nat then Some (EmptyString, r)
      else if (code c =? 92)%nat then
        match r with
        | e :: r' =>
            match unescape e with
            | Some ch => option_map (push ch) (string_body r')
            | None => None
            end
        | [] => None
        end
      else if (code c <? 32)%nat then None
      else option_map (push c) (string_body r)
  end.

Fixpoint strip (p : list ascii) (l : list ascii) : option (list ascii) :=
  match p, l with
  | [], _ => Some l
  | a :: p', b :: l' => if Ascii.eqb a b then strip p' l' else None
  | _ :: _, [] => None
  end.

Definition literal (name : string) (v : value) (l : list ascii)
  : option (value * list ascii) :=
  option_map (pair v) (strip (list_ascii_of_string name) l).

Definition first_some {A} (a b : option A) : option A :=
  match a with
  | Some _ => a
  | None => b
  end.

Fixpoint parse_value (fuel : nat) (l : list ascii) : option (value * list ascii) :=
  match fuel with
  | O => None
  | S fuel' =>
      match skip_ws l with
      | [] => None
      | c :: r =>
          let n := code c in
          if (n =? 34)%nat then
            option_map (fun p => (JStr (fst p), snd p)) (string_body r)
          else if (n =? 91)%nat then
            match skip_ws r with
            | d :: r' =>
                if (code d =? 93)%nat then Some (JArr [], r')
                else option_map (fun p => (JArr (fst p), snd p)) (parse_elements fuel' r)
            | [] => None
            end
          else if (n =? 123)%nat then
            match skip_ws r with
            | d :: r' =>
                if (code d =? 125)%nat then Some (JObj [], r')
                else option_map
                       (fun p => (JObj (fold_left (fun acc kv => obj_set (fst kv) (snd kv) acc)
                                                  (fst p) []), snd p))
                       (parse_members fuel' r)
            | [] => None
            end
          else if (n =? 45)%nat then
            option_map (fun p => (JNum (- fst p), snd p)) (number r)
          else if is_digit c then
            option_map (fun p => (JNum (fst p), snd p)) (number (c :: r))
          else
            first_some (literal "null" JNull (c :: r))
              (first_some (literal "true" (JBool true) (c :: r))
                          (literal "false" (JBool false) (c :: r)))
      end
  end
with parse_elements (fuel : nat) (l : list ascii) : option (list value * list ascii) :=
  match fuel with
  | O => None
  | S fuel' =>
      match parse_value fuel' l with
      | Some (v, r) =>
          match skip_ws r with
          | c :: r' =>
              if (code c =? 44)%nat then
                option_map (fun p => (v :: fst p, snd p)) (parse_elements fuel' r')
              else if (code c =? 93)%nat then Some ([v], r')
              else None
          | [] => None
          end
      | None => None
      end
  end
with parse_members (fuel : nat) (l : list ascii)
  : option (list (string * value) * list ascii) :=
  match fuel with
  | O => None
  | S fuel' =>
      match skip_ws l with
      | q :: r0 =>
          if (code q =? 34)%nat then
            match string_body r0 with
            | Some (k, r1) =>
                match skip_ws r1 with
                | colon :: r2 =>
                    if (code colon =? 58)%nat then
                      match parse_value fuel' r2 with
                      | Some (v, r3) =>
                          match skip_ws r3 with
                          | c :: r4 =>
                              if (code c =? 44)%nat then
                                option_map (fun p => ((k, v) :: fst p, snd p))
                                           (parse_members fuel' r4)
                              else if (code c =? 125)%nat then Some ([(k, v)], r4)
                              else None
                          | [] => None
                          end
                      | None => None
                      end
                    else None
                | [] => None
                end
            | None => None
            end
          else None
      | [] => None
      end
  end.

Definition parse (s : string) : option value :=
  let l := list_ascii_of_string s in
  match parse_value (2 * List.length l + 2) l with
  | Some (v, r) => match skip_ws r with [] => Some v | _ :: _ => None end
  | None => None
  end.

(** Serialization with an indentation of two spaces. *)
Definition hex (n : nat) : string :=
  chr (if (n <? 10)%nat then 48 + n else 87 + n).

Definition quote_char (c : ascii) : string :=
  let n := code c in
  if (n =? 34)%nat then bs ++ dq
  else if (n =? 92)%nat then bs ++ bs
  else if (n =? 8)%nat then bs ++ "b"
  else if (n =? 12)%nat then bs ++ "f"
  else if (n =? 10)%nat then bs ++ "n"
  else if (n =? 13)%nat then bs ++ "r"
  else if (n =? 9)%nat then bs ++ "t"
  else if (n <? 32)%nat then bs ++ "u00" ++ hex (n / 16) ++ hex (n mod 16)
  else String c EmptyString.

Fixpoint quote_body (s : string) : string :=
  match s with
  | EmptyString => EmptyString
  | String c r => quote_char c ++ quote_body r
  end.

Definition quote (s : string) : string := dq ++ quote_body s ++ dq.

Fixpoint somes {A} (l : list (option A)) : list A :=
  match l with
  | [] => []
  | Some a :: r => a :: somes r
  | None :: r => somes r
  end.

Fixpoint stringify (indent : string) (v : value) {struct v} : string :=
  let inner := indent ++ "  " in
  let sep := "," ++ nl ++ inner in
  match v with
  | JUndefined | JNull => "null"
  | JBool true => "true"
  | JBool false => "false"
  | JNum n => string_of_Z n
  | JStr s => quote s
  | JArr [] => "[]"
  | JArr l =>
      "[" ++ nl ++ inner ++ String.concat sep (map (stringify inner) l)
      ++ nl ++ indent ++ "]"
  | JObj kvs =>
      match somes (map (fun kv =>
                          let (k, x) := (kv : string * value) in
                          match x with
                          | JUndefined => None
                          | _ => Some (quote k ++ ": " ++ stringify inner x)
                          end) kvs) with
      | [] => "{}"
      | shown => "{" ++ nl ++ inner ++ String.concat sep shown ++ nl ++ indent ++ "}"
      end
  end.

(** Base64 of ASCII text. *)
Definition sextet (c : ascii) : option nat :=
  let n := code c in
  if ((65 <=? n) && (n <=? 90))%nat then Some (n - 65)
  else if ((97 <=? n) && (n <=? 122))%nat then Some (n - 71)
  else if ((48 <=? n) && (n <=? 57))%nat then Some (n + 4)
  else if (n =? 43)%nat then Some 62
  else if (n =? 47)%nat then Some 63
  else None.

Definition is_pad (c : ascii) : bool := (code c =? 61)%nat.

Fixpoint decode (l : list ascii) : option (list nat) :=
  match l with
  | [] => Some []
  | a :: b :: c :: d :: r =>
      match sextet a, sextet b with
      | Some x, Some y =>
          let b1 := x * 4 + y / 16 in
          if is_pad c then
            match r with
            | [] => if is_pad d then Some [b1] else None
            | _ :: _ => None
            end
          else
            match sextet c with
            | Some z =>
                let b2 := (y mod 16) * 16 + z / 4 in
                if is_pad d then
                  match r with
                  | [] => Some [b1; b2]
                  | _ :: _ => None
                  end
                else
                  match sextet d with
                  | Some t =>
                      option_map (fun rest => b1 :: b2 :: (z mod 4) * 64 + t :: rest)
                                 (decode r)
                  | None => None
                  end
            | None => None
            end
      | _, _ => None
      end
  | _ => None
  end.

Definition decode_text (s : string) : option string :=
  match decode (list_ascii_of_string s) with
  | Some bytes =>
      if forallb (fun b => (b <? 128)%nat) bytes
      then Some (string_of_list_ascii (map ascii_of_nat bytes))
      else None
  | None => None
  end.

Definition platform : Platform :=
  {| JSON_parse := parse;
     JSON_stringify := stringify EmptyString;
     atob_utf8 := decode_text;
     JSON_parse_empty := eq_refl |}.

End Reference.



(* ================================================================== *)
(** * Vocabulary of the properties                                     *)
(* ================================================================== *)

(** A list of retryable codes lets [c] through when it is absent or holds [c]. *)
Definition lets_through (retryableErrors : option (list Z)) (c : Z) : Prop :=
  match retryableErrors with
  | None => True
  | Some l => In c l
  end.

(** The fields of a success body. *)
Definition answer_content (r : Response) : option string :=
  match body r with
  | Answer c _ _ _ => Some c
  | _ => None
  end.

Definition answer_chartData (r : Response) : option value :=
  match body r with
  | Answer _ _ _ chart => chart
  | _ => None
  end.

Definition answer_toolUse (r : Response) : option ToolUse :=
  match body r with
  | Answer _ _ t _ => t
  | _ => None
  end.

(** The tool invocation is the one named for chart generation. *)
Definition named_chart (t : ToolUse) : bool := tu_name t =? "generate_graph_data".

(** The value a computation completes with, if it does. *)
Definition normal {A} (c : completion A) : option A :=
  match c with
  | Normal a => Some a
  | Throw _ => None
  end.

(** A conversation turn as the client sends it. *)
Definition turn_value (t : Turn) : value :=
  JObj [("role", role t); ("content", content t)].

(** The role and the content of a message, which is all the route keeps of
    it. *)
Definition turn_of (msg : value) : Turn := mkTurn (prop msg "role") (prop msg "content").

(** The parts of a structured content can be read for the query: each part is
    present, and the [text] of each text part converts to a string (they are
    joined). *)
Definition parts_readable (parts : list value) : Prop :=
  Forall (fun part =>
            nullish part = false
            /\ (Finance.is_text_type (prop part "type") = true ->
                has_primitive (prop part "text") = true))
         parts.

(** Step 1b has a query to read, or none to look for: live data is off, there
    is no message, or the content of the last message is no sequence of parts
    or one that can be read. *)
Definition query_readable (req : Request) (msgs : list value) : Prop :=
  truthy (includeLiveData req) = false
  \/ msgs = []
  \/ match prop (List.last msgs JUndefined) "content" with
     | JArr parts => parts_readable parts
     | _ => True
     end.

(** Step 1b throws while it reads the query: live data is on and the content
    of the last message is a sequence that holds a [null] or [undefined]
    part. *)
Definition query_unreadable (req : Request) (msgs : list value) : Prop :=
  truthy (includeLiveData req) = true
  /\ exists parts,
       prop (List.last msgs JUndefined) "content" = JArr parts
       /\ Exists (fun part => nullish part = true) parts.

(** The two supplementary fetches of a world fail, whatever they are asked. *)
Definition portfolio_fails (w : World) : Prop :=
  forall clientId investmentBankerId firmName portfolioType,
  exists e,
    Retry.outcome (Finance.fetchCombinedCSVsByFirm w clientId investmentBankerId
                     firmName portfolioType) = Throw e.

Definition search_fails (w : World) : Prop :=
  forall query, exists e, Retry.outcome (Finance.searchLive w query) = Throw e.


(** ** The pie reshaping in the words of the specification *)

(** The first candidate that counts as present; the last one when none does. *)
Fixpoint first_truthy (candidates : list value) : value :=
  match candidates with
  | [] => JUndefined
  | [v] => v
  | v :: rest => if truthy v then v else first_truthy rest
  end.

(** A record remapped to the two keys [segment] and [value]. *)
Definition pie_record (segmentKey valueKey : string) (item : value) : value :=
  JObj [ ("segment",
           first_truthy [ prop item segmentKey; prop item "segment";
                          prop item "category"; prop item "name" ]);
         ("value",
           if nullish (prop item valueKey) then prop item "value"
           else prop item valueKey) ].

(* ================================================================== *)
(** * Concrete inputs                                                  *)
(* ================================================================== *)

Module Examples.

Definition http_error (msg : string) (code : Z) : exn :=
  Error msg (mkInfo (Some code) None None false).

(** Fails with 503 twice, then succeeds. *)
Definition flaky (k : nat) : completion string :=
  if (k <? 2)%nat then Throw (http_error "Service Unavailable" 503) else Normal "done".

(** Fails with 401 every time. *)
Definition unauthorized (k : nat) : completion string :=
  Throw (http_error "Unauthorized" 401).

Definition no_jitter (attempt : nat) : Z := 0%Z.

Definition series (label : string) : value := JObj [("label", JStr label)].

(** The pie payload of the reshaping example of the specification. *)
Definition pie_records : list value :=
  [ JObj [("region", JStr "US"); ("sales", JNum 10)];
    JObj [("region", JStr "EU"); ("sales", JNum 5)] ].

Definition pie_config : list (string * value) :=
  [ ("title", JStr "Sales by region"); ("description", JStr "Share of sales");
    ("xAxisKey", JStr "region") ].

Definition pie_props : list (string * value) :=
  [ ("chartType", JStr "pie"); ("config", JObj pie_config);
    ("data", JArr pie_records); ("chartConfig", JObj [("sales", series "Sales")]) ].

Definition pie_payload : value := JObj pie_props.

(** A bar payload without its [data], and three renderings of the same data:
    the array itself, its JSON text, and the JSON text of that text. *)
Definition bar_props : list (string * value) :=
  [ ("chartType", JStr "bar");
    ("config", JObj [("title", JStr "Monthly sales"); ("description", JStr "Sales")]);
    ("chartConfig", JObj [("sales", series "Sales")]) ].

Definition bar_records : list value :=
  [ JObj [("month", JStr "Jan"); ("sales", JNum 10)];
    JObj [("month", JStr "Feb"); ("sales", JNum 12)] ].

Definition encoded_once : string :=
  "[{" ++ Reference.quote "month" ++ ":" ++ Reference.quote "Jan" ++ ","
       ++ Reference.quote "sales" ++ ":10},{"
       ++ Reference.quote "month" ++ ":" ++ Reference.quote "Feb" ++ ","
       ++ Reference.quote "sales" ++ ":12}]".

Definition encoded_twice : string := Reference.quote encoded_once.

(** A pie record whose segment candidates are all falsy, and one whose value
    under the series key is 0. *)
Definition falsy_record : value :=
  JObj [("region", JStr EmptyString); ("name", JNum 0); ("sales", JNum 0);
        ("value", JNum 7)].

Definition falsy_payload : value :=
  JObj [ ("chartType", JStr "pie"); ("config", JObj pie_config);
         ("data", JArr [falsy_record]); ("chartConfig", JObj [("sales", series "Sales")]) ].

Definition chart_tool (input : value) : ToolUse :=
  mkToolUse "toolu_01" "generate_graph_data" input.

Definition bar_payload : value := JObj (obj_set "data" (JArr bar_records) bar_props).

(** A model response whose tool input cannot be normalized: [data] is a string
    that is no JSON text. *)
Definition malformed_payload : value :=
  JObj (obj_set "data" (JStr "not json") bar_props).

Definition malformed_response : list ContentBlock :=
  [ TextBlock "Here is the analysis."; ToolUseBlock (chart_tool malformed_payload) ].

(** A model response with two text blocks and two tool invocations, the chart
    one coming second. *)
(** Requests and worlds. *)
Definition ask (text : string) : Turn := mkTurn (JStr "user") (JStr text).

Definition identifiers : value :=
  JObj [ ("firm_name", JStr "Acme Capital"); ("client_id", JNum 42);
         ("investment_banker_id", JNum 7); ("firm_account_name", JStr "Growth") ].

Definition image_file : value :=
  JObj [ ("base64", JStr "aGVsbG8="); ("mediaType", JStr "image/png");
         ("isText", JBool false) ].

(** Live data off, an image attached. *)
Definition image_request : Request :=
  mkRequest (JArr [turn_value (ask "What does this chart show?")])
            image_file (JStr "claude-3-5-sonnet") (JBool false) JUndefined.

(** Live data on, and a [null] among the parts of the last message. *)
Definition broken_request : Request :=
  mkRequest (JArr [turn_value (mkTurn (JStr "user")
                                 (JArr [JNull; Finance.text_part (JStr "Hello")]))])
            JUndefined (JStr "claude-3-5-sonnet") (JBool true) JUndefined.

(** Live data on, identifiers complete. *)
Definition live_request : Request :=
  mkRequest (JArr [turn_value (ask "How is my portfolio doing?")])
            JUndefined (JStr "claude-3-5-sonnet") (JBool true) identifiers.

(** Both supplementary services are down; the model answers with a chart and
    no text. *)
Definition chart_only_world : World :=
  mkWorld (fun _ _ => 0%Z)
          (fun _ _ _ _ _ => Throw (http_error "Service Unavailable" 503))
          (fun _ _ => Throw (http_error "Service Unavailable" 503))
          (fun _ _ _ => Normal [ToolUseBlock (chart_tool bar_payload)]).

(** Both supplementary services are down; the model answers with text. *)
Definition text_world : World :=
  mkWorld (fun _ _ => 0%Z)
          (fun _ _ _ _ _ => Throw (http_error "Service Unavailable" 503))
          (fun _ _ => Throw (http_error "Service Unavailable" 503))
          (fun _ _ _ => Normal [TextBlock "Your portfolio is up."]).

(** The portfolio service answers with four hundred holdings; the search
    service is down; the model answers with text. *)
Definition holdings : value := JArr (repeat (JNum 1234567) 400).

Definition portfolio_world : World :=
  mkWorld (fun _ _ => 0%Z)
          (fun _ _ _ _ _ => Normal holdings)
          (fun _ _ => Throw (http_error "Service Unavailable" 503))
          (fun _ _ _ => Normal [TextBlock "Your portfolio is up."]).

Definition other_tool : ToolUse := mkToolUse "toolu_00" "lookup_ticker" pie_payload.

Definition mixed_response : list ContentBlock :=
  [ TextBlock "Part one."; ToolUseBlock other_tool;
    TextBlock "Part two."; ToolUseBlock (chart_tool bar_payload) ].

End Examples.


(* ================================================================== *)
(** * Further vocabulary                                               *)
(* ================================================================== *)

(** What follows extends the development beyond the written specification:
    vocabulary for further properties of the retry executor, the normalizer
    and the finance route, then embeddings of the search route (both copies),
    of the two routes wired together, and of a submit of the finance page. *)

(** A call of the operation fails in a way the executor retries: the status
    read off the error is no terminal client error and, when a list of
    retryable codes is given, is on it (or is absent). *)
Definition retried {T} (status_of : exn -> option Z) (retryableErrors : option (list Z))
           (c : completion T) : Prop :=
  exists e, c = Throw e
            /\ Retry.client_error (status_of e) = false
            /\ Retry.not_listed retryableErrors (status_of e) = false.

(** The delays slept before attempts [1 .. n]. *)
Definition schedule (jitter : nat -> Z) (initialDelay maxDelay : Z) (n : nat) : list Z :=
  map (Retry.delay jitter initialDelay maxDelay) (seq 0 n).

(** The series of a chart configuration with their colors, slot [index + 1]
    going to the first one. *)
Fixpoint with_colors (index : nat) (entries : list (string * value))
  : list (string * value) :=
  match entries with
  | [] => []
  | (key, config) :: rest =>
      (key, JObj (obj_set "color" (Normalizer.color index) (own_entries config)))
      :: with_colors (S index) rest
  end.

(** A value a named property can be written to. *)
Definition holds_properties (v : value) : bool :=
  match v with
  | JObj _ | JArr _ => true
  | _ => false
  end.

(** A body that holds an [error] text and nothing else.  The rejections and
    the last case of the outer handler have this one shape on the wire; the
    status tells them apart. *)
Definition error_only (b : Body) : bool :=
  match b with
  | Rejected _ | Failed _ => true
  | _ => false
  end.

(** The four rejections of the finance route. *)
Definition rejections : list string :=
  [ "Messages array is required"; "Model selection is required"; "No file data";
    "Failed to process file content" ].

(** A part of a structured content that is present and is no text part. *)
Definition other_part (part : value) : Prop :=
  nullish part = false /\ Finance.is_text_type (prop part "type") = false.

(** The last turn as the file step builds it for a text file. *)
Definition text_file_turn (fileData : value) (fileText : string) (original : value) : Turn :=
  mkTurn (JStr "user")
    (JArr [ Finance.text_part
              (JStr ("File contents of " ++ ToString (prop fileData "fileName")
                     ++ ":" ++ nl ++ nl ++ fileText));
            Finance.text_part original ]).

(** The last turn as the file step builds it for an image. *)
Definition image_file_turn (fileData : value) (mediaType : string) (original : value) : Turn :=
  mkTurn (JStr "user")
    (JArr [ Finance.image_part (JStr mediaType) (prop fileData "base64");
            Finance.text_part original ]).

Module MoreExamples.

(** A PDF attached as a binary file. *)
Definition pdf_file : value :=
  JObj [ ("base64", JStr "JVBERi0="); ("mediaType", JStr "application/pdf");
         ("isText", JBool false); ("fileName", JStr "report.pdf") ].

Definition pdf_request : Request :=
  mkRequest (JArr [turn_value (Examples.ask "Summarize the report.")])
            pdf_file (JStr "claude-3-5-sonnet") JUndefined JUndefined.

(** A text file attached, live data on. *)
Definition notes_file : value :=
  JObj [ ("base64", JStr "aGVsbG8="); ("mediaType", JStr "text/plain");
         ("isText", JBool true); ("fileName", JStr "notes.txt") ].

(** A request without a model. *)
Definition no_model : Request :=
  mkRequest (JArr [JNull]) JUndefined JUndefined JUndefined JUndefined.

(** Live data off, no file. *)
Definition plain_request : Request :=
  mkRequest (JArr [turn_value (Examples.ask "Chart my revenue by quarter.")])
            JUndefined (JStr "claude-3-5-sonnet") (JBool false) JUndefined.

(** An error of the model client: an API error with a status, and one without
    (the connection failed). *)
Definition api_error (msg : string) (code : Z) : exn :=
  Error msg (mkInfo (Some code) None None true).

Definition connection_error : exn :=
  Error "Connection error." (mkInfo None None None true).

(** The model answers every call with the given error. *)
Definition failing_model (e : exn) : World :=
  mkWorld (fun _ _ => 0%Z)
          (fun _ _ _ _ _ => Throw (Examples.http_error "Service Unavailable" 503))
          (fun _ _ => Throw (Examples.http_error "Service Unavailable" 503))
          (fun _ _ _ => Throw e).

(** A model response with one text block and one chart. *)
Definition chart_response : list ContentBlock :=
  [ TextBlock "Sales by month."; ToolUseBlock (Examples.chart_tool Examples.bar_payload) ].

(** A conversation of three turns, live data on. *)
Definition followup_request : Request :=
  mkRequest (JArr [ turn_value (Examples.ask "Hello");
                    turn_value (mkTurn (JStr "assistant") (JStr "Hi, how can I help?"));
                    turn_value (Examples.ask "How is my portfolio doing?") ])
            JUndefined (JStr "claude-3-5-sonnet") (JBool true) Examples.identifiers.

Definition notes_request : Request :=
  mkRequest (JArr [turn_value (Examples.ask "Compare with my holdings.")])
            notes_file (JStr "claude-3-5-sonnet") (JBool true) Examples.identifiers.

(** A payload with two series. *)
Definition two_series_config : list (string * value) :=
  [ ("revenue", JObj [("label", JStr "Revenue")]);
    ("cost", JObj [("label", JStr "Cost"); ("stacked", JBool true)]) ].

Definition two_series_props : list (string * value) :=
  [ ("chartType", JStr "multiBar");
    ("config", JObj [("title", JStr "Revenue and cost"); ("description", JStr "By month")]);
    ("data", JArr [JObj [("month", JStr "Jan"); ("revenue", JNum 10); ("cost", JNum 4)]]);
    ("chartConfig", JObj two_series_config) ].

Definition two_series : value := JObj two_series_props.

(** Fails with a network error (no status) once, with 503 once, then succeeds. *)
Definition shaky (k : nat) : completion string :=
  match k with
  | 0 => Throw TypeError
  | 1 => Throw (Examples.http_error "Service Unavailable" 503)
  | _ => Normal "done"
  end.

(** Fails with 503 every time. *)
Definition down (k : nat) : completion string :=
  Throw (Examples.http_error "Service Unavailable" 503).

(** Fails with 501 every time. *)
Definition not_implemented (k : nat) : completion string :=
  Throw (Examples.http_error "Not Implemented" 501).

End MoreExamples.

(* ================================================================== *)
(** * [app/api/perplexity/route.ts]                                    *)
(* ================================================================== *)

(** What [fetch] resolves to: the status line, and the body as [text()] and
    [json()] give it, [None] where that call rejects. *)
Record Fetched : Type := mkFetched
  { f_status : Z;
    f_statusText : string;
    f_text : option string;
    f_json : option value }.

(** The [error] field of a response of the search route.  The message of an
    error raised by the platform itself is the engine's and is left
    uninterpreted: [EngineText before] is [before] followed by that message. *)
Inductive ErrorText : Type :=
| Text (s : string)
| EngineText (before : string).

(** A response of the search route: the status and the fields of its body
    ([s_error] is [None] when the body has no [error] field). *)
Record SearchResponse : Type := mkSearchResponse
  { s_status : Z;
    s_success : bool;
    s_error : option ErrorText;
    s_content : value;
    s_citations : value }.

(** The search route, current copy: validation, the call of the search
    service under [retryWithBackoff], the mapping of its failures and the
    extraction of content and citations. *)
Module SearchRoute.

Definition in_range (lo hi n : Z) : bool := ((lo <=? n) && (n <=? hi))%Z.

(** [res.ok] *)
Definition ok (status : Z) : bool := in_range 200 299 status.

(** [new Response(body, { status })] with a body throws outside 200..599 and
    on a status that allows no body; the caller does not look at the class of
    what is thrown. *)
Definition constructible (status : Z) : bool :=
  in_range 200 599 status
  && negb ((status =? 204) || (status =? 205) || (status =? 304))%Z.

Definition failed (status : Z) (error : ErrorText) : completion SearchResponse :=
  if constructible status
  then Normal (mkSearchResponse status false (Some error) (JStr EmptyString) (JArr []))
  else Throw TypeError.

(** [before] followed by [e.message]. *)
Definition message_text (before : string) (e : exn) : ErrorText :=
  match e with
  | Error msg _ => Text (before ++ msg)
  | TypeError => EngineText before
  end.

(** The outer [catch]. *)
Definition caught (c : completion SearchResponse) : SearchResponse :=
  match c with
  | Normal r => r
  | Throw e =>
      mkSearchResponse 500 false (Some (message_text EmptyString e))
                       (JStr EmptyString) (JArr [])
  end.

(** [!apiKey] is false. *)
Definition configured (apiKey : option string) : bool :=
  match apiKey with
  | Some k => negb (k =? EmptyString)
  | None => false
  end.

(** From the top of [POST] to the check of the key: a response that ends the
    request, or the query.  [body] is [None] when [req.json()] rejects.  A
    truthy [query] that is no string has no [trim] to call. *)
Definition accept (apiKey : option string) (body : option value)
  : completion (SearchResponse + string) :=
  match body with
  | None =>
      let* r := failed 400 (Text "Invalid JSON in request body") in Normal (inl r)
  | Some b =>
      let* query := member b "query" in
      if negb (truthy query)
      then let* r := failed 400 (Text "Query cannot be empty") in Normal (inl r)
      else
        match query with
        | JStr q =>
            if blank q
            then let* r := failed 400 (Text "Query cannot be empty") in Normal (inl r)
            else if negb (configured apiKey)
            then let* r := failed 500
                             (Text "PERPLEXITY_API_KEY not configured. Please add it to your .env.local file.")
                 in Normal (inl r)
            else Normal (inr q)
        | _ => Throw TypeError
        end
  end.

(** The error thrown on a response that is not [ok]. *)
Definition request_error (res : Fetched) : exn :=
  Error ("Perplexity API error: " ++ ToString (JNum (f_status res)) ++ " - "
         ++ match f_text res with Some t => t | None => "Unknown error" end)
        (mkInfo (Some (f_status res)) None None false).

(** The operation handed to [retryWithBackoff]. *)
Definition attempt (fetch : nat -> completion Fetched) (k : nat) : completion Fetched :=
  let* res := fetch k in
  if ok (f_status res) then Normal res else Throw (request_error res).

(** [`API error: ${fetchError?.status || 500} ${fetchError?.message || "Unknown error"}`] *)
Definition api_error_text (code : Z) (fetchError : exn) : ErrorText :=
  let before := "API error: " ++ ToString (JNum code) ++ " " in
  match fetchError with
  | Error msg _ => Text (before ++ (if msg =? EmptyString then "Unknown error" else msg))
  | TypeError => EngineText before
  end.

Definition has_status (fetchError : exn) (code : Z) : bool :=
  match Perplexity.statusCode_of fetchError with
  | Some c => (c =? code)%Z
  | None => false
  end.

(** The [catch] around the call. *)
Definition on_failure (fetchError : exn) : completion SearchResponse :=
  if has_status fetchError 429
  then failed 429 (Text "Rate limit exceeded. Please try again later.")
  else if has_status fetchError 401
  then failed 401 (Text "Invalid API key. Please check your PERPLEXITY_API_KEY.")
  else
    let code :=
      match Perplexity.statusCode_of fetchError with
      | Some c => if (c =? 0)%Z then 500%Z else c
      | None => 500%Z
      end in
    failed code (api_error_text code fetchError).

(** From [response.json()] to the response of success. *)
Definition extract (res : Fetched) : completion SearchResponse :=
  match f_json res with
  | None => failed 500 (Text "Invalid JSON response from Perplexity API")
  | Some data =>
      let* choices := member data "choices" in
      let content :=
        js_or (opt_member (opt_member (opt_member choices "0") "message") "content")
              (JStr EmptyString) in
      let citations := js_or (prop data "citations") (JArr []) in
      Normal (mkSearchResponse 200 true None content citations)
  end.

Definition search (jitter : nat -> Z) (fetch : nat -> completion Fetched)
  : Retry.Run Fetched :=
  Perplexity.retryWithBackoff jitter (attempt fetch) 3 1000 10000.

(** The route: its response and the number of calls of the search service.
    [fetch query k] is what the [k]-th call (from 0) does. *)
Definition POST (apiKey : option string) (jitter : nat -> Z)
           (fetch : string -> nat -> completion Fetched) (body : option value)
  : SearchResponse * nat :=
  match accept apiKey body with
  | Throw e => (caught (Throw e), 0)
  | Normal (inl response) => (response, 0)
  | Normal (inr query) =>
      let run := search jitter (fetch query) in
      (caught (match Retry.outcome run with
               | Normal res => extract res
               | Throw fetchError => on_failure fetchError
               end),
       Retry.calls run)
  end.

End SearchRoute.

(** The earlier copy of the search route: one call, no retry; the status of a
    response that is not [ok] is read off the response itself. *)
Module SearchRouteEarlier.
Import SearchRoute.

(** [`Network error: ${fetchError.message}`], status 500. *)
Definition on_network_error (fetchError : exn) : completion SearchResponse :=
  failed 500 (message_text "Network error: " fetchError).

(** From [if (!response.ok)] to the response of success; [response.text()] has
    no handler of its own here. *)
Definition on_response (res : Fetched) : completion SearchResponse :=
  if negb (ok (f_status res)) then
    match f_text res with
    | None => Throw TypeError
    | Some _ =>
        if (f_status res =? 429)%Z
        then failed 429 (Text "Rate limit exceeded. Please try again later.")
        else if (f_status res =? 401)%Z
        then failed 401 (Text "Invalid API key. Please check your PERPLEXITY_API_KEY.")
        else failed (f_status res)
               (Text ("API error: " ++ ToString (JNum (f_status res)) ++ " "
                      ++ f_statusText res))
    end
  else extract res.

Definition POST (apiKey : option string)
           (fetch : string -> nat -> completion Fetched) (body : option value)
  : SearchResponse * nat :=
  match accept apiKey body with
  | Throw e => (caught (Throw e), 0)
  | Normal (inl response) => (response, 0)
  | Normal (inr query) =>
      (caught (match fetch query 0 with
               | Normal res => on_response res
               | Throw fetchError => on_network_error fetchError
               end),
       1)
  end.

End SearchRouteEarlier.

(** What every response of the search route looks like: a status a response
    can be built with; a success has status 200, no [error], and a content and
    citations that are truthy or the defaults; a failure has another status, an
    [error] and the defaults for content and citations. *)
Definition well_formed (r : SearchResponse) : Prop :=
  SearchRoute.constructible (s_status r) = true
  /\ (s_success r = true ->
      s_status r = 200%Z /\ s_error r = None
      /\ (truthy (s_content r) = true \/ s_content r = JStr EmptyString)
      /\ truthy (s_citations r) = true)
  /\ (s_success r = false ->
      s_status r <> 200%Z /\ s_error r <> None
      /\ s_content r = JStr EmptyString /\ s_citations r = JArr []).

(** [fetch] rejects with errors that carry no [status]. *)
Definition plain_rejections (fetch : string -> nat -> completion Fetched) : Prop :=
  forall query k e, fetch query k = Throw e -> Perplexity.statusCode_of e = None.

(** A failure response of the search route with a text of the route's own. *)
Definition search_failure (status : Z) (text : string) : SearchResponse :=
  mkSearchResponse status false (Some (Text text)) (JStr EmptyString) (JArr []).

(** The [error] the current copy reports for a response that is not [ok],
    whose error went through the [catch] around the call. *)
Definition reported (res : Fetched) : string :=
  if (f_status res =? 429)%Z then "Rate limit exceeded. Please try again later."
  else if (f_status res =? 401)%Z
  then "Invalid API key. Please check your PERPLEXITY_API_KEY."
  else "API error: " ++ ToString (JNum (f_status res)) ++ " "
       ++ "Perplexity API error: " ++ ToString (JNum (f_status res)) ++ " - "
       ++ match f_text res with Some t => t | None => "Unknown error" end.

Module SearchExamples.

Definition key : option string := Some "pplx-key".

Definition ask (query : string) : option value := Some (JObj [("query", JStr query)]).

Definition answer : value :=
  JObj [ ("choices",
          JArr [JObj [("message", JObj [ ("role", JStr "assistant");
                                         ("content", JStr "Rates were held.") ])]]);
         ("citations", JArr [JStr "https://example.org/rates"]) ].

Definition answered : Fetched :=
  mkFetched 200 "OK" (Some "{...}") (Some answer).

Definition refused (code : Z) (statusText : string) : Fetched :=
  mkFetched code statusText (Some "denied") None.

(** The service answers every call alike. *)
Definition steady (res : Fetched) : string -> nat -> completion Fetched :=
  fun _ _ => Normal res.

(** The network is down twice, then the service answers. *)
Definition recovering : string -> nat -> completion Fetched :=
  fun _ k =>
    match k with
    | 0 => Throw (Error "fetch failed" plain)
    | 1 => Normal (refused 503 "Service Unavailable")
    | _ => Normal answered
    end.

Definition offline : string -> nat -> completion Fetched :=
  fun _ _ => Throw (Error "fetch failed" plain).

End SearchExamples.

(* ================================================================== *)
(** * The two routes together                                          *)
(* ================================================================== *)

(** In a deployment the finance route reaches the search service through the
    search route ([fetch(`${baseUrl}/api/perplexity`)] with the body
    [{ query }]), each under its own [retryWithBackoff].  The text of a
    response body, which the finance route only puts into the message of the
    error it throws, is left as a parameter. *)
Module Deployment.
Section Wiring.
Context `{P : Platform}.
Variable apiKey : option string.
Variable describe : SearchResponse -> string.
(** [service k query i]: what the [i]-th call of the search service does during
    the [k]-th invocation of the search route. *)
Variable service : nat -> string -> nat -> completion Fetched.
Variable route_jitter : nat -> nat -> Z.

(** The [k]-th invocation of the search route by the finance route. *)
Definition route (query : string) (k : nat) : SearchResponse * nat :=
  SearchRoute.POST apiKey (route_jitter k) (service k)
                   (Some (JObj [("query", JStr query)])).

(** [perplexityResponse.json()]: the fields of the body the finance route
    reads ([error], which it only logs, is left out). *)
Definition payload (r : SearchResponse) : value :=
  JObj [ ("success", JBool (s_success r)); ("content", s_content r);
         ("citations", s_citations r) ].

Definition call_failed (r : SearchResponse) : exn :=
  Error ("Perplexity API call failed: " ++ ToString (JNum (s_status r)) ++ " - "
         ++ describe r)
        (mkInfo (Some (s_status r)) None None false).

(** The operation the finance route hands to its [retryWithBackoff]. *)
Definition perplexity_api (query : string) (k : nat) : completion value :=
  let r := fst (route query k) in
  if SearchRoute.ok (s_status r) then Normal (payload r) else Throw (call_failed r).

(** The world of the finance route, its search calls going through the search
    route. *)
Definition world (w : World) : World :=
  mkWorld (jitter w) (portfolio_api w) perplexity_api (anthropic_create w).

(** Calls of the search service during the first [n] invocations of the search
    route. *)
Definition service_calls (query : string) (n : nat) : nat :=
  list_sum (map (fun k => snd (route query k)) (seq 0 n)).

(** Calls of the search service during one request to the finance route. *)
Definition service_calls_of (w : World) (req : Request) : nat :=
  match Finance.prepare req with
  | inl _ => 0
  | inr _ =>
      match Finance.step1b (world w) req (Normalizer.items_of (messages req)) with
      | Normal (query, _, invocations) => service_calls query invocations
      | Throw _ => 0
      end
  end.
End Wiring.
End Deployment.

Module DeploymentExamples.

Definition describe (r : SearchResponse) : string := "{...}".

(** The search service answers every call of every invocation alike. *)
Definition steady (res : Fetched) : nat -> string -> nat -> completion Fetched :=
  fun _ _ _ => Normal res.

Definition no_jitter : nat -> nat -> Z := fun _ _ => 0%Z.

End DeploymentExamples.

(* ================================================================== *)
(** * The finance page: a submit, from the form to the reply            *)
(* ================================================================== *)

(** [handleSubmit] of the finance page, in the copy that keeps the upload
    until the reply has arrived (the copy at [app/finance/page.tsx] clears it
    when the message is sent and ignores a submit while a file is being read;
    the request and the reply are built alike in both).  The page's state is
    passed explicitly; message ids, the scroll lock and the toasts are left
    out.  The finance route is reached in process: a
    [fetch] that itself rejects is not modelled.  [decode] stands for
    [decodeURIComponent(atob(base64))], [None] where that throws. *)
Module Client.

(** A value after [JSON.stringify] on one side and [json()] on the other:
    properties that are [undefined] are left out, items that are [undefined]
    become [null]; JSON data arrives as it was. *)
Fixpoint received (v : value) {struct v} : value :=
  match v with
  | JArr items =>
      JArr (map (fun x => match x with JUndefined => JNull | _ => received x end) items)
  | JObj props =>
      JObj ((fix entries (kvs : list (string * value)) : list (string * value) :=
               match kvs with
               | [] => []
               | kv :: rest =>
                   let (k, x) := (kv : string * value) in
                   match x with
                   | JUndefined => entries rest
                   | _ => (k, received x) :: entries rest
                   end
               end) props)
  | _ => v
  end.

Record Upload : Type := mkUpload
  { u_base64 : string;
    u_fileName : string;
    u_mediaType : string;
    u_isText : bool }.

Record Message : Type := mkMessage
  { m_role : string;
    m_content : value;
    m_hasToolUse : value;
    m_file : option Upload;
    m_chartData : value }.

Record Page : Type := mkPage
  { p_messages : list Message;
    p_input : string;
    p_isLoading : bool;
    p_currentUpload : option Upload }.

Definition user_message (input : string) (currentUpload : option Upload) : Message :=
  mkMessage "user" (JStr input) JUndefined currentUpload JNull.

Definition thinking : Message :=
  mkMessage "assistant" (JStr "thinking") JUndefined None JNull.

Definition error_message : Message :=
  mkMessage "assistant" (JStr "I encountered an error. Please try again.")
            JUndefined None JNull.

Section Submit.
Context `{P : Platform}.
Variable decode : string -> option string.

(** The callback of [[...messages, userMessage].map]. *)
Definition apiMessage (msg : Message) : option Turn :=
  match m_file msg with
  | Some file =>
      if u_isText file then
        match decode (u_base64 file) with
        | Some decodedText =>
            Some (mkTurn (JStr (m_role msg))
                    (JStr ("File contents of " ++ u_fileName file ++ ":" ++ nl ++ nl
                           ++ decodedText ++ nl ++ nl ++ ToString (m_content msg))))
        | None => None
        end
      else
        Some (mkTurn (JStr (m_role msg))
                (JArr [ Finance.image_part (JStr (u_mediaType file))
                                           (JStr (u_base64 file));
                        Finance.text_part (m_content msg) ]))
  | None => Some (mkTurn (JStr (m_role msg)) (m_content msg))
  end.

Fixpoint apiMessages (msgs : list Message) : option (list Turn) :=
  match msgs with
  | [] => Some []
  | msg :: rest =>
      match apiMessage msg with
      | Some turn =>
          match apiMessages rest with
          | Some turns => Some (turn :: turns)
          | None => None
          end
      | None => None
      end
  end.

(** [requestBody], as the route's [req.json()] gives it. *)
Definition requestBody (turns : list Turn) (selectedModel : string) (icfObj : value)
  : Request :=
  mkRequest (received (JArr (map turn_value turns))) JUndefined (JStr selectedModel)
            JUndefined (received icfObj).

(** The message put in place of the thinking message. *)
Definition reply (response : Response) : Message :=
  if SearchRoute.ok (http_status response) then
    match body response with
    | Answer content hasToolUse toolUse chartData =>
        let data_chartData :=
          match chartData with Some chart => received chart | None => JNull end in
        let data_toolUse_input :=
          match toolUse with Some t => received (tu_input t) | None => JUndefined end in
        mkMessage "assistant" (JStr content)
                  (JBool (hasToolUse
                          || match toolUse with Some _ => true | None => false end))
                  None
                  (js_or data_chartData (js_or data_toolUse_input JNull))
    | _ => mkMessage "assistant" JUndefined (JBool false) None JNull
    end
  else error_message.

(** [handleSubmit]: the page afterwards and, when a request was made, what it
    did to the outside. *)
Definition handleSubmit (w : World) (selectedModel : string) (icfObj : value)
           (page : Page) : Page * option Trace :=
  if blank (p_input page)
     && match p_currentUpload page with Some _ => false | None => true end
  then (page, None)
  else if p_isLoading page then (page, None)
  else
    let userMessage := user_message (p_input page) (p_currentUpload page) in
    let shown := (p_messages page ++ [userMessage; thinking])%list in
    match apiMessages (p_messages page ++ [userMessage])%list with
    | None => (mkPage shown EmptyString true (p_currentUpload page), None)
    | Some turns =>
        let '(response, trace) :=
          Finance.POST w (requestBody turns selectedModel icfObj) in
        (mkPage (Finance.set_last (reply response) shown) EmptyString false
                (if SearchRoute.ok (http_status response)
                 then None else p_currentUpload page),
         Some trace)
    end.
End Submit.

End Client.

(** The conversation as the route reads it off the request of the client. *)
Definition arrived (turns : list Turn) : list Turn :=
  map (fun t => mkTurn (Client.received (role t)) (Client.received (content t))) turns.

(** The chart data the client keeps for a model response: the chart of the
    route, else the input of the tool invocation as the route echoes it, else
    [null]. *)
Definition chart_shown `{Platform} (content : list ContentBlock) : value :=
  match Finance.toolUseContent_of content with
  | None => JNull
  | Some t =>
      match Finance.processToolResponse (tu_input t) with
      | (Normal chart, _) => Client.received chart
      | (Throw _, input) => js_or (Client.received input) JNull
      end
  end.

Module ClientExamples.

Definition decode (s : string) : option string := Some s.

Definition first_page : Client.Page :=
  Client.mkPage [] "Chart my sales by month." false None.

(** The model answers with a chart whose [data] is no JSON text. *)
Definition careless_model : World :=
  mkWorld (fun _ _ => 0%Z)
          (fun _ _ _ _ _ => Throw (Examples.http_error "Service Unavailable" 503))
          (fun _ _ => Throw (Examples.http_error "Service Unavailable" 503))
          (fun _ _ _ => Normal Examples.malformed_response).

End ClientExamples.
(* ================================================================== *)
(** * Properties of the retry executor                                 *)
(* ================================================================== *)

Section RetryFacts.
Context {T : Type}.
Variable fn : nat -> completion T.
Variable jitter : nat -> Z.
Variables initialDelay maxDelay : Z.
Variable status_of : exn -> option Z.
Variable retryableErrors : option (list Z).

Lemma client_error_range (c : Z) :
  (400 <= c < 500)%Z -> c <> 429%Z -> Retry.client_error (Some c) = true.
Proof.
  intros [Hlo Hhi] Hne. unfold Retry.client_error.
  assert (H0 : (c =? 0)%Z = false) by (apply Z.eqb_neq; lia).
  assert (H1 : (400 <=? c)%Z = true) by (apply Z.leb_le; lia).
  assert (H2 : (c <? 500)%Z = true) by (apply Z.ltb_lt; lia).
  assert (H3 : (c =? 429)%Z = false) by (apply Z.eqb_neq; lia).
  rewrite H0, H1, H2, H3. reflexivity.
Qed.

(** A terminal client error on the first call ends the run at once. *)
Lemma run_client_error (maxRetries : Z) (e : exn) (c : Z) :
  fn 0 = Throw e -> status_of e = Some c ->
  (400 <= c < 500)%Z -> c <> 429%Z -> (1 <= maxRetries)%Z ->
  Retry.run fn jitter maxRetries initialDelay maxDelay status_of retryableErrors
  = Retry.mkRun (Throw e) 1 [].
Proof.
  intros Hfn Hst Hrange Hne Hmax. unfold Retry.run.
  destruct (Z.to_nat maxRetries) as [|n] eqn:Hn; [lia|].
  cbn [Retry.attempts]. rewrite Hfn, Hst, (client_error_range c Hrange Hne).
  reflexivity.
Qed.

(** Two retryable failures followed by a success, three attempts allowed. *)
Lemma run_third_time_lucky (e1 e2 : exn) (c1 c2 : Z) (v : T) :
  fn 0 = Throw e1 -> fn 1 = Throw e2 -> fn 2 = Normal v ->
  status_of e1 = Some c1 -> status_of e2 = Some c2 ->
  Retry.client_error (Some c1) = false -> Retry.client_error (Some c2) = false ->
  Retry.not_listed retryableErrors (Some c1) = false ->
  Retry.not_listed retryableErrors (Some c2) = false ->
  Retry.run fn jitter 3 initialDelay maxDelay status_of retryableErrors
  = Retry.mkRun (Normal v) 3
      [Retry.delay jitter initialDelay maxDelay 0;
       Retry.delay jitter initialDelay maxDelay 1].
Proof.
  intros H0 H1 H2 S1 S2 C1 C2 L1 L2. unfold Retry.run.
  change (Z.to_nat 3) with 3.
  cbn [Retry.attempts]. rewrite H0, S1, C1, L1. cbn [Z.of_nat Z.eqb Z.sub Z.add Z.opp Z.pos_sub].
  cbn. rewrite H1, S2, C2, L2. cbn. rewrite H2. reflexivity.
Qed.

(** The operation is never called more often than [maxRetries] allows. *)
Lemma attempts_calls_bound (maxRetries : Z) (remaining attempt called : nat)
      (lastError : option exn) (slept : list Z) :
  Retry.calls (Retry.attempts fn jitter maxRetries initialDelay maxDelay status_of
                 retryableErrors remaining attempt called lastError slept)
  <= called + remaining.
Proof.
  revert attempt called lastError slept.
  induction remaining as [|r IH]; intros attempt called lastError slept.
  - cbn. lia.
  - cbn [Retry.attempts]. destruct (fn called) as [v|e]; [cbn; lia|].
    destruct (Retry.client_error _); [cbn; lia|].
    destruct (Retry.not_listed _ _); [cbn; lia|].
    destruct (Z.eqb _ _); [cbn; lia|].
    specialize (IH (S attempt) (S called) (Some e)
                   (slept ++ [Retry.delay jitter initialDelay maxDelay attempt])%list).
    lia.
Qed.

Lemma run_calls_bound (maxRetries : Z) :
  Retry.calls (Retry.run fn jitter maxRetries initialDelay maxDelay status_of
                 retryableErrors)
  <= Z.to_nat maxRetries.
Proof. unfold Retry.run. apply (attempts_calls_bound maxRetries). Qed.
End RetryFacts.

Lemma not_listed_absent (c : option Z) : Retry.not_listed None c = false.
Proof. reflexivity. Qed.

Lemma not_listed_member (l : list Z) (c : Z) :
  In c l -> Retry.not_listed (Some l) (Some c) = false.
Proof.
  intros Hin. unfold Retry.not_listed.
  assert (H : existsb (Z.eqb c) l = true).
  { apply existsb_exists. exists c. split; [exact Hin | apply Z.eqb_refl]. }
  rewrite H. apply andb_false_r.
Qed.

Lemma lets_through_not_listed (r : option (list Z)) (c : Z) :
  lets_through r c -> Retry.not_listed r (Some c) = false.
Proof.
  destruct r as [l|]; cbn [lets_through]; intros H.
  - now apply not_listed_member.
  - reflexivity.
Qed.

(** C2.  Retry policy, for both copies of the helper.  An operation that fails
    with status 503 on its first two calls and succeeds on the third, run with
    three attempts allowed (and, in the finance route, a list of retryable
    codes that is absent or holds 503), yields the success value after exactly
    three calls.  An operation whose first call fails with a status in
    [400,500) other than 429 (401 for one) is called exactly once, whatever
    number of attempts (at least one) is allowed, and its error is the
    result. *)
Theorem C2_retry_policy (T : Type) (jitter : nat -> Z) (initialDelay maxDelay : Z) :
  (forall (fn : nat -> completion T) e1 e2 v retryableErrors,
      fn 0 = Throw e1 -> fn 1 = Throw e2 -> fn 2 = Normal v ->
      Finance.statusCode_of e1 = Some 503%Z ->
      Finance.statusCode_of e2 = Some 503%Z ->
      lets_through retryableErrors 503 ->
      let r := Finance.retryWithBackoff jitter fn 3 initialDelay maxDelay retryableErrors in
      Retry.outcome r = Normal v /\ Retry.calls r = 3)
  /\ (forall (fn : nat -> completion T) e c maxRetries retryableErrors,
      fn 0 = Throw e -> Finance.statusCode_of e = Some c ->
      (400 <= c < 500)%Z -> c <> 429%Z -> (1 <= maxRetries)%Z ->
      let r := Finance.retryWithBackoff jitter fn maxRetries initialDelay maxDelay
                 retryableErrors in
      Retry.outcome r = Throw e /\ Retry.calls r = 1)
  /\ (forall (fn : nat -> completion T) e1 e2 v,
      fn 0 = Throw e1 -> fn 1 = Throw e2 -> fn 2 = Normal v ->
      Perplexity.statusCode_of e1 = Some 503%Z ->
      Perplexity.statusCode_of e2 = Some 503%Z ->
      let r := Perplexity.retryWithBackoff jitter fn 3 initialDelay maxDelay in
      Retry.outcome r = Normal v /\ Retry.calls r = 3)
  /\ (forall (fn : nat -> completion T) e c maxRetries,
      fn 0 = Throw e -> Perplexity.statusCode_of e = Some c ->
      (400 <= c < 500)%Z -> c <> 429%Z -> (1 <= maxRetries)%Z ->
      let r := Perplexity.retryWithBackoff jitter fn maxRetries initialDelay maxDelay in
      Retry.outcome r = Throw e /\ Retry.calls r = 1).
Proof.
  split; [|split; [|split]]; intros; subst r;
    unfold Finance.retryWithBackoff, Perplexity.retryWithBackoff.
  - erewrite run_third_time_lucky by (eauto using lets_through_not_listed).
    split; reflexivity.
  - erewrite run_client_error by eauto. split; reflexivity.
  - erewrite run_third_time_lucky by (eauto using not_listed_absent).
    split; reflexivity.
  - erewrite run_client_error by eauto. split; reflexivity.
Qed.

Lemma C2_retry_policy_witness :
  (Retry.outcome (Finance.retryWithBackoff Examples.no_jitter Examples.flaky
                    3 1000 10000 Finance.retryable) = Normal "done"
   /\ Retry.calls (Finance.retryWithBackoff Examples.no_jitter Examples.flaky
                     3 1000 10000 Finance.retryable) = 3)
  /\ (Retry.outcome (Finance.retryWithBackoff Examples.no_jitter Examples.unauthorized
                       5 1000 10000 Finance.retryable)
      = Throw (Examples.http_error "Unauthorized" 401)
      /\ Retry.calls (Finance.retryWithBackoff Examples.no_jitter Examples.unauthorized
                        5 1000 10000 Finance.retryable) = 1)
  /\ (Retry.outcome (Perplexity.retryWithBackoff Examples.no_jitter Examples.flaky
                       3 1000 10000) = Normal "done"
      /\ Retry.calls (Perplexity.retryWithBackoff Examples.no_jitter Examples.flaky
                        3 1000 10000) = 3)
  /\ (Retry.outcome (Perplexity.retryWithBackoff Examples.no_jitter Examples.unauthorized
                       5 1000 10000)
      = Throw (Examples.http_error "Unauthorized" 401)
      /\ Retry.calls (Perplexity.retryWithBackoff Examples.no_jitter Examples.unauthorized
                        5 1000 10000) = 1).
Proof.
  destruct (C2_retry_policy string Examples.no_jitter 1000 10000) as (A & B & C & D).
  split; [| split; [| split]].
  - apply (A Examples.flaky (Examples.http_error "Service Unavailable" 503)
             (Examples.http_error "Service Unavailable" 503) "done" Finance.retryable);
      try reflexivity.
    simpl. right; right; right; left; reflexivity.
  - apply (B Examples.unauthorized (Examples.http_error "Unauthorized" 401) 401%Z 5%Z
             Finance.retryable); try reflexivity; lia.
  - apply (C Examples.flaky (Examples.http_error "Service Unavailable" 503)
             (Examples.http_error "Service Unavailable" 503) "done"); reflexivity.
  - apply (D Examples.unauthorized (Examples.http_error "Unauthorized" 401) 401%Z 5%Z);
      try reflexivity; lia.
Defined.

(* ================================================================== *)
(** * Properties of objects                                            *)
(* ================================================================== *)

Lemma assoc_obj_set_same (k : string) (x : value) (kvs : list (string * value)) :
  assoc k (obj_set k x kvs) = Some x.
Proof.
  induction kvs as [|[k' y] r IH]; cbn.
  - now rewrite String.eqb_refl.
  - destruct (k' =? k) eqn:E; cbn.
    + now rewrite String.eqb_refl.
    + now rewrite E.
Qed.

Lemma assoc_obj_set_other (k k' : string) (x : value) (kvs : list (string * value)) :
  k <> k' -> assoc k (obj_set k' x kvs) = assoc k kvs.
Proof.
  intros Hne. induction kvs as [|[k0 y] r IH]; cbn.
  - destruct (k' =? k) eqn:E; [apply String.eqb_eq in E; congruence | reflexivity].
  - destruct (k0 =? k') eqn:E; cbn.
    + apply String.eqb_eq in E. subst k0.
      destruct (k' =? k) eqn:E'; [apply String.eqb_eq in E'; congruence | reflexivity].
    + destruct (k0 =? k); [reflexivity | exact IH].
Qed.

Lemma obj_set_twice (k : string) (x y : value) (kvs : list (string * value)) :
  obj_set k y (obj_set k x kvs) = obj_set k y kvs.
Proof.
  induction kvs as [|[k' z] r IH]; cbn.
  - now rewrite String.eqb_refl.
  - destruct (k' =? k) eqn:E; cbn.
    + now rewrite String.eqb_refl.
    + now rewrite E, IH.
Qed.

Lemma prop_obj_set_same (k : string) (x : value) (kvs : list (string * value)) :
  prop (JObj (obj_set k x kvs)) k = x.
Proof. cbn. now rewrite assoc_obj_set_same. Qed.

Lemma prop_obj_set_other (k k' : string) (x : value) (kvs : list (string * value)) :
  k <> k' -> prop (JObj (obj_set k' x kvs)) k = prop (JObj kvs) k.
Proof. intros H. cbn. now rewrite assoc_obj_set_other. Qed.

Lemma truthy_not_nullish (v : value) : truthy v = true -> nullish v = false.
Proof. destruct v; cbn; congruence. Qed.

Lemma prop_nullish (v : value) (k : string) : nullish v = true -> prop v k = JUndefined.
Proof. destruct v; cbn; congruence. Qed.

(** Only an object holds a string, an array or an object under a name that is
    not [length]. *)
Lemma member_normal (v : value) (k : string) :
  nullish v = false -> member v k = Normal (prop v k).
Proof. intros H. unfold member. now rewrite H. Qed.

(* ================================================================== *)
(** * Properties of the normalizer                                     *)
(* ================================================================== *)

(** Unfolds the plumbing of [Upd] computations. *)
Ltac unfold_upd :=
  unfold Normalizer.bindU, Normalizer.read, Normalizer.lift, Normalizer.ret,
    Normalizer.throw.

Section NormalizerFacts.
Context `{P : Platform}.
Import Normalizer.

Lemma bindU_normal {A B} (c : Upd A) (k : A -> Upd B) (o o' : value) (a : A) :
  c o = (Normal a, o') -> bindU c k o = k a o'.
Proof. intros H. unfold bindU. now rewrite H. Qed.

Lemma bindU_throw {A B} (c : Upd A) (k : A -> Upd B) (o o' : value) (e : exn) :
  c o = (Throw e, o') -> bindU c k o = (Throw e, o').
Proof. intros H. unfold bindU. now rewrite H. Qed.

(** *** The string case of [data] *)

Lemma parse_data_not_string (o : value) :
  nullish o = false ->
  (forall s, prop o "data" <> JStr s) ->
  parse_data o = (Normal tt, o).
Proof.
  intros Hn Hd. unfold parse_data. unfold_upd.
  rewrite (member_normal _ _ Hn).
  destruct (prop o "data") eqn:E; try reflexivity.
  exfalso. now apply (Hd s).
Qed.

Lemma JSON_parse_nonempty (s : string) (v : value) :
  JSON_parse s = Some v -> truthy (JStr s) = true.
Proof.
  intros H. cbn. destruct (s =? EmptyString) eqn:E; [|reflexivity].
  apply String.eqb_eq in E. subst s. rewrite JSON_parse_empty in H. discriminate.
Qed.

Lemma parse_data_once (props : list (string * value)) (s : string) (v : value) :
  JSON_parse s = Some v ->
  (forall s', v <> JStr s') ->
  parse_data (JObj (obj_set "data" (JStr s) props))
  = (Normal tt, JObj (obj_set "data" v props)).
Proof.
  intros Hp Hv. unfold parse_data. unfold_upd.
  rewrite member_normal by reflexivity. rewrite prop_obj_set_same.
  rewrite (JSON_parse_nonempty s v Hp), Hp.
  destruct v; try (exfalso; now eapply Hv);
    unfold write, assign; now rewrite obj_set_twice.
Qed.

Lemma parse_data_twice (props : list (string * value)) (s2 s : string) (v : value) :
  JSON_parse s2 = Some (JStr s) ->
  JSON_parse s = Some v ->
  parse_data (JObj (obj_set "data" (JStr s2) props))
  = (Normal tt, JObj (obj_set "data" v props)).
Proof.
  intros Hp2 Hp. unfold parse_data. unfold_upd.
  rewrite member_normal by reflexivity. rewrite prop_obj_set_same.
  rewrite (JSON_parse_nonempty s2 _ Hp2), Hp2, Hp.
  unfold write, assign. now rewrite obj_set_twice.
Qed.

(** *** The last step *)

Lemma finish_state (o : value) : snd (finish o) = o.
Proof.
  unfold finish. unfold_upd.
  destruct (Object_entries (prop o "chartConfig")); reflexivity.
Qed.

Lemma finish_normal (o r st : value) :
  finish o = (Normal r, st) ->
  st = o
  /\ r = JObj (obj_set "chartConfig"
                 (JObj (assignColors 0 (own_entries (prop o "chartConfig")) []))
                 (own_entries o)).
Proof.
  unfold finish, Object_entries. unfold_upd.
  destruct (nullish (prop o "chartConfig")); intros H; inversion H; subst.
  split; reflexivity.
Qed.

Lemma validate_state (o : value) : snd (validate o) = o.
Proof.
  unfold validate. unfold_upd.
  destruct (member o "chartType"); [|reflexivity].
  destruct (_ || _); reflexivity.
Qed.

Lemma validate_normal (o st : value) (u : unit) :
  validate o = (Normal u, st) ->
  st = o /\ truthy (prop o "chartType") = true /\ isArray (prop o "data") = true.
Proof.
  unfold validate, member. unfold_upd.
  destruct (nullish o); [discriminate|].
  destruct (truthy (prop o "chartType")); cbn [negb orb]; [|discriminate].
  destruct (truthy (prop o "data")); cbn [negb orb]; [|discriminate].
  destruct (isArray (prop o "data")); cbn [negb]; [|discriminate].
  intros H; inversion H; auto.
Qed.

Lemma pie_not_pie (o : value) :
  is_pie (prop o "chartType") = false -> pie o = (Normal tt, o).
Proof. intros H. unfold pie, bindU, read. now rewrite H. Qed.
End NormalizerFacts.

Section PieFacts.
Import Normalizer.

Lemma js_or_chain (a b c d : value) :
  js_or (js_or (js_or a b) c) d = first_truthy [a; b; c; d].
Proof.
  unfold js_or. cbn [first_truthy].
  destruct (truthy a) eqn:Ea; [now rewrite Ea, Ea|].
  destruct (truthy b) eqn:Eb; [now rewrite Eb|].
  destruct (truthy c) eqn:Ec; reflexivity.
Qed.

(** The callback of the pie branch computes [pie_record]. *)
Lemma reshape_pie_record (chartData item : value) :
  nullish (prop chartData "chartConfig") = false ->
  nullish (prop chartData "config") = false ->
  nullish item = false ->
  reshape chartData item
  = Normal (pie_record
              (ToString (js_or (prop (prop chartData "config") "xAxisKey")
                               (JStr "segment")))
              (ToString (first_key (map fst (own_entries (prop chartData "chartConfig")))))
              item).
Proof.
  intros Hcc Hcfg Hitem. unfold reshape, Object_keys, bind.
  rewrite Hcc, (member_normal _ _ Hcfg), (member_normal _ _ Hitem).
  unfold pie_record. rewrite js_or_chain. reflexivity.
Qed.

Lemma mapM_reshape (chartData : value) (items : list value) :
  nullish (prop chartData "chartConfig") = false ->
  nullish (prop chartData "config") = false ->
  Forall (fun item => nullish item = false) items ->
  mapM (reshape chartData) items
  = Normal (map (pie_record
                   (ToString (js_or (prop (prop chartData "config") "xAxisKey")
                                    (JStr "segment")))
                   (ToString (first_key
                                (map fst (own_entries (prop chartData "chartConfig"))))))
                items).
Proof.
  intros Hcc Hcfg Hall. induction Hall as [|item r Hitem _ IH]; [reflexivity|].
  cbn [mapM map]. rewrite (reshape_pie_record _ _ Hcc Hcfg Hitem). cbn [bind].
  rewrite IH. reflexivity.
Qed.


(** Whatever the payload, a pie branch that completes leaves an object with
    an array under [data], and leaves everything as it was when the chart is
    no pie. *)
Lemma pie_normal_obj (kvs : list (string * value)) (st : value) (u : unit) :
  isArray (prop (JObj kvs) "data") = true ->
  pie (JObj kvs) = (Normal u, st) ->
  exists kvs', st = JObj kvs'
               /\ isArray (prop (JObj kvs') "data") = true
               /\ (is_pie (prop (JObj kvs) "chartType") = false -> kvs' = kvs).
Proof.
  intros Harr. unfold pie, bindU, read.
  destruct (is_pie (prop (JObj kvs) "chartType")) eqn:Hpie.
  - cbn [lift].
    destruct (mapM (reshape (JObj kvs)) (items_of (prop (JObj kvs) "data")))
      as [items|e]; [|discriminate].
    unfold write at 1. cbn [assign].
    destruct (assign (prop (JObj (obj_set "data" (JArr items) kvs)) "config")
                     "xAxisKey" (JStr "segment")) as [cfg'|e]; [|discriminate].
    unfold write. cbn [assign]. intros H. inversion H; subst.
    eexists; split; [reflexivity|]. split; [|discriminate].
    rewrite prop_obj_set_other by discriminate.
    now rewrite prop_obj_set_same.
  - unfold ret. intros H. inversion H; subst. eauto.
Qed.

Lemma pie_state_not_pie (o : value) :
  is_pie (prop o "chartType") = false -> snd (pie o) = o.
Proof. intros H. now rewrite pie_not_pie. Qed.
End PieFacts.

Section NormalizerClaims.
Context `{P : Platform}.
Import Normalizer.

Lemma isArray_inv (v : value) : isArray v = true -> exists l, v = JArr l.
Proof. destruct v; cbn; try discriminate. eauto. Qed.

(** The four steps of a run that completes. *)
Lemma processToolResponse_normal (o chart st : value) :
  Finance.processToolResponse o = (Normal chart, st) ->
  exists o1 o2 o3,
    parse_data o = (Normal tt, o1) /\ validate o1 = (Normal tt, o2)
    /\ pie o2 = (Normal tt, o3) /\ finish o3 = (Normal chart, st).
Proof.
  unfold Finance.processToolResponse, bindU.
  destruct (parse_data o) as [[[]|e1] o1] eqn:E1; [|discriminate].
  destruct (validate o1) as [[[]|e2] o2] eqn:E2; [|discriminate].
  destruct (pie o2) as [[[]|e3] o3] eqn:E3; [|discriminate].
  intros H. exists o1, o2, o3. repeat split; assumption.
Qed.

(** The payload returned is the input object as the run left it, with
    [chartConfig] replaced. *)
Lemma processToolResponse_copy (o chart st : value) :
  Finance.processToolResponse o = (Normal chart, st) ->
  chart = JObj (obj_set "chartConfig" (prop chart "chartConfig") (own_entries st)).
Proof.
  intros H. apply processToolResponse_normal in H as (o1 & o2 & o3 & _ & _ & _ & F).
  apply finish_normal in F as [-> ->]. now rewrite prop_obj_set_same.
Qed.

(** Nothing is written when [data] is an array already and the chart is no
    pie. *)
Lemma processToolResponse_untouched (o : value) :
  isArray (prop o "data") = true ->
  is_pie (prop o "chartType") = false ->
  snd (Finance.processToolResponse o) = o.
Proof.
  intros Harr Hpie.
  assert (Hn : nullish o = false).
  { destruct (nullish o) eqn:E; [|reflexivity].
    rewrite (prop_nullish _ _ E) in Harr. discriminate. }
  unfold Finance.processToolResponse.
  rewrite (bindU_normal _ _ o o tt).
  2:{ apply parse_data_not_string; [exact Hn|].
      intros s Hs. rewrite Hs in Harr. discriminate. }
  unfold bindU at 1.
  pose proof (validate_state o) as V.
  destruct (validate o) as [[[]|e] o1]; cbn [snd] in V; subst o1; [|reflexivity].
  rewrite (bindU_normal _ _ o o tt) by now apply pie_not_pie.
  apply finish_state.
Qed.

(** C3.  Round trip of an encoded [data].  A payload whose [data] is the JSON
    text of an array, and the payload whose [data] is the JSON text of that
    text, are normalized exactly as the payload that carries the array
    itself: same completion, same state of the input object.  When the
    normalization completes, [data] of the result is an array, and it is the
    given array when the chart is no pie. *)
Theorem C3_data_round_trip (props : list (string * value)) (records : list value)
        (once twice : string) :
  JSON_parse once = Some (JArr records) ->
  JSON_parse twice = Some (JStr once) ->
  let native := JObj (obj_set "data" (JArr records) props) in
  let single := JObj (obj_set "data" (JStr once) props) in
  let double := JObj (obj_set "data" (JStr twice) props) in
  Finance.processToolResponse single = Finance.processToolResponse native
  /\ Finance.processToolResponse double = Finance.processToolResponse native
  /\ (forall chart input',
         Finance.processToolResponse native = (Normal chart, input') ->
         exists data,
           prop chart "data" = JArr data /\ prop input' "data" = JArr data
           /\ (is_pie (prop native "chartType") = false -> data = records)).
Proof.
  intros Honce Htwice native single double.
  assert (Hnative : parse_data native = (Normal tt, native)).
  { apply parse_data_not_string; [reflexivity|].
    intros s. unfold native. rewrite prop_obj_set_same. discriminate. }
  assert (Hsingle : parse_data single = (Normal tt, native)).
  { apply parse_data_once; [exact Honce | discriminate]. }
  assert (Hdouble : parse_data double = (Normal tt, native)).
  { eapply parse_data_twice; eassumption. }
  unfold Finance.processToolResponse.
  rewrite (bindU_normal _ _ _ _ _ Hnative), (bindU_normal _ _ _ _ _ Hsingle),
    (bindU_normal _ _ _ _ _ Hdouble).
  split; [reflexivity|]. split; [reflexivity|].
  intros chart input'. unfold bindU.
  destruct (validate native) as [[[]|e2] o2] eqn:V; [|discriminate].
  apply validate_normal in V as (-> & _ & Harr).
  destruct (pie native) as [[[]|e3] o3] eqn:Pi; [|discriminate].
  apply (pie_normal_obj _ _ _ Harr) in Pi as (kvs' & -> & Harr' & Hsame).
  intros F. apply finish_normal in F as [-> ->].
  apply isArray_inv in Harr' as [data Hdata]. exists data.
  rewrite prop_obj_set_other by discriminate. cbn [own_entries].
  repeat split; try exact Hdata.
  intros Hpie. specialize (Hsame Hpie). subst kvs'.
  rewrite prop_obj_set_same in Hdata. congruence.
Qed.

End NormalizerClaims.

Lemma C3_data_round_trip_witness :
  let native := JObj (obj_set "data" (JArr Examples.bar_records) Examples.bar_props) in
  let single := JObj (obj_set "data" (JStr Examples.encoded_once) Examples.bar_props) in
  let double := JObj (obj_set "data" (JStr Examples.encoded_twice) Examples.bar_props) in
  Reference.parse Examples.encoded_once = Some (JArr Examples.bar_records)
  /\ Reference.parse Examples.encoded_twice = Some (JStr Examples.encoded_once)
  /\ @Finance.processToolResponse Reference.platform single
     = @Finance.processToolResponse Reference.platform native
  /\ @Finance.processToolResponse Reference.platform double
     = @Finance.processToolResponse Reference.platform native
  /\ exists chart,
       @Finance.processToolResponse Reference.platform native = (Normal chart, native)
       /\ prop chart "data" = JArr Examples.bar_records.
Proof.
  intros native single double.
  assert (H1 : @JSON_parse Reference.platform Examples.encoded_once
               = Some (JArr Examples.bar_records)) by (vm_compute; reflexivity).
  assert (H2 : @JSON_parse Reference.platform Examples.encoded_twice
               = Some (JStr Examples.encoded_once)) by (vm_compute; reflexivity).
  destruct (@C3_data_round_trip Reference.platform Examples.bar_props
              Examples.bar_records Examples.encoded_once Examples.encoded_twice H1 H2)
    as (A & B & C).
  split; [exact H1|]. split; [exact H2|]. split; [exact A|]. split; [exact B|].
  eexists. split; [vm_compute; reflexivity | vm_compute; reflexivity].
Defined.


(* ================================================================== *)
(** * Missing values in the pie reshaping                              *)
(* ================================================================== *)

(** C10 as stated fails: all four segment candidates of this record are falsy,
    and the segment produced is the 0 held by its [name], not [undefined]. *)
Lemma C10_counterexample :
  let item := Examples.falsy_record in
  truthy (prop item "region") = false
  /\ truthy (prop item "segment") = false
  /\ truthy (prop item "category") = false
  /\ truthy (prop item "name") = false
  /\ Normalizer.reshape Examples.falsy_payload item
     = Normal (JObj [("segment", JNum 0); ("value", JNum 0)])
  /\ JNum 0 <> JUndefined.
Proof. cbv zeta. repeat split; try reflexivity. discriminate. Qed.

(** C10, amended.  In the pie reshaping of a record (an object), the two
    keys looked up being names of fields, not of members every object
    inherits: [value] is the field of the first series key unless that is
    [null] or [undefined] (0 is kept), and only then the field named value;
    [segment] is the first truthy one of the field named by [config.xAxisKey]
    (by default segment) and the fields segment, category and name, every
    falsy value being passed over, and when all four are falsy it is what the
    field [name] holds. *)
Theorem C10_pie_missing_values (chartData item series : value) (valueKey : string)
        (others : list (string * value)) :
  prop chartData "chartConfig" = JObj ((valueKey, series) :: others) ->
  nullish (prop chartData "config") = false ->
  is_object item = true ->
  plain_key (js_or (prop (prop chartData "config") "xAxisKey") (JStr "segment")) = true ->
  inherited valueKey = false ->
  let segmentKey :=
    ToString (js_or (prop (prop chartData "config") "xAxisKey") (JStr "segment")) in
  exists segment value,
    Normalizer.reshape chartData item
    = Normal (JObj [("segment", segment); ("value", value)])
    /\ (nullish (prop item valueKey) = false -> value = prop item valueKey)
    /\ (nullish (prop item valueKey) = true -> value = prop item "value")
    /\ (truthy (prop item segmentKey) = true -> segment = prop item segmentKey)
    /\ (truthy (prop item segmentKey) = false ->
        truthy (prop item "segment") = true -> segment = prop item "segment")
    /\ (truthy (prop item segmentKey) = false ->
        truthy (prop item "segment") = false ->
        truthy (prop item "category") = true -> segment = prop item "category")
    /\ (truthy (prop item segmentKey) = false ->
        truthy (prop item "segment") = false ->
        truthy (prop item "category") = false -> segment = prop item "name").
Proof.
  intros Hcc Hcfg Hrecord _ _ segmentKey.
  assert (Hitem : nullish item = false) by now destruct item.
  rewrite reshape_pie_record by (rewrite ?Hcc; auto).
  rewrite Hcc. cbn [own_entries map fst first_key ToString]. fold segmentKey.
  unfold pie_record. eexists; eexists. split; [reflexivity|].
  cbn [first_truthy].
  destruct (nullish (prop item valueKey)); destruct (truthy (prop item segmentKey));
    destruct (truthy (prop item "segment")); destruct (truthy (prop item "category"));
    repeat split; intros; congruence.
Qed.

Lemma C10_pie_missing_values_witness :
  exists segment value,
    Normalizer.reshape Examples.falsy_payload Examples.falsy_record
    = Normal (JObj [("segment", segment); ("value", value)])
    /\ value = JNum 0 /\ segment = JNum 0.
Proof.
  destruct (C10_pie_missing_values Examples.falsy_payload Examples.falsy_record
              (Examples.series "Sales") "sales" [] eq_refl eq_refl eq_refl eq_refl
              eq_refl)
    as (segment & value & R & V & _ & _ & _ & _ & S).
  exists segment, value. split; [exact R|]. split.
  - apply V. reflexivity.
  - apply S; reflexivity.
Defined.

(* ================================================================== *)
(** * From the model response to the route response                    *)
(* ================================================================== *)

Lemma find_split {A} (f : A -> bool) (l : list A) (x : A) :
  find f l = Some x ->
  exists pre post,
    l = (pre ++ x :: post)%list /\ f x = true /\ Forall (fun y => f y = false) pre.
Proof.
  induction l as [|a r IH]; cbn; [discriminate|].
  destruct (f a) eqn:E.
  - intros H; inversion H; subst. exists [], r. auto.
  - intros H. destruct (IH H) as (pre & post & -> & Hx & Hpre).
    exists (a :: pre), post. auto.
Qed.

Lemma find_none_all {A} (f : A -> bool) (l : list A) :
  find f l = None -> Forall (fun y => f y = false) l.
Proof.
  induction l as [|a r IH]; cbn; [constructor|].
  destruct (f a) eqn:E; [discriminate|]. auto.
Qed.

(** Which tool invocation the current copy selects: the first one named
    [generate_graph_data] if there is one, the first one of all otherwise. *)
Lemma toolUseContent_of_spec (content : list ContentBlock) :
  match Finance.toolUseContent_of content with
  | Some t =>
      (exists pre post,
          tool_uses content = (pre ++ t :: post)%list
          /\ named_chart t = true /\ Forall (fun u => named_chart u = false) pre)
      \/ (Forall (fun u => named_chart u = false) (tool_uses content)
          /\ exists post, tool_uses content = t :: post)
  | None => tool_uses content = []
  end.
Proof.
  unfold Finance.toolUseContent_of.
  destruct (find _ (tool_uses content)) as [t|] eqn:F.
  - left. apply find_split in F. exact F.
  - apply find_none_all in F.
    destruct (tool_uses content) as [|t post]; cbn; [reflexivity|].
    right. split; [exact F | eauto].
Qed.

Section RespondFacts.
Context `{P : Platform}.

(** The response of the current copy, field by field. *)
Lemma respond_fields (content : list ContentBlock) :
  Finance.respond content
  = mkResponse 200
      (Answer (String.concat (nl ++ nl) (texts content))
              (existsb is_tool_use content)
              (option_map
                 (fun t => mkToolUse (tu_id t) (tu_name t)
                             (snd (Finance.processToolResponse (tu_input t))))
                 (Finance.toolUseContent_of content))
              (match Finance.toolUseContent_of content with
               | Some t => normal (fst (Finance.processToolResponse (tu_input t)))
               | None => None
               end)).
Proof.
  unfold Finance.respond, Finance.fullTextContent.
  destruct (Finance.toolUseContent_of content) as [t|]; [|reflexivity].
  cbn [option_map].
  destruct (Finance.processToolResponse (tu_input t)) as [[chart|e] st]; reflexivity.
Qed.

(** In the current copy a tool input that cannot be normalized costs the
    chart only: the response is a success, carries no chart, and its text is
    the text of the model. *)
Lemma respond_survives_throw (content : list ContentBlock) (t : ToolUse)
      (e : exn) (st : value) :
  Finance.toolUseContent_of content = Some t ->
  Finance.processToolResponse (tu_input t) = (Throw e, st) ->
  http_status (Finance.respond content) = 200%Z
  /\ answer_content (Finance.respond content) = Some (Finance.fullTextContent content)
  /\ answer_chartData (Finance.respond content) = None.
Proof.
  intros Ht He. rewrite respond_fields, Ht, He. repeat split.
Qed.

Lemma respond_always_succeeds (content : list ContentBlock) :
  http_status (Finance.respond content) = 200%Z
  /\ answer_content (Finance.respond content)
     = Some (String.concat (nl ++ nl) (texts content)).
Proof. rewrite respond_fields. split; reflexivity. Qed.

(** C9, amended.  The normalizer runs at most once per request, on the input
    of the selected tool invocation, and writes its repairs into that very
    object.  The [toolUse] echoed back carries the object as the run left
    it; the chart payload is a copy of that state in which only
    [chartConfig] is replaced; and the echoed input is the input the model
    gave whenever [data] was an array already and the chart is no pie. *)
Theorem C9_payload_and_echo (content : list ContentBlock) (t : ToolUse) :
  Finance.toolUseContent_of content = Some t ->
  let run := Finance.processToolResponse (tu_input t) in
  answer_toolUse (Finance.respond content)
  = Some (mkToolUse (tu_id t) (tu_name t) (snd run))
  /\ answer_chartData (Finance.respond content) = normal (fst run)
  /\ (forall chart, fst run = Normal chart ->
        chart = JObj (obj_set "chartConfig" (prop chart "chartConfig")
                        (own_entries (snd run))))
  /\ (isArray (prop (tu_input t) "data") = true ->
      Normalizer.is_pie (prop (tu_input t) "chartType") = false ->
      snd run = tu_input t).
Proof.
  intros Ht run. rewrite respond_fields, Ht. cbn [answer_toolUse answer_chartData body option_map].
  split; [reflexivity|]. split; [reflexivity|]. split.
  - intros chart Hc. apply (processToolResponse_copy (tu_input t)).
    subst run. destruct (Finance.processToolResponse (tu_input t)) as [r st].
    cbn [fst snd] in *. now subst r.
  - intros. now apply processToolResponse_untouched.
Qed.
End RespondFacts.

Lemma C9_payload_and_echo_witness :
  let content := [ToolUseBlock (Examples.chart_tool Examples.bar_payload)] in
  answer_toolUse (@Finance.respond Reference.platform content)
  = Some (Examples.chart_tool Examples.bar_payload)
  /\ exists chart,
       answer_chartData (@Finance.respond Reference.platform content) = Some chart
       /\ chart = JObj (obj_set "chartConfig" (prop chart "chartConfig")
                          (own_entries Examples.bar_payload)).
Proof.
  intros content.
  destruct (@C9_payload_and_echo Reference.platform content
              (Examples.chart_tool Examples.bar_payload) eq_refl)
    as (A & B & C & D).
  assert (U : snd (@Finance.processToolResponse Reference.platform Examples.bar_payload)
              = Examples.bar_payload) by (apply D; reflexivity).
  cbn [tu_input Examples.chart_tool] in *.
  split.
  - rewrite A, U. reflexivity.
  - destruct (fst (@Finance.processToolResponse Reference.platform Examples.bar_payload))
      as [chart|e] eqn:E; [|vm_compute in E; discriminate].
    exists chart. split; [rewrite B; reflexivity|].
    pose proof (C chart eq_refl) as C'. rewrite U in C'. exact C'.
Defined.

(** C9 as stated fails: on the pie payload the [toolUse] echoed back does not
    carry the input the model gave; its [data] is the reshaped array, the very
    one of the chart payload. *)
Lemma C9_counterexample :
  let content := [ToolUseBlock (Examples.chart_tool Examples.pie_payload)] in
  exists echo chart,
    answer_toolUse (@Finance.respond Reference.platform content) = Some echo
    /\ answer_chartData (@Finance.respond Reference.platform content) = Some chart
    /\ tu_input echo <> Examples.pie_payload
    /\ prop (tu_input echo) "data" = prop chart "data"
    /\ prop (tu_input echo) "data"
       = JArr [ JObj [("segment", JStr "US"); ("value", JNum 10)];
                JObj [("segment", JStr "EU"); ("value", JNum 5)] ].
Proof.
  cbv zeta. eexists; eexists.
  split; [vm_compute; reflexivity|]. split; [vm_compute; reflexivity|].
  split; [vm_compute; discriminate|]. split; vm_compute; reflexivity.
Qed.

(** What the normalizer of the earlier copy throws is a [TypeError] or the
    structure error; the outer [catch] turns either into status 500. *)
Lemma reshape_throws (chartData item : value) (e : exn) :
  Normalizer.reshape chartData item = Throw e -> e = TypeError.
Proof.
  unfold Normalizer.reshape, Object_keys, member.
  destruct (nullish (prop chartData "chartConfig")); cbn [bind]; [congruence|].
  destruct (nullish (prop chartData "config")); cbn [bind]; [congruence|].
  destruct (nullish item); cbn [bind]; congruence.
Qed.

Lemma mapM_reshape_throws (chartData : value) (items : list value) (e : exn) :
  mapM (Normalizer.reshape chartData) items = Throw e -> e = TypeError.
Proof.
  induction items as [|item r IH]; cbn [mapM]; [discriminate|].
  destruct (Normalizer.reshape chartData item) as [y|e1] eqn:R; cbn [bind].
  - destruct (mapM (Normalizer.reshape chartData) r); cbn [bind]; [discriminate|].
    intros H. apply IH. congruence.
  - intros H. inversion H; subst. eapply reshape_throws; eassumption.
Qed.

Lemma assign_throws (v x : value) (k : string) (e : exn) :
  assign v k x = Throw e -> e = TypeError.
Proof. destruct v; cbn; congruence. Qed.

Lemma earlier_normalizer_throws (o st : value) (e : exn) :
  FinanceEarlier.processToolResponse o = (Throw e, st) ->
  e = TypeError \/ e = Normalizer.structure_error.
Proof.
  unfold FinanceEarlier.processToolResponse, Normalizer.bindU.
  destruct (Normalizer.validate o) as [[[]|e1] o1] eqn:V.
  - destruct (Normalizer.pie o1) as [[[]|e2] o2] eqn:Pi.
    + unfold Normalizer.finish, Normalizer.bindU, Normalizer.read, Normalizer.lift,
        Normalizer.ret, Object_entries.
      destruct (nullish (prop o2 "chartConfig")); intros H; inversion H; auto.
    + intros H. inversion H; subst. left. revert Pi.
      unfold Normalizer.pie, Normalizer.bindU, Normalizer.read, Normalizer.lift,
        Normalizer.ret, Normalizer.write.
      destruct (Normalizer.is_pie (prop o1 "chartType")); [|discriminate].
      destruct (mapM _ _) as [items|e3] eqn:M.
      * destruct (assign o1 "data" (JArr items)) as [o'|e4] eqn:A1.
        -- destruct (assign (prop o' "config") "xAxisKey" (JStr "segment"))
             as [cfg|e5] eqn:A2.
           ++ destruct (assign o' "config" cfg) as [o''|e6] eqn:A3;
                intros H'; inversion H'; subst. eapply assign_throws; eassumption.
           ++ intros H'; inversion H'; subst. eapply assign_throws; eassumption.
        -- intros H'; inversion H'; subst. eapply assign_throws; eassumption.
      * intros H'; inversion H'; subst. eapply mapM_reshape_throws; eassumption.
  - intros H. inversion H; subst. revert V.
    unfold Normalizer.validate, Normalizer.bindU, Normalizer.read, Normalizer.lift,
      Normalizer.ret, Normalizer.throw, member.
    destruct (nullish o); [intros H'; inversion H'; auto|].
    destruct (_ || _); intros H'; inversion H'; auto.
Qed.

(** In the earlier copy a tool input that cannot be normalized costs the whole
    response: status 500 and no text. *)
Lemma earlier_respond_hard_failure (content : list ContentBlock) (t : ToolUse)
      (e : exn) (st : value) :
  FinanceEarlier.toolUseContent_of content = Some t ->
  FinanceEarlier.processToolResponse (tu_input t) = (Throw e, st) ->
  FinanceEarlier.respond content = mkResponse 500 (Failed e).
Proof.
  intros Ht He. unfold FinanceEarlier.respond.
  destruct content as [|c r]; [discriminate|].
  rewrite Ht, He.
  destruct (earlier_normalizer_throws _ _ _ He) as [-> | ->]; reflexivity.
Qed.

(** C1.  The two copies on a model response whose tool input cannot be
    normalized ([data] is a string that is no JSON text).  The earlier copy
    answers with status 500 and the error, losing the text; the current copy
    answers with status 200, the text, and no chart. *)
Theorem C1_earlier_copy_hard_failure :
  FinanceEarlier.respond Examples.malformed_response
  = mkResponse 500 (Failed Normalizer.structure_error)
  /\ @Finance.respond Reference.platform Examples.malformed_response
     = mkResponse 200
         (Answer "Here is the analysis." true
                 (Some (Examples.chart_tool Examples.malformed_payload)) None).
Proof. split; vm_compute; reflexivity. Qed.

(** C7.  The two copies on a model response with two text blocks and two tool
    invocations, the chart one second.  The earlier copy returns the first
    text block alone and normalizes the first tool invocation; the current
    copy returns both texts joined by a blank line and normalizes the
    invocation named [generate_graph_data]. *)
Theorem C7_earlier_copy_first_blocks_only :
  answer_content (FinanceEarlier.respond Examples.mixed_response) = Some "Part one."
  /\ option_map tu_name (answer_toolUse (FinanceEarlier.respond Examples.mixed_response))
     = Some "lookup_ticker"
  /\ answer_content (@Finance.respond Reference.platform Examples.mixed_response)
     = Some ("Part one." ++ nl ++ nl ++ "Part two.")
  /\ option_map tu_name
       (answer_toolUse (@Finance.respond Reference.platform Examples.mixed_response))
     = Some "generate_graph_data".
Proof. repeat split; vm_compute; reflexivity. Qed.

(* ================================================================== *)
(** * The route before the model call                                  *)
(* ================================================================== *)

Lemma mapM_to_turn (turns : list Turn) :
  mapM Finance.to_turn (map turn_value turns) = Normal turns.
Proof.
  induction turns as [|[r c] rest IH]; [reflexivity|].
  cbn [map mapM]. rewrite IH. reflexivity.
Qed.

Section RouteFacts.
Context `{P : Platform}.
Variable w : World.


Lemma step1a_off (req : Request) :
  truthy (includeLiveData req) = false -> Finance.step1a w req = (JNull, 0).
Proof. intros H. unfold Finance.step1a. now rewrite H. Qed.

Lemma step1b_off (req : Request) (msgs : list value) :
  truthy (includeLiveData req) = false ->
  Finance.step1b w req msgs = Normal (EmptyString, None, 0).
Proof. intros H. unfold Finance.step1b. now rewrite H. Qed.

Lemma step2_nothing_to_fuse (req : Request) (query : string) (conversation : list Turn) :
  Finance.step2 req JNull None query conversation = Normal conversation.
Proof.
  unfold Finance.step2, Finance.fusion_applies. cbn [truthy orb].
  now rewrite andb_false_r.
Qed.

Lemma step2_off (req : Request) (stockData : value) (pd : option Finance.PerplexityData)
      (query : string) (conversation : list Turn) :
  truthy (includeLiveData req) = false ->
  Finance.step2 req stockData pd query conversation = Normal conversation.
Proof. intros H. unfold Finance.step2, Finance.fusion_applies. now rewrite H. Qed.

(** The route with live data off. *)
Lemma POST_off (req : Request) (conversation : list Turn) :
  truthy (includeLiveData req) = false ->
  Finance.prepare req = inr conversation ->
  Finance.POST w req
  = (match Retry.outcome (Finance.createMessage w req conversation) with
     | Normal content => Finance.respond content
     | Throw e => Finance.failure e
     end,
     mkTrace 0 0 (Retry.calls (Finance.createMessage w req conversation))
             (Some conversation)).
Proof.
  intros Hoff Hprep. unfold Finance.POST.
  rewrite Hprep, (step1a_off _ Hoff), (step1b_off _ _ Hoff), (step2_off _ _ _ _ _ Hoff).
  reflexivity.
Qed.

Lemma mapM_to_turn_of (msgs : list value) :
  Forall (fun msg => nullish msg = false) msgs ->
  mapM Finance.to_turn msgs = Normal (map turn_of msgs).
Proof.
  induction 1 as [|m r Hm _ IH]; [reflexivity|].
  cbn [mapM map]. unfold Finance.to_turn at 1.
  rewrite !(member_normal _ _ Hm). cbn [bind]. rewrite IH. reflexivity.
Qed.

Lemma turn_of_turn_value (turns : list Turn) : map turn_of (map turn_value turns) = turns.
Proof.
  induction turns as [|[r c] rest IH]; [reflexivity|].
  cbn [map]. rewrite IH. reflexivity.
Qed.

Lemma last_present (msgs : list value) :
  Forall (fun msg => nullish msg = false) msgs -> msgs <> [] ->
  member (List.last msgs JUndefined) "content"
  = Normal (prop (List.last msgs JUndefined) "content").
Proof.
  intros Hall Hne. apply member_normal.
  revert Hne. induction Hall as [|m r Hm Hr IH]; [congruence|]. intros _.
  destruct r as [|m' r']; [exact Hm|].
  change (nullish (List.last (m' :: r') JUndefined) = false). apply IH. discriminate.
Qed.

(** C6, amended.  For a valid request with [includeLiveData] off, no
    supplementary fetch is attempted and the fusion step leaves the
    conversation alone: the model is handed the conversation as prepared from
    the request.  Without [fileData], and with a [fileData] that is neither a
    text file nor an image (it is ignored), that is the role and the content
    of each message, other fields dropped: the input conversation unchanged
    when the messages hold nothing else.  With a text file or an image, the
    last of these turns is replaced by the file-bearing turn: the file text or
    the image part, followed by the original content. *)
Theorem C6_live_data_off (req : Request) (msgs : list value) :
  messages req = JArr msgs ->
  Forall (fun msg => nullish msg = false) msgs ->
  truthy (model req) = true ->
  truthy (includeLiveData req) = false ->
  let plain := map turn_of msgs in
  let original := prop (List.last msgs JUndefined) "content" in
  let handed conversation :=
    portfolio_calls (snd (Finance.POST w req)) = 0
    /\ search_calls (snd (Finance.POST w req)) = 0
    /\ sent (snd (Finance.POST w req)) = Some conversation in
  (forall conversation, Finance.prepare req = inr conversation -> handed conversation)
  /\ (truthy (fileData req) = false -> handed plain)
  /\ (forall turns, msgs = map turn_value turns -> plain = turns)
  /\ (truthy (fileData req) = true ->
      truthy (prop (fileData req) "base64") = true ->
      (forall mediaType,
          truthy (prop (fileData req) "isText") = false ->
          prop (fileData req) "mediaType" = JStr mediaType ->
          prefix "image/" mediaType = false ->
          handed plain)
      /\ (forall mediaType,
             truthy (prop (fileData req) "isText") = false ->
             prop (fileData req) "mediaType" = JStr mediaType ->
             prefix "image/" mediaType = true ->
             msgs <> [] ->
             handed (Finance.set_last
                       (image_file_turn (fileData req) mediaType original) plain))
      /\ (forall fileText,
             truthy (prop (fileData req) "isText") = true ->
             has_primitive (prop (fileData req) "base64") = true ->
             has_primitive (prop (fileData req) "fileName") = true ->
             atob_utf8 (ToString (prop (fileData req) "base64")) = Some fileText ->
             msgs <> [] ->
             handed (Finance.set_last
                       (text_file_turn (fileData req) fileText original) plain))).
Proof.
  intros Hm Hall Hmodel Hoff plain original handed.
  assert (Hgeneric : forall conversation,
             Finance.prepare req = inr conversation -> handed conversation).
  { intros conversation Hprep. subst handed. cbv beta.
    rewrite (POST_off _ _ Hoff Hprep). repeat split. }
  split; [exact Hgeneric|].
  split; [|split; [|intros Hfile Hb64; split; [|split]]].
  - intros Hfile. apply Hgeneric. unfold Finance.prepare.
    rewrite Hm, Hmodel, (mapM_to_turn_of msgs Hall), Hfile. reflexivity.
  - intros turns ->. apply turn_of_turn_value.
  - intros mediaType Ht Hmt Hpre. apply Hgeneric. unfold Finance.prepare.
    rewrite Hm, Hmodel, (mapM_to_turn_of msgs Hall), Hfile, Hb64. cbn [negb].
    unfold Finance.attach. rewrite Ht, Hmt, Hpre. reflexivity.
  - intros mediaType Ht Hmt Hpre Hne. apply Hgeneric. unfold Finance.prepare.
    rewrite Hm, Hmodel, (mapM_to_turn_of msgs Hall), Hfile, Hb64. cbn [negb].
    unfold Finance.attach. rewrite Ht, Hmt, Hpre, (last_present msgs Hall Hne).
    reflexivity.
  - intros fileText Ht _ _ Hd Hne. apply Hgeneric. unfold Finance.prepare.
    rewrite Hm, Hmodel, (mapM_to_turn_of msgs Hall), Hfile, Hb64. cbn [negb].
    unfold Finance.attach. rewrite Ht, Hd, (last_present msgs Hall Hne).
    reflexivity.
Qed.
End RouteFacts.

Lemma C6_live_data_off_witness :
  let req := mkRequest (JArr [turn_value (Examples.ask "How is my portfolio doing?")])
                       JUndefined (JStr "claude-3-5-sonnet") (JBool false)
                       Examples.identifiers in
  sent (snd (@Finance.POST Reference.platform Examples.text_world req))
  = Some [Examples.ask "How is my portfolio doing?"]
  /\ portfolio_calls (snd (@Finance.POST Reference.platform Examples.text_world req)) = 0
  /\ search_calls (snd (@Finance.POST Reference.platform Examples.text_world req)) = 0
  /\ sent (snd (@Finance.POST Reference.platform Examples.text_world
                  Examples.image_request))
     = Some [image_file_turn Examples.image_file "image/png"
               (JStr "What does this chart show?")].
Proof.
  intros req.
  destruct (@C6_live_data_off Reference.platform Examples.text_world req
              [turn_value (Examples.ask "How is my portfolio doing?")]
              eq_refl ltac:(repeat constructor) eq_refl eq_refl)
    as (_ & H & _).
  destruct (H eq_refl) as (A & B & C).
  destruct (@C6_live_data_off Reference.platform Examples.text_world
              Examples.image_request
              [turn_value (Examples.ask "What does this chart show?")]
              eq_refl ltac:(repeat constructor) eq_refl eq_refl)
    as (_ & _ & _ & F).
  destruct (F eq_refl eq_refl) as (_ & I & _).
  destruct (I "image/png" eq_refl eq_refl eq_refl ltac:(discriminate)) as (_ & _ & D).
  split; [exact C|]. split; [exact A|]. split; [exact B | exact D].
Defined.

(** C6 as stated fails: with live data off and an image attached, the
    conversation handed to the model is not the input conversation; its last
    turn has been replaced by the image part followed by the text. *)
Lemma C6_counterexample :
  truthy (includeLiveData Examples.image_request) = false
  /\ messages Examples.image_request
     = JArr [turn_value (Examples.ask "What does this chart show?")]
  /\ sent (snd (@Finance.POST Reference.platform Examples.text_world
                  Examples.image_request))
     = Some [ mkTurn (JStr "user")
                (JArr [ Finance.image_part (JStr "image/png") (JStr "aGVsbG8=");
                        Finance.text_part (JStr "What does this chart show?") ]) ]
  /\ sent (snd (@Finance.POST Reference.platform Examples.text_world
                  Examples.image_request))
     <> Some [Examples.ask "What does this chart show?"].
Proof.
  split; [reflexivity|]. split; [reflexivity|].
  split; [vm_compute; reflexivity | vm_compute; discriminate].
Qed.

(* ================================================================== *)
(** * Both supplementary fetches fail                                  *)
(* ================================================================== *)

Lemma Forall_last {A} (Q : A -> Prop) (l : list A) (d : A) :
  Forall Q l -> l <> [] -> Q (List.last l d).
Proof.
  induction 1 as [|x r Hx Hr IH]; [congruence|]. intros _.
  destruct r as [|y r']; [exact Hx|].
  change (Q (List.last (y :: r') d)). apply IH. discriminate.
Qed.

Lemma length_append (a b : string) :
  String.length (a ++ b) = String.length a + String.length b.
Proof. induction a as [|c a IH]; cbn; [reflexivity | now rewrite IH]. Qed.

(** A joined text is at least as long as each of its pieces. *)
Lemma concat_length_ge (sep s : string) (l : list string) :
  In s l -> String.length s <= String.length (String.concat sep l).
Proof.
  induction l as [|x r IH]; [intros []|].
  intros [->|Hin].
  - destruct r; cbn [String.concat]; [lia|]. rewrite length_append. lia.
  - destruct r as [|y r']; [destruct Hin|].
    specialize (IH Hin). cbn [String.concat] in *.
    rewrite !length_append in *. lia.
Qed.

Lemma text_parts_total (parts : list value) :
  Forall (fun part => nullish part = false) parts ->
  exists ts, Finance.text_parts parts = Normal ts.
Proof.
  induction 1 as [|c r Hc _ [ts IH]]; [now exists []|].
  cbn [Finance.text_parts]. rewrite (member_normal _ _ Hc). cbn [bind].
  rewrite IH. cbn [bind]. eauto.
Qed.

Lemma text_parts_throws (parts : list value) :
  Exists (fun part => nullish part = true) parts ->
  Finance.text_parts parts = Throw TypeError.
Proof.
  induction 1 as [c r Hc|c r _ IH]; cbn [Finance.text_parts].
  - unfold member. rewrite Hc. reflexivity.
  - unfold member. destruct (nullish c); [reflexivity|]. cbn [bind].
    rewrite IH. reflexivity.
Qed.

Lemma extract_query_total (message : value) :
  nullish message = false ->
  match prop message "content" with
  | JArr parts => parts_readable parts
  | _ => True
  end ->
  exists query, Finance.extract_query message = Normal query.
Proof.
  intros Hm Hparts. unfold Finance.extract_query.
  rewrite (member_normal _ _ Hm). cbn [bind].
  destruct (prop message "content"); eauto.
  assert (Hpresent : Forall (fun part => nullish part = false) items).
  { eapply Forall_impl; [|exact Hparts]. now intros part [Hp _]. }
  destruct (text_parts_total _ Hpresent) as [ts Hts]. rewrite Hts. cbn [bind]. eauto.
Qed.

(** A request that passes validation holds no [null] message. *)
Lemma mapM_to_turn_present (msgs : list value) (conversation : list Turn) :
  mapM Finance.to_turn msgs = Normal conversation ->
  Forall (fun msg => nullish msg = false) msgs.
Proof.
  revert conversation. induction msgs as [|m r IH]; intros conversation; [constructor|].
  cbn [mapM]. unfold Finance.to_turn at 1. unfold member.
  destruct (nullish m) eqn:Hn; [discriminate|]. cbn [bind].
  destruct (mapM Finance.to_turn r) as [c|e]; cbn [bind]; [|discriminate].
  intros _. constructor; [exact Hn | eapply IH; reflexivity].
Qed.

Section FetchesFail.
Context `{P : Platform}.
Variable w : World.
Hypothesis Hportfolio : portfolio_fails w.
Hypothesis Hsearch : search_fails w.

Lemma prepared_present (req : Request) (msgs : list value) (conversation : list Turn) :
  messages req = JArr msgs -> Finance.prepare req = inr conversation ->
  Forall (fun msg => nullish msg = false) msgs.
Proof.
  intros Hm. unfold Finance.prepare. rewrite Hm.
  destruct (negb (truthy (model req))); [discriminate|].
  destruct (mapM Finance.to_turn msgs) as [c|e] eqn:E; [|discriminate].
  intros _. eapply mapM_to_turn_present. exact E.
Qed.

Lemma step1a_failed (req : Request) :
  exists n, Finance.step1a w req = (JNull, n).
Proof.
  unfold Finance.step1a. destruct (_ && _); [|eauto].
  match goal with
  | |- context [Finance.fetchCombinedCSVsByFirm w ?c ?b ?f ?t] =>
      destruct (Hportfolio c b f t) as [e He]; rewrite He
  end.
  eauto.
Qed.

Lemma step1b_failed (req : Request) (msgs : list value) :
  Forall (fun msg => nullish msg = false) msgs ->
  query_readable req msgs ->
  exists query n, Finance.step1b w req msgs = Normal (query, None, n).
Proof.
  intros Hall Hread. unfold Finance.step1b. unfold query_readable in Hread.
  destruct (truthy (includeLiveData req)); cbn [andb]; [|eauto].
  destruct msgs as [|m r] eqn:E; [cbn; eauto|]. rewrite <- E in *.
  assert (Hne : msgs <> []) by (rewrite E; discriminate).
  replace (negb (Nat.eqb (List.length msgs) 0)) with true
    by (rewrite E; reflexivity).
  destruct Hread as [Hoff|[Hnil|Hparts]]; [discriminate | contradiction |].
  destruct (extract_query_total _ (Forall_last _ _ JUndefined Hall Hne) Hparts)
    as [query Hq].
  rewrite Hq. cbn [bind].
  destruct (negb (blank query)); [|eauto].
  destruct (Hsearch query) as [e He]. rewrite He. eauto.
Qed.

Lemma step1b_unreadable (req : Request) (msgs : list value) :
  query_unreadable req msgs -> Finance.step1b w req msgs = Throw TypeError.
Proof.
  intros (Hon & parts & Hcontent & Hnull). unfold Finance.step1b. rewrite Hon.
  destruct msgs as [|m r] eqn:E; [discriminate Hcontent|]. rewrite <- E in *.
  replace (negb (Nat.eqb (List.length msgs) 0)) with true
    by (rewrite E; reflexivity).
  cbn [andb]. unfold Finance.extract_query, member.
  destruct (nullish (List.last msgs JUndefined)) eqn:Hn.
  - rewrite (prop_nullish _ _ Hn) in Hcontent. discriminate.
  - cbn [bind]. rewrite Hcontent, (text_parts_throws _ Hnull). reflexivity.
Qed.

(** C5, amended.  Both supplementary fetches fail, and the request passes
    validation.  When step 1b has a query to read or none to look for (live
    data is off, or there is no message, or the last message has no [null] or
    [undefined] content part and the text of its text parts converts to a
    string), the request still reaches the model, which is handed the
    conversation as prepared, its last turn not augmented; and when that call
    succeeds the response is a success whose [content] is the text blocks of
    the model joined by blank lines: non-empty whenever some text block is,
    empty when the model returns no text.  When live data is on and the
    content of the last message is a sequence with a [null] or [undefined]
    part, the request is aborted with status 500 before the search and the
    model are called. *)
Theorem C5_fetches_fail (req : Request) (msgs : list value)
        (conversation : list Turn) :
  messages req = JArr msgs ->
  Finance.prepare req = inr conversation ->
  (query_readable req msgs ->
   sent (snd (Finance.POST w req)) = Some conversation
   /\ forall blocks,
        Retry.outcome (Finance.createMessage w req conversation) = Normal blocks ->
        http_status (fst (Finance.POST w req)) = 200%Z
        /\ answer_content (fst (Finance.POST w req))
           = Some (String.concat (nl ++ nl) (texts blocks))
        /\ (forall s, In s (texts blocks) -> s <> EmptyString ->
                      answer_content (fst (Finance.POST w req)) <> Some EmptyString)
        /\ (texts blocks = [] ->
            answer_content (fst (Finance.POST w req)) = Some EmptyString))
  /\ (query_unreadable req msgs ->
      http_status (fst (Finance.POST w req)) = 500%Z
      /\ search_calls (snd (Finance.POST w req)) = 0
      /\ model_calls (snd (Finance.POST w req)) = 0
      /\ sent (snd (Finance.POST w req)) = None).
Proof.
  intros Hm Hprep.
  pose proof (prepared_present req msgs conversation Hm Hprep) as Hall.
  unfold Finance.POST. rewrite Hprep, Hm. cbn [Normalizer.items_of].
  destruct (step1a_failed req) as [n Hn]. rewrite Hn. split.
  - intros Hread.
    destruct (step1b_failed req msgs Hall Hread) as (query & k & Hk). rewrite Hk.
    rewrite step2_nothing_to_fuse. cbn [fst snd sent]. split; [reflexivity|].
    intros blocks Hmodel. rewrite Hmodel.
    destruct (respond_always_succeeds blocks) as [Hs Hc].
    split; [exact Hs|]. split; [exact Hc|]. split.
    + intros s Hin Hne. rewrite Hc. intros Heq.
      assert (Heq' : String.concat (nl ++ nl) (texts blocks) = EmptyString)
        by congruence.
      pose proof (concat_length_ge (nl ++ nl) s (texts blocks) Hin) as Hlen.
      rewrite Heq' in Hlen. destruct s; [congruence | cbn in Hlen; lia].
    + intros Hnone. rewrite Hc, Hnone. reflexivity.
  - intros Hbad. rewrite (step1b_unreadable req msgs Hbad).
    cbn. repeat split.
Qed.
End FetchesFail.

Lemma text_world_portfolio_fails : portfolio_fails Examples.text_world.
Proof. intros c b f t. eexists. reflexivity. Defined.

Lemma text_world_search_fails : search_fails Examples.text_world.
Proof. intros query. eexists. reflexivity. Defined.

Lemma C5_fetches_fail_witness :
  (sent (snd (@Finance.POST Reference.platform Examples.text_world
                Examples.live_request))
   = Some [Examples.ask "How is my portfolio doing?"]
   /\ http_status (fst (@Finance.POST Reference.platform Examples.text_world
                          Examples.live_request)) = 200%Z
   /\ answer_content (fst (@Finance.POST Reference.platform Examples.text_world
                             Examples.live_request))
      = Some "Your portfolio is up.")
  /\ (http_status (fst (@Finance.POST Reference.platform Examples.text_world
                          Examples.broken_request)) = 500%Z
      /\ model_calls (snd (@Finance.POST Reference.platform Examples.text_world
                             Examples.broken_request)) = 0).
Proof.
  split.
  - destruct (@C5_fetches_fail Reference.platform Examples.text_world
                text_world_portfolio_fails text_world_search_fails
                Examples.live_request
                [turn_value (Examples.ask "How is my portfolio doing?")]
                [Examples.ask "How is my portfolio doing?"]
                eq_refl eq_refl) as [H _].
    destruct H as [A B]; [right; right; exact I|].
    destruct (B [TextBlock "Your portfolio is up."] eq_refl) as (S & C & _).
    split; [exact A|]. split; [exact S | exact C].
  - destruct (@C5_fetches_fail Reference.platform Examples.text_world
                text_world_portfolio_fails text_world_search_fails
                Examples.broken_request
                [turn_value (mkTurn (JStr "user")
                               (JArr [JNull; Finance.text_part (JStr "Hello")]))]
                [mkTurn (JStr "user") (JArr [JNull; Finance.text_part (JStr "Hello")])]
                eq_refl eq_refl) as [_ H].
    destruct H as (S & _ & M & _).
    + split; [reflexivity|]. eexists. split; [reflexivity|].
      constructor. reflexivity.
    + split; [exact S | exact M].
Defined.

(** C5 as stated fails: both supplementary fetches fail, the model call
    succeeds and returns a chart invocation without any text, and the
    [content] of the response is empty. *)
Lemma C5_counterexample :
  let w := Examples.chart_only_world in
  let req := Examples.live_request in
  Retry.outcome (Finance.fetchCombinedCSVsByFirm w "42" "7" (JStr "Acme Capital")
                   "MASTER_PROPOSED")
  = Throw (Examples.http_error "Service Unavailable" 503)
  /\ Retry.outcome (Finance.searchLive w "How is my portfolio doing?")
     = Throw (Examples.http_error "Service Unavailable" 503)
  /\ portfolio_calls (snd (@Finance.POST Reference.platform w req)) = 3
  /\ search_calls (snd (@Finance.POST Reference.platform w req)) = 2
  /\ Retry.outcome (Finance.createMessage w req [Examples.ask "How is my portfolio doing?"])
     = Normal [ToolUseBlock (Examples.chart_tool Examples.bar_payload)]
  /\ sent (snd (@Finance.POST Reference.platform w req))
     = Some [Examples.ask "How is my portfolio doing?"]
  /\ http_status (fst (@Finance.POST Reference.platform w req)) = 200%Z
  /\ answer_content (fst (@Finance.POST Reference.platform w req)) = Some EmptyString.
Proof. cbv zeta. repeat split; vm_compute; reflexivity. Qed.

(* ================================================================== *)
(** * The portfolio excerpt of the enhanced prompt                     *)
(* ================================================================== *)

Lemma append_assoc (a b c : string) : (a ++ b) ++ c = a ++ (b ++ c).
Proof. induction a as [|x a IH]; cbn; [reflexivity | now rewrite IH]. Qed.



Lemma last_turn_value (earlier : list Turn) (t : Turn) (d : value) :
  List.last (map turn_value (earlier ++ [t])%list) d = turn_value t.
Proof. rewrite map_app. cbn [map]. apply last_last. Qed.

Section PortfolioExcerpt.
Context `{P : Platform}.
Variable w : World.




End PortfolioExcerpt.


(* ================================================================== *)
(** * More on the retry executor                                       *)
(* ================================================================== *)

Section RetrySchedule.
Context {T : Type}.
Variable fn : nat -> completion T.
Variable jitter : nat -> Z.
Variables maxRetries initialDelay maxDelay : Z.
Variable status_of : exn -> option Z.
Variable retryableErrors : option (list Z).

Let attempts := Retry.attempts fn jitter maxRetries initialDelay maxDelay status_of
                  retryableErrors.
Let delay := Retry.delay jitter initialDelay maxDelay.

Lemma last_attempt_test (attempt remaining : nat) :
  Z.of_nat (attempt + S remaining) = maxRetries ->
  (Z.of_nat attempt =? maxRetries - 1)%Z = Nat.eqb remaining 0.
Proof.
  intros H. destruct remaining as [|r]; cbn [Nat.eqb].
  - apply Z.eqb_eq. lia.
  - apply Z.eqb_neq. lia.
Qed.

(** Between one and [remaining] calls are made, and the delays slept are those
    of the attempts before the last call, in order. *)
Lemma attempts_schedule (remaining attempt called : nat) (lastError : option exn)
      (slept : list Z) :
  Z.of_nat (attempt + remaining) = maxRetries ->
  1 <= remaining ->
  exists n,
    1 <= n <= remaining
    /\ Retry.calls (attempts remaining attempt called lastError slept) = called + n
    /\ Retry.sleeps (attempts remaining attempt called lastError slept)
       = (slept ++ map delay (seq attempt (n - 1)))%list.
Proof.
  revert attempt called lastError slept.
  induction remaining as [|r IH]; intros attempt called lastError slept Hinv Hpos; [lia|].
  subst attempts. cbn [Retry.attempts].
  assert (Stop : forall c : completion T,
             exists n, 1 <= n <= S r
                       /\ Retry.calls (Retry.mkRun c (S called) slept) = called + n
                       /\ Retry.sleeps (Retry.mkRun c (S called) slept)
                          = (slept ++ map delay (seq attempt (n - 1)))%list).
  { intros c. exists 1. cbn. rewrite app_nil_r. repeat split; lia. }
  destruct (fn called) as [v|e]; [apply Stop|].
  destruct (Retry.client_error _); [apply Stop|].
  destruct (Retry.not_listed _ _); [apply Stop|].
  rewrite (last_attempt_test attempt r Hinv).
  destruct r as [|r']; cbn [Nat.eqb]; [apply Stop|].
  destruct (IH (S attempt) (S called) (Some e)
               (slept ++ [Retry.delay jitter initialDelay maxDelay attempt])%list)
    as (n & Hn & Hc & Hs); [lia | lia |].
  exists (S n). split; [lia|]. split; [rewrite Hc; lia|].
  rewrite Hs. rewrite <- app_assoc. cbn [app].
  replace (S n - 1) with (S (n - 1)) by lia. reflexivity.
Qed.

(** The first [k] calls fail in a way that is retried, the next one succeeds. *)
Lemma attempts_success (k : nat) (v : T) :
  forall remaining attempt called lastError slept,
    Z.of_nat (attempt + remaining) = maxRetries ->
    k < remaining ->
    (forall i, i < k -> retried status_of retryableErrors (fn (called + i))) ->
    fn (called + k) = Normal v ->
    attempts remaining attempt called lastError slept
    = Retry.mkRun (Normal v) (called + k + 1)
        (slept ++ map delay (seq attempt k))%list.
Proof.
  induction k as [|k IH]; intros remaining attempt called lastError slept Hinv Hk Hfail Hok.
  - destruct remaining as [|r]; [lia|]. subst attempts. cbn [Retry.attempts].
    rewrite Nat.add_0_r in Hok. rewrite Hok. cbn. rewrite app_nil_r.
    f_equal. lia.
  - destruct remaining as [|r]; [lia|]. subst attempts. cbn [Retry.attempts].
    destruct (Hfail 0 ltac:(lia)) as (e & He & Hc & Hl).
    rewrite Nat.add_0_r in He. rewrite He, Hc, Hl.
    rewrite (last_attempt_test attempt r Hinv).
    destruct r as [|r']; [lia|]. cbn [Nat.eqb].
    rewrite (IH (S r') (S attempt) (S called) (Some e)).
    + rewrite <- app_assoc. cbn [app seq map]. f_equal. lia.
    + lia.
    + lia.
    + intros i Hi. replace (S called + i) with (called + S i) by lia.
      apply Hfail. lia.
    + replace (S called + k) with (called + S k) by lia. exact Hok.
Qed.

Lemma attempts_step (r attempt called : nat) (lastError : option exn) (slept : list Z) :
  attempts (S r) attempt called lastError slept
  = match fn called with
    | Normal v => Retry.mkRun (Normal v) (S called) slept
    | Throw error =>
        if Retry.client_error (status_of error)
        then Retry.mkRun (Throw error) (S called) slept
        else if Retry.not_listed retryableErrors (status_of error)
        then Retry.mkRun (Throw error) (S called) slept
        else if (Z.of_nat attempt =? maxRetries - 1)%Z
        then Retry.mkRun (Throw error) (S called) slept
        else attempts r (S attempt) (S called) (Some error)
               (slept ++ [delay attempt])%list
    end.
Proof. reflexivity. Qed.

(** Every allowed call fails in a way that is retried. *)
Lemma attempts_exhausted :
  forall remaining attempt called lastError slept,
    Z.of_nat (attempt + S remaining) = maxRetries ->
    (forall i, i <= remaining -> retried status_of retryableErrors (fn (called + i))) ->
    attempts (S remaining) attempt called lastError slept
    = Retry.mkRun (fn (called + remaining)) (called + remaining + 1)
        (slept ++ map delay (seq attempt remaining))%list.
Proof.
  induction remaining as [|r IH]; intros attempt called lastError slept Hinv Hfail.
  - rewrite attempts_step.
    destruct (Hfail 0 ltac:(lia)) as (e & He & Hc & Hl).
    rewrite Nat.add_0_r in *. rewrite He, Hc, Hl.
    rewrite (last_attempt_test attempt 0 Hinv). cbn. rewrite app_nil_r.
    f_equal. lia.
  - rewrite attempts_step.
    destruct (Hfail 0 ltac:(lia)) as (e & He & Hc & Hl).
    rewrite Nat.add_0_r in He. rewrite He, Hc, Hl.
    rewrite (last_attempt_test attempt (S r) Hinv). cbn [Nat.eqb].
    rewrite (IH (S attempt) (S called) (Some e)).
    + rewrite <- app_assoc. cbn [app seq map].
      replace (S called + r) with (called + S r) by lia.
      replace (called + S r + 1) with (S called + r + 1) by lia. reflexivity.
    + rewrite <- Hinv. f_equal. lia.
    + intros i Hi. replace (S called + i) with (called + S i) by lia.
      apply Hfail. lia.
Qed.
End RetrySchedule.

Section RetryRuns.
Context {T : Type}.
Variable fn : nat -> completion T.
Variable jitter : nat -> Z.
Variables maxRetries initialDelay maxDelay : Z.
Variable status_of : exn -> option Z.
Variable retryableErrors : option (list Z).

Let run := Retry.run fn jitter maxRetries initialDelay maxDelay status_of retryableErrors.

Lemma schedule_bounded (n : nat) :
  Forall (fun d => (d <= maxDelay)%Z) (schedule jitter initialDelay maxDelay n).
Proof.
  unfold schedule. apply Forall_forall. intros d Hin.
  apply in_map_iff in Hin as (i & <- & _). unfold Retry.delay. apply Z.le_min_r.
Qed.

Lemma run_schedule :
  Retry.calls run <= Z.to_nat maxRetries
  /\ Retry.sleeps run = schedule jitter initialDelay maxDelay (Retry.calls run - 1).
Proof.
  subst run. unfold Retry.run.
  destruct (Z.to_nat maxRetries) as [|n] eqn:E; [split; reflexivity|].
  destruct (attempts_schedule fn jitter maxRetries initialDelay maxDelay status_of
              retryableErrors (S n) 0 0 None []) as (k & Hk & Hc & Hs); [lia | lia |].
  rewrite Hc, Hs. cbn [app plus]. split; [lia | reflexivity].
Qed.

Lemma run_none_allowed :
  (maxRetries <= 0)%Z ->
  run = Retry.mkRun (Throw (Error "Max retries exceeded" plain)) 0 [].
Proof.
  intros H. subst run. unfold Retry.run.
  replace (Z.to_nat maxRetries) with 0 by lia. reflexivity.
Qed.

Lemma run_success (k : nat) (v : T) :
  (Z.of_nat k < maxRetries)%Z ->
  (forall i, i < k -> retried status_of retryableErrors (fn i)) ->
  fn k = Normal v ->
  run = Retry.mkRun (Normal v) (k + 1) (schedule jitter initialDelay maxDelay k).
Proof.
  intros Hk Hfail Hok. subst run. unfold Retry.run.
  rewrite (attempts_success fn jitter maxRetries initialDelay maxDelay status_of
             retryableErrors k v); [reflexivity | lia | lia | exact Hfail | exact Hok].
Qed.

Lemma run_exhausted (n : nat) :
  maxRetries = Z.of_nat (S n) ->
  (forall i, i <= n -> retried status_of retryableErrors (fn i)) ->
  run = Retry.mkRun (fn n) (n + 1) (schedule jitter initialDelay maxDelay n).
Proof.
  intros Hn Hfail. subst run. unfold Retry.run.
  replace (Z.to_nat maxRetries) with (S n) by lia.
  rewrite (attempts_exhausted fn jitter maxRetries initialDelay maxDelay status_of
             retryableErrors n 0 0 None []); [reflexivity | lia | exact Hfail].
Qed.

Lemma run_unlisted (e : exn) (c : Z) (l : list Z) :
  retryableErrors = Some l ->
  fn 0 = Throw e -> status_of e = Some c -> c <> 0%Z -> ~ In c l ->
  (1 <= maxRetries)%Z ->
  run = Retry.mkRun (Throw e) 1 [].
Proof.
  intros Hl Hfn Hst Hc Hin Hmax. subst run. unfold Retry.run.
  destruct (Z.to_nat maxRetries) as [|n] eqn:E; [lia|].
  cbn [Retry.attempts]. rewrite Hfn, Hst, Hl.
  destruct (Retry.client_error (Some c)); [reflexivity|].
  assert (Hnl : Retry.not_listed (Some l) (Some c) = true).
  { unfold Retry.not_listed.
    replace (c =? 0)%Z with false by (symmetry; now apply Z.eqb_neq).
    destruct (existsb (Z.eqb c) l) eqn:Ex; [|reflexivity].
    apply existsb_exists in Ex as (x & Hx & Heq). apply Z.eqb_eq in Heq.
    subst x. contradiction. }
  rewrite Hnl. reflexivity.
Qed.
End RetryRuns.

(** X1.  Whatever the operation does, [retryWithBackoff] (both copies) calls it
    at most [maxRetries] times, sleeps exactly once between two consecutive
    calls, the delay before attempt [i+1] being
    [min(initialDelay * 2^i + jitter, maxDelay)], and never sleeps longer than
    [maxDelay]. *)
Theorem X1_retry_budget_and_schedule (T : Type) (fn : nat -> completion T)
        (jitter : nat -> Z) (maxRetries initialDelay maxDelay : Z)
        (retryableErrors : option (list Z)) :
  let r := Finance.retryWithBackoff jitter fn maxRetries initialDelay maxDelay
             retryableErrors in
  let r' := Perplexity.retryWithBackoff jitter fn maxRetries initialDelay maxDelay in
  (Retry.calls r <= Z.to_nat maxRetries
   /\ Retry.sleeps r = schedule jitter initialDelay maxDelay (Retry.calls r - 1)
   /\ Forall (fun d => (d <= maxDelay)%Z) (Retry.sleeps r))
  /\ (Retry.calls r' <= Z.to_nat maxRetries
      /\ Retry.sleeps r' = schedule jitter initialDelay maxDelay (Retry.calls r' - 1)
      /\ Forall (fun d => (d <= maxDelay)%Z) (Retry.sleeps r')).
Proof.
  intros r r'. subst r r'. unfold Finance.retryWithBackoff, Perplexity.retryWithBackoff.
  split.
  - destruct (run_schedule fn jitter maxRetries initialDelay maxDelay
                Finance.statusCode_of retryableErrors) as [A B].
    split; [exact A|]. split; [exact B|]. rewrite B. apply schedule_bounded.
  - destruct (run_schedule fn jitter maxRetries initialDelay maxDelay
                Perplexity.statusCode_of None) as [A B].
    split; [exact A|]. split; [exact B|]. rewrite B. apply schedule_bounded.
Qed.

(** X2.  With no attempt allowed ([maxRetries <= 0]) the operation is never
    called and the executor (both copies) throws the error
    Max retries exceeded. *)
Theorem X2_retry_no_attempt_allowed (T : Type) (fn : nat -> completion T)
        (jitter : nat -> Z) (maxRetries initialDelay maxDelay : Z)
        (retryableErrors : option (list Z)) :
  (maxRetries <= 0)%Z ->
  Finance.retryWithBackoff jitter fn maxRetries initialDelay maxDelay retryableErrors
  = Retry.mkRun (Throw (Error "Max retries exceeded" plain)) 0 []
  /\ Perplexity.retryWithBackoff jitter fn maxRetries initialDelay maxDelay
     = Retry.mkRun (Throw (Error "Max retries exceeded" plain)) 0 [].
Proof.
  intros H. split; apply run_none_allowed; exact H.
Qed.

Lemma X2_retry_no_attempt_allowed_witness :
  Finance.retryWithBackoff Examples.no_jitter Examples.flaky 0 1000 10000 Finance.retryable
  = Retry.mkRun (Throw (Error "Max retries exceeded" plain)) 0 []
  /\ Perplexity.retryWithBackoff Examples.no_jitter Examples.flaky 0 1000 10000
     = Retry.mkRun (Throw (Error "Max retries exceeded" plain)) 0 [].
Proof.
  apply (X2_retry_no_attempt_allowed string Examples.flaky Examples.no_jitter 0 1000 10000
           Finance.retryable). lia.
Defined.

(** X3.  Recovery.  If the first [k] calls fail in a way that is retried (no
    status, 429, or a status of 500 and above that the list of retryable codes,
    when given, holds), the next call succeeds and [k < maxRetries], the
    executor returns that value after exactly [k + 1] calls and [k] sleeps. *)
Theorem X3_retry_recovers (T : Type) (fn : nat -> completion T) (jitter : nat -> Z)
        (maxRetries initialDelay maxDelay : Z) (retryableErrors : option (list Z))
        (k : nat) (v : T) :
  (Z.of_nat k < maxRetries)%Z ->
  fn k = Normal v ->
  ((forall i, i < k -> retried Finance.statusCode_of retryableErrors (fn i)) ->
   Finance.retryWithBackoff jitter fn maxRetries initialDelay maxDelay retryableErrors
   = Retry.mkRun (Normal v) (k + 1) (schedule jitter initialDelay maxDelay k))
  /\ ((forall i, i < k -> retried Perplexity.statusCode_of None (fn i)) ->
      Perplexity.retryWithBackoff jitter fn maxRetries initialDelay maxDelay
      = Retry.mkRun (Normal v) (k + 1) (schedule jitter initialDelay maxDelay k)).
Proof.
  intros Hk Hok. split; intros Hfail; now apply run_success.
Qed.

Lemma shaky_retried (i : nat) :
  i < 2 -> retried Finance.statusCode_of Finance.retryable (MoreExamples.shaky i)
           /\ retried Perplexity.statusCode_of None (MoreExamples.shaky i).
Proof.
  intros Hi. destruct i as [|[|i]]; [| |lia];
    (split; (eexists; (split; [reflexivity | split; reflexivity]))).
Defined.

Lemma X3_retry_recovers_witness :
  Finance.retryWithBackoff Examples.no_jitter MoreExamples.shaky 5 1000 10000
    Finance.retryable
  = Retry.mkRun (Normal "done") 3 [1000; 2000]%Z
  /\ Perplexity.retryWithBackoff Examples.no_jitter MoreExamples.shaky 5 1000 10000
     = Retry.mkRun (Normal "done") 3 [1000; 2000]%Z.
Proof.
  assert (Hk : (Z.of_nat 2 < 5)%Z) by lia.
  destruct (X3_retry_recovers string MoreExamples.shaky Examples.no_jitter 5 1000 10000
              Finance.retryable 2 "done" Hk eq_refl) as [A B].
  split.
  - apply A. intros i Hi. apply (shaky_retried i Hi).
  - apply B. intros i Hi. apply (shaky_retried i Hi).
Defined.

(** X4.  Exhaustion.  If each of the [maxRetries] allowed calls fails in a way
    that is retried, the operation is called exactly [maxRetries] times and the
    error of the last call is thrown. *)
Theorem X4_retry_exhausts (T : Type) (fn : nat -> completion T) (jitter : nat -> Z)
        (initialDelay maxDelay : Z) (retryableErrors : option (list Z)) (n : nat) :
  ((forall i, i <= n -> retried Finance.statusCode_of retryableErrors (fn i)) ->
   Finance.retryWithBackoff jitter fn (Z.of_nat (S n)) initialDelay maxDelay
     retryableErrors
   = Retry.mkRun (fn n) (n + 1) (schedule jitter initialDelay maxDelay n))
  /\ ((forall i, i <= n -> retried Perplexity.statusCode_of None (fn i)) ->
      Perplexity.retryWithBackoff jitter fn (Z.of_nat (S n)) initialDelay maxDelay
      = Retry.mkRun (fn n) (n + 1) (schedule jitter initialDelay maxDelay n)).
Proof.
  split; intros Hfail; now apply run_exhausted.
Qed.

Lemma X4_retry_exhausts_witness :
  Finance.retryWithBackoff Examples.no_jitter MoreExamples.down 3 1000 10000
    Finance.retryable
  = Retry.mkRun (Throw (Examples.http_error "Service Unavailable" 503)) 3 [1000; 2000]%Z
  /\ Perplexity.retryWithBackoff Examples.no_jitter MoreExamples.down 3 1000 10000
     = Retry.mkRun (Throw (Examples.http_error "Service Unavailable" 503)) 3
         [1000; 2000]%Z.
Proof.
  destruct (X4_retry_exhausts string MoreExamples.down Examples.no_jitter 1000 10000
              Finance.retryable 2) as [A B].
  split.
  - apply A. intros i _. eexists. split; [reflexivity | split; reflexivity].
  - apply B. intros i _. eexists. split; [reflexivity | split; reflexivity].
Defined.

(** X5.  In the finance copy a list of retryable codes is a whitelist: a first
    failure whose status is not zero and not on the list ends the run after
    that one call, also for a status of 500 and above. *)
Theorem X5_retry_unlisted_status_is_terminal (T : Type) (fn : nat -> completion T)
        (jitter : nat -> Z) (maxRetries initialDelay maxDelay : Z) (l : list Z)
        (e : exn) (c : Z) :
  fn 0 = Throw e -> Finance.statusCode_of e = Some c -> c <> 0%Z -> ~ In c l ->
  (1 <= maxRetries)%Z ->
  Finance.retryWithBackoff jitter fn maxRetries initialDelay maxDelay (Some l)
  = Retry.mkRun (Throw e) 1 [].
Proof.
  intros. unfold Finance.retryWithBackoff. eapply run_unlisted; eauto.
Qed.

Lemma X5_retry_unlisted_status_is_terminal_witness :
  Finance.retryWithBackoff Examples.no_jitter MoreExamples.not_implemented 3 1000 10000
    Finance.retryable
  = Retry.mkRun (Throw (Examples.http_error "Not Implemented" 501)) 1 [].
Proof.
  apply (X5_retry_unlisted_status_is_terminal string MoreExamples.not_implemented
           Examples.no_jitter 3 1000 10000 [429; 500; 502; 503; 504]%Z
           (Examples.http_error "Not Implemented" 501) 501%Z);
    try reflexivity; try lia.
  cbn. intros [H|[H|[H|[H|[H|[]]]]]]; discriminate.
Defined.

(* ================================================================== *)
(** * More on the normalizer                                           *)
(* ================================================================== *)

Lemma assoc_app (k : string) (a b : list (string * value)) :
  assoc k (a ++ b)%list = match assoc k a with Some x => Some x | None => assoc k b end.
Proof.
  induction a as [|[k' y] r IH]; cbn; [reflexivity|].
  destruct (k' =? k); [reflexivity | exact IH].
Qed.

Lemma obj_set_fresh (k : string) (x : value) (acc : list (string * value)) :
  assoc k acc = None -> obj_set k x acc = (acc ++ [(k, x)])%list.
Proof.
  induction acc as [|[k' y] r IH]; cbn; [reflexivity|].
  destruct (k' =? k); [discriminate|]. intros H. now rewrite IH.
Qed.

Lemma with_colors_keys (index : nat) (entries : list (string * value)) :
  map fst (with_colors index entries) = map fst entries.
Proof.
  revert index. induction entries as [|[k c] r IH]; intros index; cbn; [reflexivity|].
  now rewrite IH.
Qed.

Lemma assoc_none_notin (k : string) (l : list (string * value)) :
  ~ In k (map fst l) -> assoc k l = None.
Proof.
  induction l as [|[k' y] r IH]; cbn; [reflexivity|]. intros H.
  destruct (k' =? k) eqn:E; [apply String.eqb_eq in E; tauto|]. apply IH. tauto.
Qed.

(** On a configuration without repeated keys the [reduce] appends the series,
    colored, in their order. *)
Lemma assignColors_fresh (entries : list (string * value)) :
  forall index acc,
    NoDup (map fst entries) ->
    (forall k, In k (map fst entries) -> assoc k acc = None) ->
    Normalizer.assignColors index entries acc = (acc ++ with_colors index entries)%list.
Proof.
  induction entries as [|[k c] r IH]; intros index acc Hnd Hfresh.
  - cbn. now rewrite app_nil_r.
  - cbn [Normalizer.assignColors with_colors]. cbn [map fst] in Hnd, Hfresh.
    inversion Hnd as [|? ? Hnotin Hnd']; subst.
    rewrite obj_set_fresh by (apply Hfresh; now left).
    rewrite IH; [now rewrite <- app_assoc | exact Hnd' |].
    intros k' Hin. rewrite assoc_app, (Hfresh k') by now right. cbn.
    destruct (k =? k') eqn:E; [|reflexivity].
    apply String.eqb_eq in E. subst k'. contradiction.
Qed.

Lemma with_colors_nth (entries : list (string * value)) :
  forall index n key config,
    nth_error entries n = Some (key, config) ->
    nth_error (with_colors index entries) n
    = Some (key, JObj (obj_set "color" (Normalizer.color (index + n))
                         (own_entries config))).
Proof.
  induction entries as [|[k c] r IH]; intros index n key config H.
  - destruct n; discriminate.
  - destruct n as [|n]; cbn in *.
    + inversion H; subst. now rewrite Nat.add_0_r.
    + rewrite (IH (S index) n key config H).
      replace (S index + n) with (index + S n) by lia. reflexivity.
Qed.

Lemma with_colors_twice (entries : list (string * value)) (index : nat) :
  with_colors index (with_colors index entries) = with_colors index entries.
Proof.
  revert index. induction entries as [|[k c] r IH]; intros index; cbn; [reflexivity|].
  now rewrite obj_set_twice, IH.
Qed.

Lemma assign_keeps (o o' x : value) (k k' : string) :
  assign o k x = Normal o' -> k' <> k -> prop o' k' = prop o k'.
Proof.
  destruct o; cbn; try discriminate; intros H Hne; inversion H; subst.
  - reflexivity.
  - now apply prop_obj_set_other.
Qed.

Lemma assign_object (kvs : list (string * value)) (o' x : value) (k : string) :
  assign (JObj kvs) k x = Normal o' -> o' = JObj (obj_set k x kvs).
Proof. cbn. congruence. Qed.

Section NormalizerMore.
Context `{P : Platform}.
Import Normalizer.

(** What the first step writes, if anything, is [data]. *)
Lemma parse_data_keeps (o o' : value) (u : unit) (k : string) :
  parse_data o = (Normal u, o') -> k <> "data" -> prop o' k = prop o k.
Proof.
  unfold parse_data. unfold_upd. unfold member.
  destruct (nullish o); [discriminate|].
  assert (W : forall x, write "data" x o = (Normal u, o') -> k <> "data" ->
                        prop o' k = prop o k).
  { intros x. unfold write. destruct (assign o "data" x) eqn:A; [|discriminate].
    intros H Hne. inversion H; subst. eapply assign_keeps; eassumption. }
  destruct (prop o "data") eqn:D; try (intros H _; inversion H; reflexivity).
  destruct (truthy (JStr s)); [|intros H _; inversion H; reflexivity].
  destruct (JSON_parse s) as [v|]; [|discriminate].
  destruct v; try apply W.
  destruct (JSON_parse s0) as [v'|]; [apply W | discriminate].
Qed.

Lemma parse_data_throws (o st : value) (e : exn) :
  parse_data o = (Throw e, st) -> (e = TypeError \/ e = parse_error) /\ st = o.
Proof.
  unfold parse_data. unfold_upd. unfold member.
  destruct (nullish o); [intros H; inversion H; auto|].
  assert (W : forall x, write "data" x o = (Throw e, st) ->
                        (e = TypeError \/ e = parse_error) /\ st = o).
  { intros x. unfold write. destruct (assign o "data" x) eqn:A; [discriminate|].
    intros H. inversion H; subst. split; [left; eapply assign_throws; eassumption | reflexivity]. }
  destruct (prop o "data") eqn:D; try discriminate.
  destruct (truthy (JStr s)); [|discriminate].
  destruct (JSON_parse s) as [v|]; [|intros H; inversion H; auto].
  destruct v; try apply W.
  destruct (JSON_parse s0) as [v'|]; [apply W | intros H; inversion H; auto].
Qed.

Lemma validate_throws (o st : value) (e : exn) :
  validate o = (Throw e, st) -> e = TypeError \/ e = structure_error.
Proof.
  unfold validate, member. unfold_upd.
  destruct (nullish o); [intros H; inversion H; auto|].
  destruct (_ || _); intros H; inversion H; auto.
Qed.

Lemma pie_throws (o st : value) (e : exn) :
  pie o = (Throw e, st) -> e = TypeError.
Proof.
  unfold pie, write. unfold_upd.
  destruct (is_pie (prop o "chartType")); [|discriminate].
  destruct (mapM _ _) as [items|e3] eqn:M.
  - destruct (assign o "data" (JArr items)) as [o'|e4] eqn:A1.
    + destruct (assign (prop o' "config") "xAxisKey" (JStr "segment"))
        as [cfg|e5] eqn:A2.
      * destruct (assign o' "config" cfg) as [o''|e6] eqn:A3;
          intros H'; inversion H'; subst. eapply assign_throws; eassumption.
      * intros H'; inversion H'; subst. eapply assign_throws; eassumption.
    + intros H'; inversion H'; subst. eapply assign_throws; eassumption.
  - intros H'; inversion H'; subst. eapply mapM_reshape_throws; eassumption.
Qed.

Lemma finish_throws (o st : value) (e : exn) :
  finish o = (Throw e, st) -> e = TypeError.
Proof.
  unfold finish, Object_entries. unfold_upd.
  destruct (nullish (prop o "chartConfig")); intros H; inversion H; auto.
Qed.

(** X8.  The normalizer of the current copy throws nothing but a [TypeError]
    and its two errors of its own, and when it throws the parse error the
    input object is as the model gave it.  A [data] that is a non-empty string
    but no JSON text is answered with the parse error. *)
Theorem X8_normalizer_errors (o : value) :
  (forall e st, Finance.processToolResponse o = (Throw e, st) ->
                (e = TypeError \/ e = parse_error \/ e = structure_error)
                /\ (e = parse_error -> st = o))
  /\ (forall s, nullish o = false -> prop o "data" = JStr s -> s <> EmptyString ->
                JSON_parse s = None ->
                Finance.processToolResponse o = (Throw parse_error, o)).
Proof.
  split.
  - intros e st. unfold Finance.processToolResponse, bindU.
    destruct (parse_data o) as [[[]|e1] o1] eqn:E1.
    + destruct (validate o1) as [[[]|e2] o2] eqn:E2.
      * destruct (pie o2) as [[[]|e3] o3] eqn:E3.
        -- intros F. apply finish_throws in F. subst e.
           split; [auto | discriminate].
        -- intros H. inversion H; subst. apply pie_throws in E3. subst e.
           split; [auto | discriminate].
      * intros H. inversion H; subst. apply validate_throws in E2.
        split; [tauto | destruct E2; subst; discriminate].
    + intros H. inversion H; subst. apply parse_data_throws in E1 as [E1 ->].
      split; [tauto | reflexivity].
  - intros s Hn Hd Hs Hp. unfold Finance.processToolResponse.
    apply bindU_throw. unfold parse_data. unfold_upd.
    rewrite (member_normal _ _ Hn), Hd. cbn [truthy].
    replace (s =? EmptyString) with false by (symmetry; now apply String.eqb_neq).
    cbn [negb]. now rewrite Hp.
Qed.
End NormalizerMore.

Lemma X8_normalizer_errors_witness :
  @Finance.processToolResponse Reference.platform Examples.malformed_payload
  = (Throw Normalizer.parse_error, Examples.malformed_payload).
Proof.
  destruct (@X8_normalizer_errors Reference.platform Examples.malformed_payload) as [_ H].
  apply (H "not json"); try reflexivity. discriminate.
Defined.

Section NormalizerShape.
Context `{P : Platform}.
Import Normalizer.

Lemma parse_data_object (kvs : list (string * value)) (o' : value) (u : unit) :
  parse_data (JObj kvs) = (Normal u, o') -> exists kvs', o' = JObj kvs'.
Proof.
  unfold parse_data. unfold_upd. cbn [member nullish].
  assert (W : forall x, write "data" x (JObj kvs) = (Normal u, o') ->
                        exists kvs', o' = JObj kvs').
  { intros x. unfold write. cbn [assign]. intros H. inversion H. eauto. }
  destruct (prop (JObj kvs) "data") eqn:D; try solve [intros H; inversion H; eauto].
  destruct (truthy (JStr s)); [|intros H; inversion H; eauto].
  destruct (JSON_parse s) as [v|]; [|discriminate].
  destruct v; try apply W.
  destruct (JSON_parse s0) as [v'|]; [apply W | discriminate].
Qed.

Lemma pie_keeps (o o' : value) (u : unit) (k : string) :
  pie o = (Normal u, o') -> k <> "data" -> k <> "config" -> prop o' k = prop o k.
Proof.
  unfold pie, write. unfold_upd.
  destruct (is_pie (prop o "chartType")); [|intros H _ _; inversion H; reflexivity].
  destruct (mapM _ _) as [items|e3]; [|discriminate].
  destruct (assign o "data" (JArr items)) as [o1|e4] eqn:A1; [|discriminate].
  destruct (assign (prop o1 "config") "xAxisKey" (JStr "segment")) as [cfg|e5];
    [|discriminate].
  destruct (assign o1 "config" cfg) as [o2|e6] eqn:A2; [|discriminate].
  intros H Hd Hc. inversion H; subst.
  rewrite (assign_keeps _ _ _ _ _ A2 Hc). apply (assign_keeps _ _ _ _ _ A1 Hd).
Qed.

(** A run that completes never writes to [chartType] or [chartConfig]. *)
Lemma run_keeps (o chart st : value) (k : string) :
  Finance.processToolResponse o = (Normal chart, st) ->
  k <> "data" -> k <> "config" -> prop st k = prop o k.
Proof.
  intros H Hd Hc.
  apply processToolResponse_normal in H as (o1 & o2 & o3 & E1 & E2 & E3 & F).
  apply finish_normal in F as [-> _].
  apply validate_normal in E2 as (-> & _).
  rewrite (pie_keeps _ _ _ _ E3 Hd Hc). apply (parse_data_keeps _ _ _ _ E1 Hd).
Qed.

(** X6.  Colors go by position.  When the normalization completes on a payload
    whose [chartConfig] is an object, the [chartConfig] of the result has the
    same series keys in the same order, and its n-th series (from 0) is the
    n-th series of the input with [color] set to the palette slot [n + 1];
    every other field of a series is kept. *)
Theorem X6_colors_by_position (input chart st : value)
        (entries : list (string * value)) :
  Finance.processToolResponse input = (Normal chart, st) ->
  prop input "chartConfig" = JObj entries ->
  NoDup (map fst entries) ->
  exists colored,
    prop chart "chartConfig" = JObj colored
    /\ map fst colored = map fst entries
    /\ (forall n key config,
           nth_error entries n = Some (key, config) ->
           nth_error colored n
           = Some (key,
                   JObj (obj_set "color"
                           (JStr ("hsl(var(--chart-" ++ string_of_nat (n + 1) ++ "))"))
                           (own_entries config))))
    /\ (forall n key config field,
           nth_error entries n = Some (key, config) -> field <> "color" ->
           prop (prop (JObj colored) key) field = prop (JObj (own_entries config)) field).
Proof.
  intros Hrun Hcc Hnd.
  pose proof (run_keeps _ _ _ "chartConfig" Hrun ltac:(discriminate) ltac:(discriminate))
    as Hkeep.
  apply processToolResponse_normal in Hrun as (o1 & o2 & o3 & _ & _ & _ & F).
  apply finish_normal in F as [-> ->].
  rewrite Hkeep, Hcc. cbn [own_entries].
  rewrite assignColors_fresh by (auto; intros; reflexivity). cbn [app].
  exists (with_colors 0 entries). rewrite prop_obj_set_same.
  split; [reflexivity|]. split; [apply with_colors_keys|]. split.
  - intros n key config Hn. apply (with_colors_nth entries 0 n key config Hn).
  - intros n key config field Hn Hf.
    pose proof (with_colors_nth entries 0 n key config Hn) as Hc.
    assert (Hassoc : assoc key (with_colors 0 entries)
                     = Some (JObj (obj_set "color" (color (0 + n)) (own_entries config)))).
    { clear Hkeep Hcc. revert Hc Hnd. rewrite <- (with_colors_keys 0 entries).
      generalize (with_colors 0 entries) as l.
      generalize (JObj (obj_set "color" (color (0 + n)) (own_entries config))) as x.
      clear. intros x l. revert n. induction l as [|[k' y] r IH]; intros n Hc Hnd.
      - destruct n; discriminate.
      - destruct n as [|n]; cbn in Hc.
        + inversion Hc; subst. cbn. now rewrite String.eqb_refl.
        + cbn. cbn [map fst] in Hnd. inversion Hnd as [|? ? Hnotin Hnd']; subst.
          destruct (k' =? key) eqn:E.
          * apply String.eqb_eq in E. subst k'. exfalso. apply Hnotin.
            apply nth_error_In in Hc. apply (in_map fst) in Hc. exact Hc.
          * apply (IH n Hc Hnd'). }
    change (prop (JObj (with_colors 0 entries)) key)
      with (match assoc key (with_colors 0 entries) with
            | Some x => x
            | None => JUndefined
            end).
    rewrite Hassoc. apply prop_obj_set_other. exact Hf.
Qed.

(** X7.  Normalizing twice.  For an object payload that is no pie and whose
    [chartConfig] is an object, the result of a normalization that completes is
    a fixed point: normalizing it again returns it unchanged and writes
    nothing. *)
Theorem X7_normalize_twice (kvs entries : list (string * value)) (chart st : value) :
  is_pie (prop (JObj kvs) "chartType") = false ->
  prop (JObj kvs) "chartConfig" = JObj entries ->
  NoDup (map fst entries) ->
  Finance.processToolResponse (JObj kvs) = (Normal chart, st) ->
  Finance.processToolResponse chart = (Normal chart, chart).
Proof.
  intros Hpie Hcc Hnd Hrun.
  pose proof (run_keeps _ _ _ "chartConfig" Hrun ltac:(discriminate) ltac:(discriminate))
    as Hkeepcc.
  pose proof (run_keeps _ _ _ "chartType" Hrun ltac:(discriminate) ltac:(discriminate))
    as Hkeepct.
  apply processToolResponse_normal in Hrun as (o1 & o2 & o3 & E1 & E2 & E3 & F).
  apply finish_normal in F as [-> ->].
  apply validate_normal in E2 as (-> & Hct & Harr).
  destruct (parse_data_object _ _ _ E1) as [kvs1 ->].
  assert (Hpie1 : is_pie (prop (JObj kvs1) "chartType") = false).
  { rewrite (parse_data_keeps _ _ _ "chartType" E1) by discriminate. exact Hpie. }
  rewrite (pie_not_pie _ Hpie1) in E3. inversion E3; subst o3. clear E3.
  rewrite Hcc in Hkeepcc. rewrite Hkeepcc. cbn [own_entries].
  rewrite assignColors_fresh by (auto; intros; reflexivity). cbn [app].
  set (colored := JObj (with_colors 0 entries)).
  set (result := JObj (obj_set "chartConfig" colored kvs1)).
  assert (Hdata : prop result "data" = prop (JObj kvs1) "data")
    by (apply prop_obj_set_other; discriminate).
  assert (Htype : prop result "chartType" = prop (JObj kvs1) "chartType")
    by (apply prop_obj_set_other; discriminate).
  unfold Finance.processToolResponse.
  rewrite (bindU_normal _ _ result result tt).
  2:{ apply parse_data_not_string; [reflexivity|].
      intros s Hs. rewrite Hdata in Hs. rewrite Hs in Harr. discriminate. }
  rewrite (bindU_normal _ _ result result tt).
  2:{ unfold validate. unfold_upd. rewrite member_normal by reflexivity.
      rewrite Htype, Hdata, Hct, Harr.
      destruct (prop (JObj kvs1) "data"); try discriminate. reflexivity. }
  rewrite (bindU_normal _ _ result result tt)
    by (apply pie_not_pie; now rewrite Htype).
  unfold finish. unfold_upd. unfold result at 1. rewrite prop_obj_set_same.
  cbn [Object_entries nullish colored own_entries].
  rewrite assignColors_fresh
    by (rewrite ?with_colors_keys; auto; intros; reflexivity).
  cbn [app]. rewrite with_colors_twice. unfold result. cbn [own_entries].
  rewrite obj_set_twice. reflexivity.
Qed.
End NormalizerShape.

Lemma X6_colors_by_position_witness :
  exists chart,
    @Finance.processToolResponse Reference.platform MoreExamples.two_series
    = (Normal chart, MoreExamples.two_series)
    /\ prop chart "chartConfig"
       = JObj [ ("revenue", JObj [("label", JStr "Revenue");
                                  ("color", JStr "hsl(var(--chart-1))")]);
                ("cost", JObj [("label", JStr "Cost"); ("stacked", JBool true);
                               ("color", JStr "hsl(var(--chart-2))")]) ].
Proof.
  destruct (@Finance.processToolResponse Reference.platform MoreExamples.two_series)
    as [[chart|e] st] eqn:E; [|vm_compute in E; discriminate].
  assert (Hnd : NoDup (map fst MoreExamples.two_series_config)).
  { repeat constructor; cbn; intuition discriminate. }
  destruct (@X6_colors_by_position Reference.platform MoreExamples.two_series chart st
              MoreExamples.two_series_config E eq_refl Hnd) as (colored & Hc & _ & Hnth & _).
  exists chart. split.
  - vm_compute in E. inversion E. reflexivity.
  - rewrite Hc. f_equal.
    pose proof (Hnth 0 _ _ eq_refl) as H0. pose proof (Hnth 1 _ _ eq_refl) as H1.
    destruct colored as [|c0 [|c1 [|c2 r]]]; try discriminate;
      cbn in H0, H1; inversion H0; inversion H1; subst; try reflexivity.
    clear - Hc E. exfalso. vm_compute in E. inversion E; subst.
    vm_compute in Hc. discriminate.
Defined.

Lemma X7_normalize_twice_witness :
  exists chart,
    @Finance.processToolResponse Reference.platform MoreExamples.two_series
    = (Normal chart, MoreExamples.two_series)
    /\ @Finance.processToolResponse Reference.platform chart = (Normal chart, chart).
Proof.
  destruct (@Finance.processToolResponse Reference.platform MoreExamples.two_series)
    as [[chart|e] st] eqn:E; [|vm_compute in E; discriminate].
  assert (Hnd : NoDup (map fst MoreExamples.two_series_config)).
  { repeat constructor; cbn; intuition discriminate. }
  exists chart. split.
  - vm_compute in E. inversion E. reflexivity.
  - apply (@X7_normalize_twice Reference.platform MoreExamples.two_series_props
             MoreExamples.two_series_config chart st eq_refl eq_refl Hnd E).
Defined.

Lemma reshape_normal (chartData item r : value) :
  Normalizer.reshape chartData item = Normal r -> nullish item = false.
Proof.
  unfold Normalizer.reshape, Object_keys, member.
  destruct (nullish (prop chartData "chartConfig")); cbn [bind]; [discriminate|].
  destruct (nullish (prop chartData "config")); cbn [bind]; [discriminate|].
  destruct (nullish item); cbn [bind]; [discriminate | reflexivity].
Qed.

Lemma mapM_reshape_normal (chartData : value) (items l : list value) :
  mapM (Normalizer.reshape chartData) items = Normal l ->
  Forall (fun item => nullish item = false) items.
Proof.
  revert l. induction items as [|item r IH]; intros l; [constructor|].
  cbn [mapM]. destruct (Normalizer.reshape chartData item) as [y|e] eqn:R;
    cbn [bind]; [|discriminate].
  destruct (mapM (Normalizer.reshape chartData) r) as [ys|e] eqn:M;
    cbn [bind]; [|discriminate].
  intros _. constructor; [eapply reshape_normal; eassumption | eapply IH; reflexivity].
Qed.

Lemma assign_normal (v x o' : value) (k : string) :
  assign v k x = Normal o' -> holds_properties v = true.
Proof. destruct v; cbn; congruence. Qed.

Lemma holds_properties_assign (v x : value) (k : string) :
  holds_properties v = true -> exists o', assign v k x = Normal o'.
Proof. destruct v; cbn; try discriminate; eauto. Qed.

Section Acceptance.
Context `{P : Platform}.
Import Normalizer.

(** X9.  Which payloads other than pies are accepted.  For a payload whose
    [data] is not a string and whose [chartType] is not pie, the normalization
    completes exactly when [chartType] is truthy, [data] is an array and
    [chartConfig] is neither [null] nor [undefined]; and it then leaves the
    input object as it was. *)
Theorem X9_accepted_payloads (o : value) :
  (forall s, prop o "data" <> JStr s) ->
  is_pie (prop o "chartType") = false ->
  (forall chart st,
      Finance.processToolResponse o = (Normal chart, st) ->
      truthy (prop o "chartType") = true /\ isArray (prop o "data") = true
      /\ nullish (prop o "chartConfig") = false /\ st = o)
  /\ (truthy (prop o "chartType") = true -> isArray (prop o "data") = true ->
      nullish (prop o "chartConfig") = false ->
      exists chart, Finance.processToolResponse o = (Normal chart, o)).
Proof.
  intros Hdata Hpie. split.
  - intros chart st Hrun.
    apply processToolResponse_normal in Hrun as (o1 & o2 & o3 & E1 & E2 & E3 & F).
    assert (Hn : nullish o = false).
    { destruct (nullish o) eqn:E; [|reflexivity].
      unfold parse_data, bindU, read, lift, member in E1. rewrite E in E1.
      discriminate. }
    rewrite (parse_data_not_string o Hn Hdata) in E1. inversion E1; subst o1.
    apply validate_normal in E2 as (-> & Hct & Harr).
    rewrite (pie_not_pie _ Hpie) in E3. inversion E3; subst o3.
    unfold finish, Object_entries, bindU, read, lift, ret in F.
    destruct (nullish (prop o "chartConfig")); [discriminate|].
    inversion F; subst. repeat split; assumption || reflexivity.
  - intros Hct Harr Hcc.
    assert (Hn : nullish o = false).
    { destruct (nullish o) eqn:E; [|reflexivity].
      rewrite (prop_nullish _ _ E) in Harr. discriminate. }
    unfold Finance.processToolResponse.
    rewrite (bindU_normal _ _ o o tt) by now apply parse_data_not_string.
    rewrite (bindU_normal _ _ o o tt).
    2:{ unfold validate. unfold_upd. rewrite (member_normal _ _ Hn), Hct, Harr.
        destruct (prop o "data"); try discriminate. reflexivity. }
    rewrite (bindU_normal _ _ o o tt) by now apply pie_not_pie.
    unfold finish, Object_entries. unfold_upd. rewrite Hcc. eauto.
Qed.

(** X10.  Which pies are accepted.  For an object payload with [chartType] pie
    whose [data] is not a string and whose segment key ([config.xAxisKey], or
    segment when that is falsy) converts to a string, the normalization
    completes exactly when [data] is an array none of whose records is [null]
    or [undefined], [config] is an object (or an array) and [chartConfig] is
    neither [null] nor [undefined]. *)
Theorem X10_accepted_pies (kvs : list (string * value)) :
  (forall s, prop (JObj kvs) "data" <> JStr s) ->
  is_pie (prop (JObj kvs) "chartType") = true ->
  has_primitive (js_or (prop (prop (JObj kvs) "config") "xAxisKey") (JStr "segment"))
  = true ->
  (forall chart st,
      Finance.processToolResponse (JObj kvs) = (Normal chart, st) ->
      isArray (prop (JObj kvs) "data") = true
      /\ Forall (fun item => nullish item = false) (items_of (prop (JObj kvs) "data"))
      /\ holds_properties (prop (JObj kvs) "config") = true
      /\ nullish (prop (JObj kvs) "chartConfig") = false)
  /\ (isArray (prop (JObj kvs) "data") = true ->
      Forall (fun item => nullish item = false) (items_of (prop (JObj kvs) "data")) ->
      holds_properties (prop (JObj kvs) "config") = true ->
      nullish (prop (JObj kvs) "chartConfig") = false ->
      exists chart st, Finance.processToolResponse (JObj kvs) = (Normal chart, st)).
Proof.
  intros Hdata Hpie _.
  assert (Hparse : parse_data (JObj kvs) = (Normal tt, JObj kvs))
    by (apply parse_data_not_string; [reflexivity | exact Hdata]).
  split.
  - intros chart st Hrun.
    pose proof (run_keeps _ _ _ "chartConfig" Hrun ltac:(discriminate) ltac:(discriminate))
      as Hkeep.
    apply processToolResponse_normal in Hrun as (o1 & o2 & o3 & E1 & E2 & E3 & F).
    rewrite Hparse in E1. inversion E1; subst o1.
    apply validate_normal in E2 as (-> & Hct & Harr).
    split; [exact Harr|].
    assert (Hcc : nullish (prop (JObj kvs) "chartConfig") = false).
    { rewrite <- Hkeep. pose proof (finish_normal _ _ _ F) as [-> _].
      revert F. unfold finish, Object_entries. unfold_upd.
      destruct (nullish (prop o3 "chartConfig")); [discriminate | reflexivity]. }
    revert E3. unfold pie, write. unfold_upd. rewrite Hpie.
    destruct (mapM _ _) as [items|e3] eqn:M; [|discriminate].
    cbn [assign]. rewrite prop_obj_set_other by discriminate.
    destruct (assign (prop (JObj kvs) "config") "xAxisKey" (JStr "segment"))
      as [cfg|e5] eqn:A; [|discriminate].
    intros _. split; [eapply mapM_reshape_normal; eassumption|].
    split; [eapply assign_normal; eassumption | exact Hcc].
  - intros Harr Hall Hcfg Hcc.
    assert (Hncfg : nullish (prop (JObj kvs) "config") = false)
      by (destruct (prop (JObj kvs) "config"); cbn in *; congruence).
    assert (Hct : truthy (prop (JObj kvs) "chartType") = true).
    { destruct (prop (JObj kvs) "chartType"); cbn in Hpie; try discriminate.
      cbn. apply String.eqb_eq in Hpie. subst. reflexivity. }
    destruct (holds_properties_assign _ (JStr "segment") "xAxisKey" Hcfg) as [cfg Hassign].
    unfold Finance.processToolResponse.
    rewrite (bindU_normal _ _ _ _ _ Hparse).
    rewrite (bindU_normal _ _ (JObj kvs) (JObj kvs) tt).
    2:{ unfold validate. unfold_upd. rewrite member_normal by reflexivity.
        rewrite Hct, Harr. destruct (prop (JObj kvs) "data"); try discriminate.
        reflexivity. }
    assert (Hp : exists o3, pie (JObj kvs) = (Normal tt, o3)
                            /\ prop o3 "chartConfig" = prop (JObj kvs) "chartConfig").
    { unfold pie, write. unfold_upd. rewrite Hpie.
      rewrite (mapM_reshape _ _ Hcc Hncfg Hall).
      match goal with |- context [assign (JObj kvs) "data" ?x] =>
        change (assign (JObj kvs) "data" x) with (Normal (JObj (obj_set "data" x kvs)))
      end.
      cbv beta iota. rewrite prop_obj_set_other by discriminate. rewrite Hassign.
      cbv beta iota.
      match goal with |- context [assign (JObj ?l) "config" cfg] =>
        change (assign (JObj l) "config" cfg) with (Normal (JObj (obj_set "config" cfg l)))
      end.
      cbv beta iota. eexists. split; [reflexivity|].
      rewrite !prop_obj_set_other by discriminate. reflexivity. }
    destruct Hp as (o3 & Hp & Hkeep).
    rewrite (bindU_normal _ _ _ _ _ Hp).
    unfold finish, Object_entries. unfold_upd. rewrite Hkeep, Hcc. eauto.
Qed.
End Acceptance.

Lemma X9_accepted_payloads_witness :
  exists chart,
    @Finance.processToolResponse Reference.platform MoreExamples.two_series
    = (Normal chart, MoreExamples.two_series).
Proof.
  assert (Hdata : forall s, prop MoreExamples.two_series "data" <> JStr s)
    by (intros s; cbn; discriminate).
  destruct (@X9_accepted_payloads Reference.platform MoreExamples.two_series Hdata eq_refl)
    as [_ H].
  apply H; reflexivity.
Defined.

Lemma X10_accepted_pies_witness :
  exists chart st,
    @Finance.processToolResponse Reference.platform Examples.pie_payload
    = (Normal chart, st).
Proof.
  assert (Hdata : forall s, prop (JObj Examples.pie_props) "data" <> JStr s)
    by (intros s; cbn; discriminate).
  destruct (@X10_accepted_pies Reference.platform Examples.pie_props Hdata eq_refl
              eq_refl) as [_ H].
  apply H; try reflexivity. cbn. repeat constructor.
Defined.

(* ================================================================== *)
(** * More on the finance route                                        *)
(* ================================================================== *)

Lemma run_calls_pos {T} (fn : nat -> completion T) (jitter : nat -> Z)
      (maxRetries initialDelay maxDelay : Z) (status_of : exn -> option Z)
      (retryableErrors : option (list Z)) :
  (1 <= maxRetries)%Z ->
  1 <= Retry.calls (Retry.run fn jitter maxRetries initialDelay maxDelay status_of
                      retryableErrors).
Proof.
  intros H. unfold Retry.run.
  destruct (Z.to_nat maxRetries) as [|n] eqn:E; [lia|].
  destruct (attempts_schedule fn jitter maxRetries initialDelay maxDelay status_of
              retryableErrors (S n) 0 0 None []) as (k & Hk & Hc & _); [lia | lia |].
  rewrite Hc. lia.
Qed.

Section RouteMore.
Context `{P : Platform}.
Variable w : World.

Lemma step1a_calls (req : Request) :
  snd (Finance.step1a w req) <= 3
  /\ (1 <= snd (Finance.step1a w req)
      <-> truthy (includeLiveData req) = true
          /\ Finance.identifiers_complete (Finance.icfData_of req) = true).
Proof.
  unfold Finance.step1a.
  destruct (truthy (includeLiveData req)); cbn [andb];
    [|split; [cbn; lia | cbn; split; [lia | intros [? _]; discriminate]]].
  destruct (Finance.identifiers_complete (Finance.icfData_of req));
    [|split; [cbn; lia | cbn; split; [lia | intros [_ ?]; discriminate]]].
  cbn [snd]. unfold Finance.fetchCombinedCSVsByFirm, Finance.retryWithBackoff. split.
  - apply (run_calls_bound _ _ _ _ _ _ 3%Z).
  - split; [auto|]. intros _. apply run_calls_pos. lia.
Qed.

(** The query step: either it throws before any search, or it gives the query
    and the number of search calls, between 0 and 2, positive exactly when
    live data is on and the query is not blank. *)
Lemma step1b_calls (req : Request) (msgs : list value) :
  match Finance.step1b w req msgs with
  | Throw _ => True
  | Normal (query, _, n) =>
      n <= 2
      /\ (1 <= n <-> truthy (includeLiveData req) = true /\ blank query = false)
  end.
Proof.
  unfold Finance.step1b.
  destruct (truthy (includeLiveData req)); cbn [andb];
    [|split; [lia | split; [lia | intros [? _]; discriminate]]].
  destruct (negb (Nat.eqb (List.length msgs) 0));
    [|split; [lia | split; [lia | intros [_ H]; cbn in H; discriminate]]].
  destruct (Finance.extract_query (List.last msgs JUndefined)) as [query|e];
    cbn [bind]; [|exact I].
  destruct (blank query) eqn:B; cbn [negb];
    [split; [lia | split; [lia | intros [_ ?]; congruence]]|].
  unfold Finance.searchLive, Finance.retryWithBackoff. split.
  - apply (run_calls_bound _ _ _ _ _ _ 2%Z).
  - split; [auto|]. intros _. apply run_calls_pos. lia.
Qed.

(** X13.  Whatever the request and the services do, one request makes at most
    3 calls to the portfolio service, 2 to the search route and 3 to the
    model. *)
Theorem X13_calls_per_request (req : Request) :
  portfolio_calls (snd (Finance.POST w req)) <= 3
  /\ search_calls (snd (Finance.POST w req)) <= 2
  /\ model_calls (snd (Finance.POST w req)) <= 3.
Proof.
  unfold Finance.POST.
  destruct (Finance.prepare req) as [r|conversation]; [cbn; lia|].
  pose proof (step1a_calls req) as [Ha _].
  destruct (Finance.step1a w req) as [stockData pc]. cbn [snd] in Ha.
  pose proof (step1b_calls req (Normalizer.items_of (messages req))) as Hb.
  destruct (Finance.step1b w req _) as [[[query pd] sc]|e]; [|cbn; lia].
  destruct Hb as [Hb _].
  destruct (Finance.step2 req stockData pd query conversation) as [fused|e];
    [|cbn; lia].
  cbn [snd portfolio_calls search_calls model_calls].
  split; [exact Ha|]. split; [exact Hb|].
  unfold Finance.createMessage, Finance.retryWithBackoff.
  apply (run_calls_bound _ _ _ _ _ _ 3%Z).
Qed.

End RouteMore.


Lemma set_last_app {A} (x t : A) (earlier : list A) :
  Finance.set_last x (earlier ++ [t])%list = (earlier ++ [x])%list.
Proof.
  induction earlier as [|a r IH]; [reflexivity|].
  cbn [app]. destruct r as [|b r']; [reflexivity|].
  cbn [app] in *. cbn [Finance.set_last]. cbn [Finance.set_last] in IH.
  now rewrite IH.
Qed.

Section Rejections.
Context `{P : Platform}.
Variable w : World.

Lemma failure_error_only (e : exn) :
  error_only (body (Finance.failure e)) = true ->
  Finance.failure e = mkResponse 500 (Failed e).
Proof.
  unfold Finance.failure. destruct e as [|m i]; [reflexivity|].
  destruct (isAPIError i); [discriminate | reflexivity].
Qed.

Lemma prepare_error_only (req : Request) (r : Response) :
  Finance.prepare req = inl r -> error_only (body r) = true ->
  (http_status r = 400%Z /\ exists msg, body r = Rejected msg /\ In msg rejections)
  \/ (http_status r = 500%Z /\ exists e, body r = Failed e).
Proof.
  assert (R : forall msg,
             In msg rejections ->
             (http_status (mkResponse 400 (Rejected msg)) = 400%Z
              /\ exists msg', body (mkResponse 400 (Rejected msg)) = Rejected msg'
                              /\ In msg' rejections)
             \/ (http_status (mkResponse 400 (Rejected msg)) = 500%Z
                 /\ exists e, body (mkResponse 400 (Rejected msg)) = Failed e)).
  { intros msg Hin. left. split; [reflexivity|]. exists msg. auto. }
  unfold Finance.prepare.
  destruct (messages req);
    try (intros H _; inversion H; subst; apply R; cbn; tauto).
  destruct (negb (truthy (model req)));
    [intros H _; inversion H; subst; apply R; cbn; tauto|].
  destruct (mapM Finance.to_turn items) as [conv|e].
  - destruct (truthy (fileData req)); [|discriminate].
    destruct (negb (truthy (prop (fileData req) "base64")));
      [intros H _; inversion H; subst; apply R; cbn; tauto|].
    destruct (Finance.attach _ _ _); [discriminate|].
    intros H _; inversion H; subst; apply R; cbn; tauto.
  - intros H Hb. inversion H; subst. right.
    rewrite (failure_error_only e Hb). split; [reflexivity|]. exists e. reflexivity.
Qed.

(** X11.  Bodies that hold an error text and nothing else.  Such a response
    has status 400 or 500.  With status 400 it is one of the four rejections
    of the validation and of the file step, and it is issued before any
    service has been called; with status 500 it comes from the last case of
    the outer handler. *)
Theorem X11_rejections (req : Request) :
  let response := fst (Finance.POST w req) in
  error_only (body response) = true ->
  (http_status response = 400%Z \/ http_status response = 500%Z)
  /\ (http_status response = 400%Z ->
      snd (Finance.POST w req) = mkTrace 0 0 0 None
      /\ exists msg, body response = Rejected msg /\ In msg rejections)
  /\ (http_status response = 500%Z -> exists e, body response = Failed e).
Proof.
  assert (F : forall (e : exn) (t : Trace),
             error_only (body (Finance.failure e)) = true ->
             (http_status (Finance.failure e) = 400%Z
              \/ http_status (Finance.failure e) = 500%Z)
             /\ (http_status (Finance.failure e) = 400%Z ->
                 t = mkTrace 0 0 0 None
                 /\ exists msg, body (Finance.failure e) = Rejected msg
                                /\ In msg rejections)
             /\ (http_status (Finance.failure e) = 500%Z ->
                 exists e', body (Finance.failure e) = Failed e')).
  { intros e t He. rewrite (failure_error_only e He). cbn.
    split; [auto|]. split; [discriminate | eauto]. }
  cbv zeta. unfold Finance.POST.
  destruct (Finance.prepare req) as [r|conversation] eqn:Hprep.
  - cbn [fst snd]. intros Hb.
    destruct (prepare_error_only req r Hprep Hb)
      as [[Hs (msg & Hm & Hin)]|[Hs (e & He)]]; rewrite Hs.
    + split; [auto|]. split; [eauto | discriminate].
    + split; [auto|]. split; [discriminate | eauto].
  - destruct (Finance.step1a w req) as [stockData pc].
    destruct (Finance.step1b w req _) as [[[query pd] sc]|e]; [|apply F].
    destruct (Finance.step2 req stockData pd query conversation) as [fused|e];
      [|apply F].
    cbn [fst snd]. destruct (Retry.outcome _) as [content|e]; [|apply F].
    rewrite respond_fields. discriminate.
Qed.

(** X12.  Edge cases of the file step, for a request with an array of turns, a
    model and a [fileData] carrying a [base64]: on an empty conversation
    with a text or image file, on a text file whose [base64] cannot be decoded, and on a file that is not text
    and has no [mediaType] string, the request is rejected with status 400;
    a file that is not text and whose [mediaType] does not start with image/
    is ignored, the conversation going on as it was. *)
Theorem X12_file_edge_cases (req : Request) (turns : list Turn) :
  messages req = JArr (map turn_value turns) ->
  truthy (model req) = true ->
  truthy (fileData req) = true ->
  truthy (prop (fileData req) "base64") = true ->
  let rejected := inl (mkResponse 400 (Rejected "Failed to process file content")) in
  (turns = [] ->
   truthy (prop (fileData req) "isText") = true
   \/ (exists m, prop (fileData req) "mediaType" = JStr m /\ prefix "image/" m = true) ->
   Finance.prepare req = rejected)
  /\ (truthy (prop (fileData req) "isText") = true ->
      atob_utf8 (ToString (prop (fileData req) "base64")) = None ->
      Finance.prepare req = rejected)
  /\ (truthy (prop (fileData req) "isText") = false ->
      (forall m, prop (fileData req) "mediaType" <> JStr m) ->
      Finance.prepare req = rejected)
  /\ (forall m,
         truthy (prop (fileData req) "isText") = false ->
         prop (fileData req) "mediaType" = JStr m ->
         prefix "image/" m = false ->
         Finance.prepare req = inr turns).
Proof.
  intros Hm Hmodel Hfile Hb64 rejected. subst rejected.
  unfold Finance.prepare. rewrite Hm, Hmodel, mapM_to_turn, Hfile, Hb64.
  cbn [negb]. unfold Finance.attach.
  split; [|split; [|split]].
  - intros -> Hkind. cbn [map List.last member nullish].
    destruct (truthy (prop (fileData req) "isText")).
    + destruct (atob_utf8 _); reflexivity.
    + destruct Hkind as [?|(m & -> & ->)]; [discriminate | reflexivity].
  - intros Ht Hd. now rewrite Ht, Hd.
  - intros Ht Hmt. rewrite Ht.
    destruct (prop (fileData req) "mediaType"); try reflexivity.
    exfalso. now apply (Hmt s).
  - intros m Ht Hmt Hpre. now rewrite Ht, Hmt, Hpre.
Qed.
End Rejections.

Lemma X11_rejections_witness :
  snd (@Finance.POST Reference.platform Examples.text_world MoreExamples.no_model)
  = mkTrace 0 0 0 None
  /\ exists msg,
       body (fst (@Finance.POST Reference.platform Examples.text_world
                    MoreExamples.no_model)) = Rejected msg
       /\ In msg rejections.
Proof.
  destruct (@X11_rejections Reference.platform Examples.text_world
              MoreExamples.no_model eq_refl) as (_ & H & _).
  apply H. reflexivity.
Defined.

Lemma X12_file_edge_cases_witness :
  @Finance.prepare Reference.platform MoreExamples.pdf_request
  = inr [Examples.ask "Summarize the report."]
  /\ sent (snd (@Finance.POST Reference.platform Examples.text_world
                  MoreExamples.pdf_request))
     = Some [Examples.ask "Summarize the report."].
Proof.
  destruct (@X12_file_edge_cases Reference.platform MoreExamples.pdf_request
              [Examples.ask "Summarize the report."] eq_refl eq_refl eq_refl eq_refl)
    as (_ & _ & _ & H).
  split.
  - apply (H "application/pdf"); reflexivity.
  - vm_compute. reflexivity.
Defined.

(* ================================================================== *)
(** * The fusion step                                                  *)
(* ================================================================== *)

Lemma rewrite_turn_role (prompt : string) (t t' : Turn) :
  Finance.rewrite_turn prompt t = Normal t' -> role t' = role t.
Proof.
  unfold Finance.rewrite_turn.
  destruct (content t) as [| |b|n|s|l|kvs];
    try (intros H; inversion H; subst; reflexivity).
  destruct (Finance.set_first_text prompt l); cbn; [|discriminate].
  intros H; inversion H; subst; reflexivity.
Qed.

Lemma rewrite_turn_other (prompt : string) (t : Turn) :
  (forall s, content t <> JStr s) -> (forall l, content t <> JArr l) ->
  Finance.rewrite_turn prompt t = Normal t.
Proof.
  intros Hs Hl. unfold Finance.rewrite_turn.
  destruct (content t) as [| |b|n|s|l|kvs]; try reflexivity.
  - now destruct (Hs s).
  - now destruct (Hl l).
Qed.

Lemma rewrite_last_shape (prompt : string) (l l' : list Turn) :
  Finance.rewrite_last prompt l = Normal l' ->
  exists earlier t t',
    l = (earlier ++ [t])%list /\ l' = (earlier ++ [t'])%list
    /\ Finance.rewrite_turn prompt t = Normal t'.
Proof.
  revert l'. induction l as [|a r IH]; intros l'; [discriminate|].
  destruct r as [|b r'].
  - cbn [Finance.rewrite_last].
    destruct (Finance.rewrite_turn prompt a) as [t'|] eqn:Ht; cbn; [|discriminate].
    intros H; inversion H; subst. exists [], a, t'. auto.
  - change (Finance.rewrite_last prompt (a :: b :: r'))
      with (let* r2 := Finance.rewrite_last prompt (b :: r') in Normal (a :: r2)).
    destruct (Finance.rewrite_last prompt (b :: r')) as [r2|] eqn:Hr; cbn; [|discriminate].
    intros H; inversion H; subst.
    destruct (IH r2 eq_refl) as (earlier & t & t' & E1 & E2 & E3).
    exists (a :: earlier), t, t'. rewrite E1, E2. auto.
Qed.

Lemma rewrite_last_app (prompt : string) (earlier : list Turn) (t : Turn) :
  Finance.rewrite_last prompt (earlier ++ [t])%list
  = let* t' := Finance.rewrite_turn prompt t in Normal (earlier ++ [t'])%list.
Proof.
  induction earlier as [|a r IH]; [reflexivity|].
  cbn [app]. destruct (r ++ [t])%list as [|b r'] eqn:E.
  - now destruct r.
  - change (Finance.rewrite_last prompt (a :: b :: r'))
      with (let* r2 := Finance.rewrite_last prompt (b :: r') in Normal (a :: r2)).
    rewrite IH. now destruct (Finance.rewrite_turn prompt t).
Qed.

Lemma removelast_snoc {A} (l : list A) (x : A) : removelast (l ++ [x])%list = l.
Proof. rewrite removelast_app by discriminate. cbn. apply app_nil_r. Qed.

Lemma set_first_text_found (prompt : string) (pre post : list value)
      (kvs : list (string * value)) :
  Forall other_part pre ->
  Finance.is_text_type (prop (JObj kvs) "type") = true ->
  Finance.set_first_text prompt (pre ++ JObj kvs :: post)%list
  = Normal (Some (pre ++ JObj (obj_set "text" (JStr prompt) kvs) :: post)%list).
Proof.
  intros Hpre Htext. induction Hpre as [|c pre [Hc Ht] _ IH].
  - cbn [app Finance.set_first_text]. rewrite member_normal by reflexivity.
    cbn [bind]. now rewrite Htext.
  - cbn [app Finance.set_first_text]. rewrite (member_normal _ _ Hc).
    cbn [bind]. rewrite Ht, IH. reflexivity.
Qed.

Lemma set_first_text_none (prompt : string) (parts : list value) :
  Forall other_part parts -> Finance.set_first_text prompt parts = Normal None.
Proof.
  induction 1 as [|c parts [Hc Ht] _ IH]; [reflexivity|].
  cbn [Finance.set_first_text]. rewrite (member_normal _ _ Hc).
  cbn [bind]. rewrite Ht, IH. reflexivity.
Qed.

Section Fusion.
Context `{P : Platform}.
Variable w : World.

Lemma POST_sent (req : Request) (conv fused : list Turn) :
  Finance.prepare req = inr conv ->
  sent (snd (Finance.POST w req)) = Some fused ->
  exists stockData pd query,
    Finance.step2 req stockData pd query conv = Normal fused
    /\ Finance.POST w req
       = (match Retry.outcome (Finance.createMessage w req fused) with
          | Normal content => Finance.respond content
          | Throw e => Finance.failure e
          end,
          mkTrace (portfolio_calls (snd (Finance.POST w req)))
                  (search_calls (snd (Finance.POST w req)))
                  (Retry.calls (Finance.createMessage w req fused)) (Some fused)).
Proof.
  intros Hprep. unfold Finance.POST. rewrite Hprep.
  destruct (Finance.step1a w req) as [stockData pc].
  destruct (Finance.step1b w req _) as [[[query pd] sc]|e]; [|discriminate].
  destruct (Finance.step2 req stockData pd query conv) as [f|e] eqn:H2; [|discriminate].
  cbn [snd sent]. intros H; inversion H; subst f.
  exists stockData, pd, query. split; [exact H2 | reflexivity].
Qed.

(** X15.  Whatever fusion does, it does to the content of the last turn alone:
    the conversation sent to the model has the turns of the prepared
    conversation but the last, the same roles in the same order, hence the same
    length; and a last turn whose content is neither a string nor an array is
    sent as it is. *)
Theorem X15_fusion_last_turn_only (req : Request) (conv fused : list Turn) :
  Finance.prepare req = inr conv ->
  sent (snd (Finance.POST w req)) = Some fused ->
  removelast fused = removelast conv
  /\ map role fused = map role conv
  /\ List.length fused = List.length conv
  /\ (forall earlier t,
         conv = (earlier ++ [t])%list ->
         (forall s, content t <> JStr s) -> (forall l, content t <> JArr l) ->
         fused = conv).
Proof.
  intros Hprep Hsent.
  destruct (POST_sent req conv fused Hprep Hsent) as (stockData & pd & query & H2 & _).
  unfold Finance.step2 in H2.
  destruct (Finance.fusion_applies req stockData pd query).
  - destruct (rewrite_last_shape _ _ _ H2) as (earlier & t & t' & -> & -> & Ht).
    rewrite !removelast_snoc, !map_app, !length_app. cbn [map List.length].
    rewrite (rewrite_turn_role _ _ _ Ht).
    repeat split; try reflexivity.
    intros earlier' t0 E Hs Hl. apply app_inj_tail in E as [-> ->].
    rewrite rewrite_turn_other in Ht by assumption. now inversion Ht.
  - inversion H2; subst. repeat split; reflexivity.
Qed.

(** X16.  Fusion on a structured last turn.  When some part is a text part and
    the parts before it are present and are no text parts, the [text] of that
    first text part becomes the prompt and every other part, before or after,
    stays as it is; when no part is a text part, a text part holding the prompt
    is put in front of the others.  The role is kept in both cases. *)
Theorem X16_fusion_structured_content (prompt : string) (r : value) :
  (forall pre post kvs,
      Forall other_part pre ->
      Finance.is_text_type (prop (JObj kvs) "type") = true ->
      Finance.rewrite_turn prompt (mkTurn r (JArr (pre ++ JObj kvs :: post)%list))
      = Normal (mkTurn r (JArr (pre ++ JObj (obj_set "text" (JStr prompt) kvs)
                                    :: post)%list)))
  /\ (forall parts,
         Forall other_part parts ->
         Finance.rewrite_turn prompt (mkTurn r (JArr parts))
         = Normal (mkTurn r (JArr (Finance.text_part (JStr prompt) :: parts)))).
Proof.
  split.
  - intros pre post kvs Hpre Htext. unfold Finance.rewrite_turn. cbn [content role].
    now rewrite set_first_text_found.
  - intros parts Hparts. unfold Finance.rewrite_turn. cbn [content role].
    now rewrite set_first_text_none.
Qed.
End Fusion.

Lemma X15_fusion_last_turn_only_witness :
  exists fused,
    sent (snd (@Finance.POST Reference.platform Examples.portfolio_world
                 MoreExamples.followup_request)) = Some fused
    /\ removelast fused
       = [ Examples.ask "Hello"; mkTurn (JStr "assistant") (JStr "Hi, how can I help?") ]
    /\ List.length fused = 3.
Proof.
  eexists. split; [vm_compute; reflexivity|].
  destruct (@X15_fusion_last_turn_only Reference.platform Examples.portfolio_world
              MoreExamples.followup_request
              [ Examples.ask "Hello";
                mkTurn (JStr "assistant") (JStr "Hi, how can I help?");
                Examples.ask "How is my portfolio doing?" ]
              _ eq_refl ltac:(vm_compute; reflexivity)) as (A & _ & C & _).
  split; [exact A | exact C].
Defined.

Lemma X16_fusion_structured_content_witness :
  Finance.rewrite_turn "What changed?"
    (image_file_turn Examples.image_file "image/png" (JStr "What does this chart show?"))
  = Normal (image_file_turn Examples.image_file "image/png" (JStr "What changed?")).
Proof.
  destruct (X16_fusion_structured_content "What changed?" (JStr "user")) as [H _].
  apply (H [Finance.image_part (JStr "image/png") (JStr "aGVsbG8=")] []
           [("type", JStr "text"); ("text", JStr "What does this chart show?")]).
  - repeat constructor.
  - reflexivity.
Defined.

Section FileAndFusion.
Context `{P : Platform}.
Variable w : World.

Lemma prepare_text_file (req : Request) (earlier : list Turn) (t : Turn)
      (fileText : string) :
  messages req = JArr (map turn_value (earlier ++ [t])%list) ->
  truthy (model req) = true ->
  truthy (fileData req) = true ->
  truthy (prop (fileData req) "base64") = true ->
  truthy (prop (fileData req) "isText") = true ->
  atob_utf8 (ToString (prop (fileData req) "base64")) = Some fileText ->
  Finance.prepare req
  = inr (earlier ++ [text_file_turn (fileData req) fileText (content t)])%list.
Proof.
  intros Hm Hmodel Hfile Hb64 Ht Hd. unfold Finance.prepare.
  rewrite Hm, Hmodel, mapM_to_turn, Hfile, Hb64. cbn [negb].
  unfold Finance.attach. rewrite Ht, Hd, last_turn_value.
  cbn [turn_value member nullish]. cbn [prop assoc String.eqb Ascii.eqb Bool.eqb].
  rewrite set_last_app. reflexivity.
Qed.

Lemma prepare_image_file (req : Request) (earlier : list Turn) (t : Turn)
      (mediaType : string) :
  messages req = JArr (map turn_value (earlier ++ [t])%list) ->
  truthy (model req) = true ->
  truthy (fileData req) = true ->
  truthy (prop (fileData req) "base64") = true ->
  truthy (prop (fileData req) "isText") = false ->
  prop (fileData req) "mediaType" = JStr mediaType ->
  prefix "image/" mediaType = true ->
  Finance.prepare req
  = inr (earlier ++ [image_file_turn (fileData req) mediaType (content t)])%list.
Proof.
  intros Hm Hmodel Hfile Hb64 Ht Hmt Hpre. unfold Finance.prepare.
  rewrite Hm, Hmodel, mapM_to_turn, Hfile, Hb64. cbn [negb].
  unfold Finance.attach. rewrite Ht, Hmt, Hpre, last_turn_value.
  cbn [turn_value member nullish]. cbn [prop assoc String.eqb Ascii.eqb Bool.eqb].
  rewrite set_last_app. reflexivity.
Qed.

Lemma step2_cases (req : Request) (stockData : value) (pd : option Finance.PerplexityData)
      (query : string) (earlier : list Turn) (t : Turn) (t' : string -> Turn)
      (fused : list Turn) :
  (forall prompt, Finance.rewrite_turn prompt t = Normal (t' prompt)) ->
  Finance.step2 req stockData pd query (earlier ++ [t])%list = Normal fused ->
  (Finance.fusion_applies req stockData pd query = false
   /\ fused = (earlier ++ [t])%list)
  \/ (Finance.fusion_applies req stockData pd query = true
      /\ fused = (earlier
                  ++ [t' (Finance.enhancedPrompt (Finance.icfData_of req)
                            stockData pd query)])%list).
Proof.
  intros Hrw. unfold Finance.step2.
  destruct (Finance.fusion_applies req stockData pd query).
  - rewrite rewrite_last_app, Hrw. cbn [bind]. intros H; inversion H; auto.
  - intros H; inversion H; auto.
Qed.

(** X17.  A file and fusion together.  With a text file, the turn sent to the
    model is either the one the file step built (file contents, then the
    original content) or, when fusion applies, that turn with the enhanced
    prompt written over the part that held the file contents.  With an image,
    the image part is kept and, when fusion applies, the enhanced prompt is
    written over the original content that follows it. *)
Theorem X17_file_and_fusion (req : Request) (earlier : list Turn) (t : Turn)
        (fused : list Turn) :
  messages req = JArr (map turn_value (earlier ++ [t])%list) ->
  truthy (model req) = true ->
  truthy (fileData req) = true ->
  truthy (prop (fileData req) "base64") = true ->
  sent (snd (Finance.POST w req)) = Some fused ->
  (forall fileText,
      truthy (prop (fileData req) "isText") = true ->
      atob_utf8 (ToString (prop (fileData req) "base64")) = Some fileText ->
      exists stockData pd query,
        (Finance.fusion_applies req stockData pd query = false
         /\ fused = (earlier ++ [text_file_turn (fileData req) fileText (content t)])%list)
        \/ (Finance.fusion_applies req stockData pd query = true
            /\ fused
               = (earlier
                  ++ [mkTurn (JStr "user")
                        (JArr [ Finance.text_part
                                  (JStr (Finance.enhancedPrompt (Finance.icfData_of req)
                                           stockData pd query));
                                Finance.text_part (content t) ])])%list))
  /\ (forall mediaType,
         truthy (prop (fileData req) "isText") = false ->
         prop (fileData req) "mediaType" = JStr mediaType ->
         prefix "image/" mediaType = true ->
         exists stockData pd query,
           (Finance.fusion_applies req stockData pd query = false
            /\ fused
               = (earlier ++ [image_file_turn (fileData req) mediaType (content t)])%list)
           \/ (Finance.fusion_applies req stockData pd query = true
               /\ fused
                  = (earlier
                     ++ [image_file_turn (fileData req) mediaType
                           (JStr (Finance.enhancedPrompt (Finance.icfData_of req)
                                    stockData pd query))])%list)).
Proof.
  intros Hm Hmodel Hfile Hb64 Hsent. split.
  - intros fileText Ht Hd.
    pose proof (prepare_text_file req earlier t fileText Hm Hmodel Hfile Hb64 Ht Hd)
      as Hprep.
    destruct (POST_sent w req _ fused Hprep Hsent) as (stockData & pd & query & H2 & _).
    exists stockData, pd, query.
    apply (step2_cases req stockData pd query earlier _
             (fun prompt =>
                mkTurn (JStr "user")
                  (JArr [Finance.text_part (JStr prompt); Finance.text_part (content t)]))
             fused); [|exact H2].
    intros prompt. reflexivity.
  - intros mediaType Ht Hmt Hpre.
    pose proof (prepare_image_file req earlier t mediaType Hm Hmodel Hfile Hb64 Ht Hmt Hpre)
      as Hprep.
    destruct (POST_sent w req _ fused Hprep Hsent) as (stockData & pd & query & H2 & _).
    exists stockData, pd, query.
    apply (step2_cases req stockData pd query earlier _
             (fun prompt => image_file_turn (fileData req) mediaType (JStr prompt))
             fused); [|exact H2].
    intros prompt. reflexivity.
Qed.
End FileAndFusion.

Lemma X17_file_and_fusion_witness :
  exists fused,
    sent (snd (@Finance.POST Reference.platform Examples.portfolio_world
                 MoreExamples.notes_request)) = Some fused
    /\ exists stockData pd query,
         (Finance.fusion_applies MoreExamples.notes_request stockData pd query = false
          /\ fused = [text_file_turn MoreExamples.notes_file "hello"
                        (JStr "Compare with my holdings.")])
         \/ (Finance.fusion_applies MoreExamples.notes_request stockData pd query = true
             /\ fused
                = [mkTurn (JStr "user")
                     (JArr [ Finance.text_part
                               (JStr (@Finance.enhancedPrompt Reference.platform
                                        Examples.identifiers stockData pd query));
                             Finance.text_part (JStr "Compare with my holdings.") ])]).
Proof.
  eexists. split; [vm_compute; reflexivity|].
  destruct (@X17_file_and_fusion Reference.platform Examples.portfolio_world
              MoreExamples.notes_request []
              (Examples.ask "Compare with my holdings.") _
              eq_refl eq_refl eq_refl eq_refl ltac:(vm_compute; reflexivity)) as [H _].
  exact (H "hello" eq_refl ltac:(vm_compute; reflexivity)).
Defined.

(* ================================================================== *)
(** * Failures of the model call                                       *)
(* ================================================================== *)

Section ModelFailures.
Context `{P : Platform}.
Variable w : World.

Lemma POST_model (req : Request) (fused : list Turn) :
  sent (snd (Finance.POST w req)) = Some fused ->
  fst (Finance.POST w req)
  = match Retry.outcome (Finance.createMessage w req fused) with
    | Normal content => Finance.respond content
    | Throw e => Finance.failure e
    end
  /\ model_calls (snd (Finance.POST w req))
     = Retry.calls (Finance.createMessage w req fused).
Proof.
  unfold Finance.POST.
  destruct (Finance.prepare req) as [r|conv]; [discriminate|].
  destruct (Finance.step1a w req) as [stockData pc].
  destruct (Finance.step1b w req _) as [[[query pd] sc]|e]; [|discriminate].
  destruct (Finance.step2 req stockData pd query conv) as [f|e]; [|discriminate].
  cbn [snd sent fst model_calls]. intros H; inversion H; subst f. split; reflexivity.
Qed.

(** X18.  Failures of the model call, for a request that reaches it.  A first
    failure that is not retried (a status in [400,500) other than 429, or a
    status that is not zero and not among 429, 500, 502, 503, 504) ends the
    request after that one call; a failure that is retried and comes back on
    all three calls ends it after three.  In both cases the response is the
    one the outer handler builds from that error: for an API error with a
    status [c] in [400,600), status [c] and the error message as details. *)
Theorem X18_model_call_failures (req : Request) (fused : list Turn) (e : exn) :
  sent (snd (Finance.POST w req)) = Some fused ->
  let call := anthropic_create w (model req) fused in
  (forall c,
      call 0 = Throw e -> Finance.statusCode_of e = Some c -> c <> 0%Z ->
      ((400 <= c < 500)%Z /\ c <> 429%Z) \/ ~ In c [429; 500; 502; 503; 504]%Z ->
      fst (Finance.POST w req) = Finance.failure e
      /\ model_calls (snd (Finance.POST w req)) = 1)
  /\ ((forall i, i <= 2 -> call i = Throw e) ->
      Retry.client_error (Finance.statusCode_of e) = false ->
      Retry.not_listed Finance.retryable (Finance.statusCode_of e) = false ->
      fst (Finance.POST w req) = Finance.failure e
      /\ model_calls (snd (Finance.POST w req)) = 3)
  /\ (forall msg info c,
         e = Error msg info -> isAPIError info = true -> status info = Some c ->
         (400 <= c <= 599)%Z ->
         Finance.failure e = mkResponse c (ApiError msg (Some c))).
Proof.
  intros Hsent call. destruct (POST_model req fused Hsent) as [Hr Hc].
  rewrite Hr, Hc. unfold Finance.createMessage, Finance.retryWithBackoff.
  fold call. split; [|split].
  - intros c H0 Hst Hnz [[Hrange Hne]|Hout].
    + rewrite (run_client_error call (jitter w 2) 2000 15000 Finance.statusCode_of
                 Finance.retryable 3 e c H0 Hst Hrange Hne) by lia.
      split; reflexivity.
    + rewrite (run_unlisted call (jitter w 2) 3 2000 15000 Finance.statusCode_of
                 Finance.retryable e c _ eq_refl H0 Hst Hnz Hout) by lia.
      split; reflexivity.
  - intros Hall Hce Hnl.
    rewrite (run_exhausted call (jitter w 2) 3 2000 15000 Finance.statusCode_of
               Finance.retryable 2 eq_refl).
    + rewrite (Hall 2) by lia. split; reflexivity.
    + intros i Hi. exists e. rewrite (Hall i Hi). auto.
  - intros msg info c -> Hapi Hst _. unfold Finance.failure. now rewrite Hapi, Hst.
Qed.

(** X19.  An API error that carries no [status] (a connection error of the
    client library) is retried; when it comes back on all three calls the
    response has the default status 200 although its body is the error body
    with no code. *)
Theorem X19_model_error_without_status (req : Request) (fused : list Turn)
        (msg : string) (info : errinfo) :
  sent (snd (Finance.POST w req)) = Some fused ->
  isAPIError info = true ->
  status info = None -> response_status info = None -> statusCode info = None ->
  (forall i, i <= 2 -> anthropic_create w (model req) fused i = Throw (Error msg info)) ->
  Finance.POST w req
  = (mkResponse 200 (ApiError msg None),
     mkTrace (portfolio_calls (snd (Finance.POST w req)))
             (search_calls (snd (Finance.POST w req))) 3 (Some fused)).
Proof.
  intros Hsent Hapi Hs Hrs Hsc Hall.
  destruct (POST_model req fused Hsent) as [Hr Hc].
  assert (Hrun : Finance.createMessage w req fused
                 = Retry.mkRun (Throw (Error msg info)) 3
                     (schedule (jitter w 2) 2000 15000 2)).
  { unfold Finance.createMessage, Finance.retryWithBackoff.
    rewrite (run_exhausted (anthropic_create w (model req) fused) (jitter w 2) 3
               2000 15000 Finance.statusCode_of Finance.retryable 2 eq_refl).
    - rewrite (Hall 2) by lia. reflexivity.
    - intros i Hi. exists (Error msg info). rewrite (Hall i Hi).
      cbn [Finance.statusCode_of]. rewrite Hs, Hrs, Hsc. auto. }
  rewrite Hrun in Hr, Hc. cbn [Retry.outcome Retry.calls] in Hr, Hc.
  unfold Finance.failure in Hr. rewrite Hapi, Hs in Hr.
  destruct (Finance.POST w req) as [r t] eqn:E. cbn [fst snd] in *.
  destruct t as [pc sc mc s]. cbn in Hsent, Hc |- *. now subst.
Qed.
End ModelFailures.

Lemma X18_model_call_failures_witness :
  (fst (@Finance.POST Reference.platform
          (MoreExamples.failing_model (MoreExamples.api_error "Overloaded" 529))
          MoreExamples.plain_request)
   = mkResponse 529 (ApiError "Overloaded" (Some 529%Z))
   /\ model_calls (snd (@Finance.POST Reference.platform
                          (MoreExamples.failing_model
                             (MoreExamples.api_error "Overloaded" 529))
                          MoreExamples.plain_request)) = 1)
  /\ (fst (@Finance.POST Reference.platform
             (MoreExamples.failing_model (MoreExamples.api_error "Rate limited" 429))
             MoreExamples.plain_request)
      = mkResponse 429 (ApiError "Rate limited" (Some 429%Z))
      /\ model_calls (snd (@Finance.POST Reference.platform
                             (MoreExamples.failing_model
                                (MoreExamples.api_error "Rate limited" 429))
                             MoreExamples.plain_request)) = 3).
Proof.
  split.
  - destruct (@X18_model_call_failures Reference.platform
                (MoreExamples.failing_model (MoreExamples.api_error "Overloaded" 529))
                MoreExamples.plain_request
                [Examples.ask "Chart my revenue by quarter."]
                (MoreExamples.api_error "Overloaded" 529) eq_refl) as (A & _ & C).
    destruct (A 529%Z eq_refl eq_refl) as [R N].
    + lia.
    + right. cbn. lia.
    + rewrite R. split; [|exact N].
      apply (C "Overloaded" (mkInfo (Some 529%Z) None None true) 529%Z);
        reflexivity || lia.
  - destruct (@X18_model_call_failures Reference.platform
                (MoreExamples.failing_model (MoreExamples.api_error "Rate limited" 429))
                MoreExamples.plain_request
                [Examples.ask "Chart my revenue by quarter."]
                (MoreExamples.api_error "Rate limited" 429) eq_refl) as (_ & B & C).
    destruct (B (fun i _ => eq_refl) eq_refl eq_refl) as [R N].
    rewrite R. split; [|exact N].
    apply (C "Rate limited" (mkInfo (Some 429%Z) None None true) 429%Z);
      reflexivity || lia.
Defined.

Lemma X19_model_error_without_status_witness :
  @Finance.POST Reference.platform
    (MoreExamples.failing_model MoreExamples.connection_error)
    MoreExamples.plain_request
  = (mkResponse 200 (ApiError "Connection error." None),
     mkTrace 0 0 3 (Some [Examples.ask "Chart my revenue by quarter."])).
Proof.
  exact (@X19_model_error_without_status Reference.platform
           (MoreExamples.failing_model MoreExamples.connection_error)
           MoreExamples.plain_request
           [Examples.ask "Chart my revenue by quarter."]
           "Connection error." (mkInfo None None None true)
           eq_refl eq_refl eq_refl eq_refl eq_refl (fun i _ => eq_refl)).
Defined.

(* ================================================================== *)
(** * The outcome of a retry run                                       *)
(* ================================================================== *)

Section RetryOutcome.
Context {T : Type}.
Variable fn : nat -> completion T.
Variable jitter : nat -> Z.
Variables maxRetries initialDelay maxDelay : Z.
Variable status_of : exn -> option Z.
Variable retryableErrors : option (list Z).

(** The outcome of the loop is the outcome of its last call, and every call
    before it failed in a way that is retried. *)
Lemma attempts_outcome (remaining attempt called : nat) (lastError : option exn)
      (slept : list Z) :
  Z.of_nat (attempt + remaining) = maxRetries ->
  1 <= remaining ->
  let r := Retry.attempts fn jitter maxRetries initialDelay maxDelay status_of
             retryableErrors remaining attempt called lastError slept in
  exists n,
    n < remaining
    /\ Retry.calls r = called + n + 1
    /\ Retry.outcome r = fn (called + n)
    /\ (forall i, i < n -> retried status_of retryableErrors (fn (called + i))).
Proof.
  revert attempt called lastError slept.
  induction remaining as [|r IH]; intros attempt called lastError slept Hinv Hpos; [lia|].
  cbn zeta. rewrite attempts_step.
  assert (Stop : forall c : completion T,
             fn called = c ->
             exists n, n < S r
                       /\ Retry.calls (Retry.mkRun c (S called) slept) = called + n + 1
                       /\ Retry.outcome (Retry.mkRun c (S called) slept) = fn (called + n)
                       /\ (forall i, i < n ->
                                     retried status_of retryableErrors (fn (called + i)))).
  { intros c Hc. exists 0. rewrite Nat.add_0_r. cbn. repeat split; try lia.
    now symmetry. }
  destruct (fn called) as [v|e] eqn:Hfn; [now apply Stop|].
  destruct (Retry.client_error _) eqn:Hce; [now apply Stop|].
  destruct (Retry.not_listed _ _) eqn:Hnl; [now apply Stop|].
  rewrite (last_attempt_test maxRetries attempt r Hinv).
  destruct r as [|r']; cbn [Nat.eqb]; [now apply Stop|].
  destruct (IH (S attempt) (S called) (Some e)
               (slept ++ [Retry.delay jitter initialDelay maxDelay attempt])%list)
    as (n & Hn & Hc & Ho & Hr); [lia | lia |].
  exists (S n). split; [lia|]. split; [rewrite Hc; lia|]. split.
  - rewrite Ho. f_equal. lia.
  - intros i Hi. destruct i as [|i].
    + rewrite Nat.add_0_r. exists e. auto.
    + replace (called + S i) with (S called + i) by lia. apply Hr. lia.
Qed.

Lemma run_outcome :
  (1 <= maxRetries)%Z ->
  let r := Retry.run fn jitter maxRetries initialDelay maxDelay status_of
             retryableErrors in
  exists n,
    n < Z.to_nat maxRetries
    /\ Retry.calls r = n + 1
    /\ Retry.outcome r = fn n
    /\ (forall i, i < n -> retried status_of retryableErrors (fn i)).
Proof.
  intros Hmax. unfold Retry.run.
  apply (attempts_outcome (Z.to_nat maxRetries) 0 0 None []); lia.
Qed.
End RetryOutcome.

(** X20.  The outcome of a retry run.  When at least one attempt is allowed,
    [retryWithBackoff] (both copies) returns or throws exactly what its last
    call did, and every call before that one failed in a way that is retried:
    no result and no terminal error is ever replaced by a later one. *)
Theorem X20_retry_outcome_is_last_call (T : Type) (fn : nat -> completion T)
        (jitter : nat -> Z) (maxRetries initialDelay maxDelay : Z)
        (retryableErrors : option (list Z)) :
  (1 <= maxRetries)%Z ->
  (exists n,
      n < Z.to_nat maxRetries
      /\ Retry.calls (Finance.retryWithBackoff jitter fn maxRetries initialDelay
                        maxDelay retryableErrors) = n + 1
      /\ Retry.outcome (Finance.retryWithBackoff jitter fn maxRetries initialDelay
                          maxDelay retryableErrors) = fn n
      /\ (forall i, i < n -> retried Finance.statusCode_of retryableErrors (fn i)))
  /\ (exists n,
         n < Z.to_nat maxRetries
         /\ Retry.calls (Perplexity.retryWithBackoff jitter fn maxRetries initialDelay
                           maxDelay) = n + 1
         /\ Retry.outcome (Perplexity.retryWithBackoff jitter fn maxRetries initialDelay
                             maxDelay) = fn n
         /\ (forall i, i < n -> retried Perplexity.statusCode_of None (fn i))).
Proof.
  intros Hmax. split; now apply run_outcome.
Qed.

Lemma X20_retry_outcome_is_last_call_witness :
  exists n,
    n < 3
    /\ Retry.calls (Finance.retryWithBackoff Examples.no_jitter Examples.flaky 3 1000
                      10000 Finance.retryable) = n + 1
    /\ Retry.outcome (Finance.retryWithBackoff Examples.no_jitter Examples.flaky 3 1000
                        10000 Finance.retryable) = Examples.flaky n
    /\ (forall i, i < n ->
                  retried Finance.statusCode_of Finance.retryable (Examples.flaky i)).
Proof.
  destruct (X20_retry_outcome_is_last_call string Examples.flaky Examples.no_jitter
              3 1000 10000 Finance.retryable) as [A _]; [lia|].
  exact A.
Defined.

(* ================================================================== *)
(** * The search route                                                 *)
(* ================================================================== *)

Lemma constructible_range (c : Z) :
  (400 <= c <= 599)%Z -> SearchRoute.constructible c = true.
Proof.
  intros H. unfold SearchRoute.constructible, SearchRoute.in_range.
  replace (200 <=? c)%Z with true by (symmetry; apply Z.leb_le; lia).
  replace (c <=? 599)%Z with true by (symmetry; apply Z.leb_le; lia).
  replace (c =? 204)%Z with false by (symmetry; apply Z.eqb_neq; lia).
  replace (c =? 205)%Z with false by (symmetry; apply Z.eqb_neq; lia).
  replace (c =? 304)%Z with false by (symmetry; apply Z.eqb_neq; lia).
  reflexivity.
Qed.

Lemma not_ok_range (c : Z) : (300 <= c)%Z -> SearchRoute.ok c = false.
Proof.
  intros H. unfold SearchRoute.ok, SearchRoute.in_range.
  replace (c <=? 299)%Z with false by (symmetry; apply Z.leb_gt; lia).
  apply andb_false_r.
Qed.

(** What [accept] lets through. *)
Lemma accept_query (apiKey : option string) (body : option value) (query : string) :
  SearchRoute.accept apiKey body = Normal (inr query) ->
  exists b, body = Some b /\ member b "query" = Normal (JStr query)
            /\ blank query = false /\ SearchRoute.configured apiKey = true.
Proof.
  unfold SearchRoute.accept. destruct body as [b|]; [|discriminate].
  destruct (member b "query") as [q|] eqn:Hq; cbn [bind]; [|discriminate].
  destruct (negb (truthy q)); [discriminate|].
  destruct q; try discriminate.
  destruct (blank s) eqn:Hb; [discriminate|].
  destruct (SearchRoute.configured apiKey) eqn:Hk; cbn [negb]; [|discriminate].
  intros H; inversion H; subst. exists b. auto.
Qed.

Lemma accept_asked (apiKey : option string) (b : value) (query : string) :
  member b "query" = Normal (JStr query) -> blank query = false ->
  SearchRoute.configured apiKey = true ->
  SearchRoute.accept apiKey (Some b) = Normal (inr query).
Proof.
  intros Hq Hb Hk. unfold SearchRoute.accept. rewrite Hq. cbn [bind truthy].
  destruct (query =? EmptyString) eqn:E.
  - apply String.eqb_eq in E. subst. discriminate.
  - cbn [negb]. now rewrite Hb, Hk.
Qed.

(** X21.  What the search route (either copy) answers before it calls the
    search service.  The service is called only for a body whose [query] is a
    string that is not blank, and with a key configured.  A missing, falsy or
    blank [query] is rejected with status 400; a body that is [null], and a
    truthy [query] that is no string, end in the outer handler with status
    500; a missing key gives status 500 with its own message. *)
Theorem X21_search_validation (apiKey : option string) (jitter : nat -> Z)
        (fetch : string -> nat -> completion Fetched) (body : option value) :
  let current := SearchRoute.POST apiKey jitter fetch body in
  let earlier := SearchRouteEarlier.POST apiKey fetch body in
  let rejected status text :=
    (mkSearchResponse status false (Some text) (JStr EmptyString) (JArr []), 0) in
  (snd current <> 0 \/ snd earlier <> 0 ->
   exists b query,
     body = Some b /\ member b "query" = Normal (JStr query)
     /\ blank query = false /\ SearchRoute.configured apiKey = true)
  /\ (body = None ->
      current = rejected 400%Z (Text "Invalid JSON in request body")
      /\ earlier = current)
  /\ (forall b,
         body = Some b -> nullish b = false ->
         truthy (prop b "query") = false
         \/ (exists q, prop b "query" = JStr q /\ blank q = true) ->
         current = rejected 400%Z (Text "Query cannot be empty") /\ earlier = current)
  /\ (forall b,
         body = Some b ->
         nullish b = true
         \/ (truthy (prop b "query") = true /\ forall q, prop b "query" <> JStr q) ->
         current = rejected 500%Z (EngineText EmptyString) /\ earlier = current)
  /\ (forall b q,
         body = Some b -> nullish b = false -> prop b "query" = JStr q ->
         blank q = false -> SearchRoute.configured apiKey = false ->
         current
         = rejected 500%Z
             (Text "PERPLEXITY_API_KEY not configured. Please add it to your .env.local file.")
         /\ earlier = current).
Proof.
  intros current earlier rejected. subst current earlier rejected.
  unfold SearchRoute.POST, SearchRouteEarlier.POST.
  split; [|split; [|split; [|split]]].
  - destruct (SearchRoute.accept apiKey body) as [[r|query]|e] eqn:Ha;
      cbn [snd]; try (intros [H|H]; now destruct H).
    intros _. destruct (accept_query _ _ _ Ha) as (b & ?). exists b, query. assumption.
  - intros ->. cbn. split; reflexivity.
  - intros b -> Hb Hq. unfold SearchRoute.accept.
    rewrite (member_normal _ _ Hb). cbn [bind].
    destruct Hq as [Hq|(q & Hq & Hblank)].
    + rewrite Hq. cbn. split; reflexivity.
    + rewrite Hq. destruct (negb (truthy (JStr q))); [cbn; split; reflexivity|].
      rewrite Hblank. cbn. split; reflexivity.
  - intros b -> [Hb|[Hq Hns]]; unfold SearchRoute.accept.
    + unfold member. rewrite Hb. cbn. split; reflexivity.
    + destruct (nullish b) eqn:Hb.
      * unfold member. rewrite Hb. cbn. split; reflexivity.
      * rewrite (member_normal _ _ Hb). cbn [bind]. rewrite Hq. cbn [negb].
        destruct (prop b "query") as [| |x|n|s|l|kvs]; try (cbn; split; reflexivity).
        now destruct (Hns s).
  - intros b q -> Hb Hq Hblank Hk. unfold SearchRoute.accept.
    rewrite (member_normal _ _ Hb). cbn [bind]. rewrite Hq.
    destruct (negb (truthy (JStr q))) eqn:Ht.
    + destruct q; [discriminate Hblank | discriminate Ht].
    + rewrite Hblank, Hk. cbn. split; reflexivity.
Qed.

Lemma X21_search_validation_witness :
  SearchRoute.POST SearchExamples.key Examples.no_jitter
    (SearchExamples.steady SearchExamples.answered) (Some (JObj [("query", JStr "   ")]))
  = (mkSearchResponse 400 false (Some (Text "Query cannot be empty"))
       (JStr EmptyString) (JArr []), 0)
  /\ SearchRoute.POST SearchExamples.key Examples.no_jitter
       (SearchExamples.steady SearchExamples.answered) (Some JNull)
     = (mkSearchResponse 500 false (Some (EngineText EmptyString))
          (JStr EmptyString) (JArr []), 0).
Proof.
  destruct (X21_search_validation SearchExamples.key Examples.no_jitter
              (SearchExamples.steady SearchExamples.answered)
              (Some (JObj [("query", JStr "   ")]))) as (_ & _ & A & _).
  destruct (X21_search_validation SearchExamples.key Examples.no_jitter
              (SearchExamples.steady SearchExamples.answered)
              (Some JNull)) as (_ & _ & _ & B & _).
  split.
  - apply (A (JObj [("query", JStr "   ")]) eq_refl eq_refl).
    right. exists "   ". split; reflexivity.
  - apply (B JNull eq_refl). left. reflexivity.
Defined.

Lemma well_formed_failed (status : Z) (text : ErrorText) :
  status <> 200%Z -> well_formed (SearchRoute.caught (SearchRoute.failed status text)).
Proof.
  intros Hs. unfold SearchRoute.failed.
  destruct (SearchRoute.constructible status) eqn:Hc; unfold well_formed; cbn.
  - split; [exact Hc|]. split; [discriminate|]. intros _.
    repeat split; [exact Hs | discriminate].
  - split; [reflexivity|]. split; [discriminate|]. intros _.
    repeat split; [lia | discriminate].
Qed.

Lemma well_formed_thrown (e : exn) : well_formed (SearchRoute.caught (Throw e)).
Proof.
  unfold well_formed. cbn. split; [reflexivity|]. split; [discriminate|]. intros _.
  repeat split; [lia | discriminate].
Qed.

Lemma js_or_default (a b : value) : truthy (js_or a b) = true \/ js_or a b = b.
Proof. unfold js_or. destruct (truthy a) eqn:Ht; [left; exact Ht | right; reflexivity]. Qed.

Lemma well_formed_extract (res : Fetched) :
  well_formed (SearchRoute.caught (SearchRoute.extract res)).
Proof.
  unfold SearchRoute.extract. destruct (f_json res) as [data|].
  - destruct (member data "choices") as [choices|e]; cbn [bind];
      [|apply well_formed_thrown].
    cbn [SearchRoute.caught]. unfold well_formed. cbn.
    split; [reflexivity|]. split; [|discriminate].
    intros _. repeat split.
    + apply js_or_default.
    + destruct (js_or_default (prop data "citations") (JArr [])) as [H| ->];
        [exact H | reflexivity].
  - apply well_formed_failed. lia.
Qed.

Lemma well_formed_on_failure (e : exn) :
  (forall c, Perplexity.statusCode_of e = Some c -> SearchRoute.ok c = false) ->
  well_formed (SearchRoute.caught (SearchRoute.on_failure e)).
Proof.
  intros Hc. unfold SearchRoute.on_failure.
  destruct (SearchRoute.has_status e 429); [apply well_formed_failed; lia|].
  destruct (SearchRoute.has_status e 401); [apply well_formed_failed; lia|].
  apply well_formed_failed.
  destruct (Perplexity.statusCode_of e) as [c|]; [|lia].
  destruct (c =? 0)%Z; [lia|]. intros ->. now specialize (Hc _ eq_refl).
Qed.

Lemma well_formed_rejection (apiKey : option string) (body : option value)
      (r : SearchResponse) :
  SearchRoute.accept apiKey body = Normal (inl r) -> well_formed r.
Proof.
  assert (W : forall status text,
             status <> 200%Z ->
             (let* r0 := SearchRoute.failed status text in
              Normal (inl r0 : SearchResponse + string)) = Normal (inl r) ->
             well_formed r).
  { intros status text Hs H. pose proof (well_formed_failed status text Hs) as Hw.
    destruct (SearchRoute.failed status text) as [r0|]; cbn in H; [|discriminate].
    inversion H; subst. exact Hw. }
  unfold SearchRoute.accept. destruct body as [b|]; [|apply W; lia].
  destruct (member b "query") as [q|]; cbn [bind]; [|discriminate].
  destruct (negb (truthy q)); [apply W; lia|].
  destruct q; try discriminate.
  destruct (blank s); [apply W; lia|].
  destruct (negb (SearchRoute.configured apiKey)); [apply W; lia | discriminate].
Qed.

Lemma search_outcome (jitter : nat -> Z) (fetch : nat -> completion Fetched) :
  exists n,
    n < 3
    /\ Retry.calls (SearchRoute.search jitter fetch) = n + 1
    /\ Retry.outcome (SearchRoute.search jitter fetch) = SearchRoute.attempt fetch n
    /\ (forall i, i < n ->
                  retried Perplexity.statusCode_of None (SearchRoute.attempt fetch i)).
Proof.
  unfold SearchRoute.search, Perplexity.retryWithBackoff.
  apply (run_outcome (SearchRoute.attempt fetch) jitter 3 1000 10000
           Perplexity.statusCode_of None). lia.
Qed.

(** X22.  Every response of the search route is well formed.  For every body,
    key and behaviour of the search service, the earlier copy answers with a
    status a response can be built with, a success having status 200, no
    [error] and content and citations that are truthy or the defaults, a
    failure having another status, an [error], content [""] and citations
    [[]]; so does the current copy when [fetch] rejects with errors that carry
    no status.  The current copy calls the service at most three times, the
    earlier copy at most once. *)
Theorem X22_search_responses_well_formed (apiKey : option string) (jitter : nat -> Z)
        (fetch : string -> nat -> completion Fetched) (body : option value) :
  (plain_rejections fetch ->
   well_formed (fst (SearchRoute.POST apiKey jitter fetch body)))
  /\ well_formed (fst (SearchRouteEarlier.POST apiKey fetch body))
  /\ snd (SearchRoute.POST apiKey jitter fetch body) <= 3
  /\ snd (SearchRouteEarlier.POST apiKey fetch body) <= 1.
Proof.
  unfold SearchRoute.POST, SearchRouteEarlier.POST.
  destruct (SearchRoute.accept apiKey body) as [[r|query]|e] eqn:Ha; cbn [fst snd].
  - pose proof (well_formed_rejection _ _ _ Ha).
    split; [intros _; assumption | split; [assumption | split; lia]].
  - destruct (search_outcome jitter (fetch query)) as (n & Hn & Hc & Ho & _).
    rewrite Hc, Ho. split; [|split; [|split; lia]].
    + intros Hplain. unfold SearchRoute.attempt.
      destruct (fetch query n) as [res|e] eqn:Hf; cbn [bind].
      * destruct (SearchRoute.ok (f_status res)) eqn:Hok; [apply well_formed_extract|].
        apply well_formed_on_failure. intros c Hc'. cbn in Hc'.
        inversion Hc'; subst. exact Hok.
      * apply well_formed_on_failure. intros c Hc'.
        rewrite (Hplain _ _ _ Hf) in Hc'. discriminate.
    + destruct (fetch query 0) as [res|e].
      * unfold SearchRouteEarlier.on_response.
        destruct (SearchRoute.ok (f_status res)) eqn:Hok; cbn [negb];
          [apply well_formed_extract|].
        destruct (f_text res); [|apply well_formed_thrown].
        destruct (f_status res =? 429)%Z; [apply well_formed_failed; lia|].
        destruct (f_status res =? 401)%Z; [apply well_formed_failed; lia|].
        apply well_formed_failed. intros E. rewrite E in Hok. discriminate.
      * apply well_formed_failed. lia.
  - pose proof (well_formed_thrown e).
    split; [intros _; assumption | split; [assumption | split; lia]].
Qed.

Lemma X22_search_responses_well_formed_witness :
  well_formed (fst (SearchRoute.POST SearchExamples.key Examples.no_jitter
                      SearchExamples.recovering (SearchExamples.ask "Fed rates today")))
  /\ SearchRoute.POST SearchExamples.key Examples.no_jitter
       SearchExamples.recovering (SearchExamples.ask "Fed rates today")
     = (mkSearchResponse 200 true None (JStr "Rates were held.")
          (JArr [JStr "https://example.org/rates"]), 3).
Proof.
  split; [|reflexivity].
  destruct (X22_search_responses_well_formed SearchExamples.key Examples.no_jitter
              SearchExamples.recovering (SearchExamples.ask "Fed rates today"))
    as [A _].
  apply A. intros query k e. unfold SearchExamples.recovering.
  destruct k as [|[|k]]; intros H; inversion H; reflexivity.
Defined.

Lemma on_failure_request_error (res : Fetched) :
  (400 <= f_status res <= 599)%Z ->
  SearchRoute.on_failure (SearchRoute.request_error res)
  = Normal (search_failure (f_status res) (reported res)).
Proof.
  intros Hc. unfold SearchRoute.on_failure, SearchRoute.has_status, reported.
  cbn [SearchRoute.request_error Perplexity.statusCode_of status].
  destruct (f_status res =? 429)%Z eqn:E429.
  { apply Z.eqb_eq in E429. rewrite E429. reflexivity. }
  destruct (f_status res =? 401)%Z eqn:E401.
  { apply Z.eqb_eq in E401. rewrite E401. reflexivity. }
  replace (f_status res =? 0)%Z with false by (symmetry; apply Z.eqb_neq; lia).
  unfold SearchRoute.failed. rewrite (constructible_range _ Hc).
  unfold search_failure, SearchRoute.api_error_text. do 3 f_equal.
  unfold SearchRoute.request_error. cbn [String.eqb append].
  rewrite append_assoc. reflexivity.
Qed.

Lemma attempt_not_ok (fetch : nat -> completion Fetched) (k : nat) (res : Fetched) :
  fetch k = Normal res -> SearchRoute.ok (f_status res) = false ->
  SearchRoute.attempt fetch k = Throw (SearchRoute.request_error res).
Proof. intros Hf Hok. unfold SearchRoute.attempt. rewrite Hf. cbn [bind]. now rewrite Hok. Qed.

Lemma attempt_ok (fetch : nat -> completion Fetched) (k : nat) (res : Fetched) :
  fetch k = Normal res -> SearchRoute.ok (f_status res) = true ->
  SearchRoute.attempt fetch k = Normal res.
Proof. intros Hf Hok. unfold SearchRoute.attempt. rewrite Hf. cbn [bind]. now rewrite Hok. Qed.

Lemma client_error_false (c : Z) :
  c = 429%Z \/ (500 <= c)%Z -> Retry.client_error (Some c) = false.
Proof.
  intros [->|H]; [reflexivity|]. unfold Retry.client_error.
  replace (c <? 500)%Z with false by (symmetry; apply Z.ltb_ge; lia).
  now rewrite andb_false_r.
Qed.

Section SearchRuns.
Variable apiKey : option string.
Variable jitter : nat -> Z.
Variable fetch : string -> nat -> completion Fetched.
Variable body : option value.
Variable query : string.
Hypothesis accepted : SearchRoute.accept apiKey body = Normal (inr query).

Lemma search_terminal (res : Fetched) :
  fetch query 0 = Normal res ->
  (400 <= f_status res < 500)%Z -> f_status res <> 429%Z ->
  SearchRoute.POST apiKey jitter fetch body
  = (search_failure (f_status res) (reported res), 1).
Proof.
  intros Hf Hrange Hne. unfold SearchRoute.POST. rewrite accepted.
  unfold SearchRoute.search, Perplexity.retryWithBackoff.
  rewrite (run_client_error (SearchRoute.attempt (fetch query)) jitter 1000 10000
             Perplexity.statusCode_of None 3 (SearchRoute.request_error res)
             (f_status res)); try lia; try reflexivity.
  - cbn [Retry.outcome Retry.calls].
    rewrite on_failure_request_error by lia. reflexivity.
  - apply attempt_not_ok; [exact Hf | apply not_ok_range; lia].
Qed.

Lemma search_exhausted (res : Fetched) :
  (forall k, k <= 2 -> fetch query k = Normal res) ->
  f_status res = 429%Z \/ (500 <= f_status res <= 599)%Z ->
  SearchRoute.POST apiKey jitter fetch body
  = (search_failure (f_status res) (reported res), 3).
Proof.
  intros Hall Hc. unfold SearchRoute.POST. rewrite accepted.
  unfold SearchRoute.search, Perplexity.retryWithBackoff.
  assert (Hthrow : forall k, k <= 2 ->
                             SearchRoute.attempt (fetch query) k
                             = Throw (SearchRoute.request_error res)).
  { intros k Hk. apply attempt_not_ok; [now apply Hall | apply not_ok_range; lia]. }
  rewrite (run_exhausted (SearchRoute.attempt (fetch query)) jitter 3 1000 10000
             Perplexity.statusCode_of None 2 eq_refl).
  - rewrite (Hthrow 2) by lia. cbn [Retry.outcome Retry.calls].
    rewrite on_failure_request_error by lia. reflexivity.
  - intros i Hi. exists (SearchRoute.request_error res). rewrite (Hthrow i Hi).
    split; [reflexivity|]. split; [|reflexivity].
    apply client_error_false. cbn. lia.
Qed.

Lemma search_unreachable (e : exn) :
  (forall k, k <= 2 -> fetch query k = Throw e) ->
  Perplexity.statusCode_of e = None ->
  SearchRoute.POST apiKey jitter fetch body
  = (mkSearchResponse 500 false (Some (SearchRoute.api_error_text 500 e))
       (JStr EmptyString) (JArr []), 3).
Proof.
  intros Hall Hst. unfold SearchRoute.POST. rewrite accepted.
  unfold SearchRoute.search, Perplexity.retryWithBackoff.
  rewrite (run_exhausted (SearchRoute.attempt (fetch query)) jitter 3 1000 10000
             Perplexity.statusCode_of None 2 eq_refl).
  - unfold SearchRoute.attempt at 1. rewrite (Hall 2) by lia.
    cbn [bind Retry.outcome Retry.calls].
    unfold SearchRoute.on_failure, SearchRoute.has_status. rewrite Hst. reflexivity.
  - intros i Hi. exists e. unfold SearchRoute.attempt. rewrite (Hall i Hi).
    rewrite Hst. auto.
Qed.

Lemma search_answered (k : nat) (res : Fetched) :
  k < 3 ->
  (forall i, i < k ->
             retried Perplexity.statusCode_of None (SearchRoute.attempt (fetch query) i)) ->
  fetch query k = Normal res ->
  SearchRoute.ok (f_status res) = true ->
  SearchRoute.POST apiKey jitter fetch body
  = (SearchRoute.caught (SearchRoute.extract res), k + 1).
Proof.
  intros Hk Hfail Hf Hok. unfold SearchRoute.POST. rewrite accepted.
  unfold SearchRoute.search, Perplexity.retryWithBackoff.
  rewrite (run_success (SearchRoute.attempt (fetch query)) jitter 3 1000 10000
             Perplexity.statusCode_of None k res);
    [| lia | exact Hfail | now apply attempt_ok].
  reflexivity.
Qed.
End SearchRuns.

(** X23.  How the current copy of the search route reports a failing search
    service, for a request that passed validation.  A first answer with a
    status in [400,500) other than 429 ends the request after that one call;
    an answer with status 429 or in [500,600) that comes back on all three
    calls ends it after three; in both cases the response carries the status
    of the service, with a message of the route's own for 401 and 429 and the
    status and the text of the answer otherwise.  A [fetch] that rejects three
    times with an error that carries no status gives status 500 after three
    calls. *)
Theorem X23_search_failures (apiKey : option string) (jitter : nat -> Z)
        (fetch : string -> nat -> completion Fetched) (body : option value)
        (query : string) :
  SearchRoute.accept apiKey body = Normal (inr query) ->
  let answer := SearchRoute.POST apiKey jitter fetch body in
  (forall res,
      fetch query 0 = Normal res ->
      (400 <= f_status res < 500)%Z -> f_status res <> 429%Z ->
      answer = (search_failure (f_status res) (reported res), 1))
  /\ (forall res,
         (forall k, k <= 2 -> fetch query k = Normal res) ->
         f_status res = 429%Z \/ (500 <= f_status res <= 599)%Z ->
         answer = (search_failure (f_status res) (reported res), 3))
  /\ (forall e,
         (forall k, k <= 2 -> fetch query k = Throw e) ->
         Perplexity.statusCode_of e = None ->
         answer
         = (mkSearchResponse 500 false (Some (SearchRoute.api_error_text 500 e))
              (JStr EmptyString) (JArr []), 3)).
Proof.
  intros Ha answer. subst answer. split; [|split].
  - intros res. now apply search_terminal.
  - intros res. now apply search_exhausted.
  - intros e. now apply search_unreachable.
Qed.

Lemma X23_search_failures_witness :
  SearchRoute.POST SearchExamples.key Examples.no_jitter
    (SearchExamples.steady (SearchExamples.refused 401 "Unauthorized"))
    (SearchExamples.ask "Fed rates today")
  = (search_failure 401 "Invalid API key. Please check your PERPLEXITY_API_KEY.", 1)
  /\ SearchRoute.POST SearchExamples.key Examples.no_jitter
       (SearchExamples.steady (SearchExamples.refused 503 "Service Unavailable"))
       (SearchExamples.ask "Fed rates today")
     = (search_failure 503 "API error: 503 Perplexity API error: 503 - denied", 3)
  /\ SearchRoute.POST SearchExamples.key Examples.no_jitter
       SearchExamples.offline (SearchExamples.ask "Fed rates today")
     = (search_failure 500 "API error: 500 fetch failed", 3).
Proof.
  split; [|split].
  - destruct (X23_search_failures SearchExamples.key Examples.no_jitter
                (SearchExamples.steady (SearchExamples.refused 401 "Unauthorized"))
                (SearchExamples.ask "Fed rates today") "Fed rates today" eq_refl)
      as (A & _).
    apply (A (SearchExamples.refused 401 "Unauthorized") eq_refl); cbn; lia.
  - destruct (X23_search_failures SearchExamples.key Examples.no_jitter
                (SearchExamples.steady (SearchExamples.refused 503 "Service Unavailable"))
                (SearchExamples.ask "Fed rates today") "Fed rates today" eq_refl)
      as (_ & B & _).
    apply (B (SearchExamples.refused 503 "Service Unavailable") (fun _ _ => eq_refl)).
    right. cbn. lia.
  - destruct (X23_search_failures SearchExamples.key Examples.no_jitter
                SearchExamples.offline
                (SearchExamples.ask "Fed rates today") "Fed rates today" eq_refl)
      as (_ & _ & C).
    apply (C (Error "fetch failed" plain) (fun _ _ => eq_refl) eq_refl).
Defined.

(** X24.  Recovery and extraction in the current copy of the search route.  If
    the calls before the [k]-th fail in a way that is retried and the [k]-th
    answer is [ok] ([k < 3]), the service is called [k + 1] times and the
    response is built from that answer alone: status 500 when its body is no
    JSON, status 500 through the outer handler when the body is the JSON
    [null], and otherwise a success whose content is
    [choices[0].message.content] when that is truthy and [""] when anything on
    the way is missing, and whose citations are [citations] or [[]]. *)
Theorem X24_search_success (apiKey : option string) (jitter : nat -> Z)
        (fetch : string -> nat -> completion Fetched) (body : option value)
        (query : string) (k : nat) (res : Fetched) :
  SearchRoute.accept apiKey body = Normal (inr query) ->
  k < 3 ->
  (forall i, i < k ->
             retried Perplexity.statusCode_of None (SearchRoute.attempt (fetch query) i)) ->
  fetch query k = Normal res ->
  SearchRoute.ok (f_status res) = true ->
  let answer := SearchRoute.POST apiKey jitter fetch body in
  snd answer = k + 1
  /\ (f_json res = None ->
      fst answer = search_failure 500 "Invalid JSON response from Perplexity API")
  /\ (forall data,
         f_json res = Some data -> nullish data = true ->
         fst answer
         = mkSearchResponse 500 false (Some (EngineText EmptyString))
             (JStr EmptyString) (JArr []))
  /\ (forall data,
         f_json res = Some data -> nullish data = false ->
         fst answer
         = mkSearchResponse 200 true None
             (js_or (opt_member
                       (opt_member (opt_member (prop data "choices") "0") "message")
                       "content")
                    (JStr EmptyString))
             (js_or (prop data "citations") (JArr []))).
Proof.
  intros Ha Hk Hfail Hf Hok answer. subst answer.
  rewrite (search_answered apiKey jitter fetch body query Ha k res Hk Hfail Hf Hok).
  cbn [fst snd]. split; [reflexivity|].
  unfold SearchRoute.extract. split; [|split].
  - intros ->. reflexivity.
  - intros data -> Hn. unfold member. rewrite Hn. reflexivity.
  - intros data -> Hn. rewrite (member_normal _ _ Hn). reflexivity.
Qed.

Lemma X24_search_success_witness :
  SearchRoute.POST SearchExamples.key Examples.no_jitter SearchExamples.recovering
    (SearchExamples.ask "Fed rates today")
  = (mkSearchResponse 200 true None (JStr "Rates were held.")
       (JArr [JStr "https://example.org/rates"]), 3).
Proof.
  assert (Hretried : forall i, i < 2 ->
                               retried Perplexity.statusCode_of None
                                 (SearchRoute.attempt
                                    (SearchExamples.recovering "Fed rates today") i)).
  { intros i Hi. destruct i as [|[|i]]; [| |lia];
      (eexists; split; [reflexivity | split; reflexivity]). }
  destruct (X24_search_success SearchExamples.key Examples.no_jitter
              SearchExamples.recovering (SearchExamples.ask "Fed rates today")
              "Fed rates today" 2 SearchExamples.answered eq_refl
              ltac:(lia) Hretried eq_refl eq_refl) as (Hcalls & _ & _ & Hdata).
  specialize (Hdata SearchExamples.answer eq_refl eq_refl).
  destruct (SearchRoute.POST SearchExamples.key Examples.no_jitter
              SearchExamples.recovering (SearchExamples.ask "Fed rates today"))
    as [r n].
  cbn [fst snd] in Hcalls, Hdata. rewrite Hcalls, Hdata. reflexivity.
Defined.

(** X25.  The two copies of the search route against a service that answers
    every call alike, with a body that can be read as text.  They give the
    same status, the same [success], the same content and the same citations;
    they give the same [error] too when the answer is [ok] or has status 401 or
    429.  The current copy never makes fewer calls than the earlier one. *)
Theorem X25_search_copies_agree (apiKey : option string) (jitter : nat -> Z)
        (fetch : string -> nat -> completion Fetched) (body : option value)
        (res : Fetched) :
  (forall query k, k <= 2 -> fetch query k = Normal res) ->
  f_text res <> None ->
  let current := SearchRoute.POST apiKey jitter fetch body in
  let earlier := SearchRouteEarlier.POST apiKey fetch body in
  s_status (fst current) = s_status (fst earlier)
  /\ s_success (fst current) = s_success (fst earlier)
  /\ s_content (fst current) = s_content (fst earlier)
  /\ s_citations (fst current) = s_citations (fst earlier)
  /\ (SearchRoute.ok (f_status res) = true
      \/ f_status res = 401%Z \/ f_status res = 429%Z ->
      fst current = fst earlier)
  /\ snd earlier <= snd current.
Proof.
  intros Hsteady Htext current earlier. subst current earlier.
  unfold SearchRoute.POST, SearchRouteEarlier.POST.
  destruct (SearchRoute.accept apiKey body) as [[r|query]|e]; cbn [fst snd];
    try (repeat split; reflexivity || lia).
  destruct (search_outcome jitter (fetch query)) as (n & Hn & Hc & Ho & _).
  rewrite Hc, Ho, (Hsteady query 0) by lia.
  unfold SearchRoute.attempt. rewrite (Hsteady query n) by lia. cbn [bind].
  unfold SearchRouteEarlier.on_response.
  destruct (SearchRoute.ok (f_status res)) eqn:Hok; cbn [negb].
  { repeat split; reflexivity || lia. }
  destruct (f_text res) as [t|] eqn:Ht; [|now destruct Htext].
  unfold SearchRoute.on_failure, SearchRoute.has_status.
  cbn [SearchRoute.request_error Perplexity.statusCode_of status].
  destruct (f_status res =? 429)%Z eqn:E429; [repeat split; reflexivity || lia|].
  destruct (f_status res =? 401)%Z eqn:E401; [repeat split; reflexivity || lia|].
  apply Z.eqb_neq in E429, E401.
  assert (Hrest : SearchRoute.ok (f_status res) = true
                  \/ f_status res = 401%Z \/ f_status res = 429%Z -> False).
  { intros [H|[H|H]]; [rewrite Hok in H; discriminate | contradiction | contradiction]. }
  destruct (f_status res =? 0)%Z eqn:E0.
  - apply Z.eqb_eq in E0. rewrite E0. cbn.
    repeat split; try reflexivity; try lia; try (intros H; now destruct Hrest).
  - unfold SearchRoute.failed.
    destruct (SearchRoute.constructible (f_status res)); cbn;
      (repeat split; try reflexivity; try lia; try (intros H; now destruct Hrest)).
Qed.

Lemma X25_search_copies_agree_witness :
  fst (SearchRoute.POST SearchExamples.key Examples.no_jitter
         (SearchExamples.steady (SearchExamples.refused 429 "Too Many Requests"))
         (SearchExamples.ask "Fed rates today"))
  = fst (SearchRouteEarlier.POST SearchExamples.key
           (SearchExamples.steady (SearchExamples.refused 429 "Too Many Requests"))
           (SearchExamples.ask "Fed rates today"))
  /\ snd (SearchRouteEarlier.POST SearchExamples.key
            (SearchExamples.steady (SearchExamples.refused 429 "Too Many Requests"))
            (SearchExamples.ask "Fed rates today"))
     <= snd (SearchRoute.POST SearchExamples.key Examples.no_jitter
               (SearchExamples.steady (SearchExamples.refused 429 "Too Many Requests"))
               (SearchExamples.ask "Fed rates today")).
Proof.
  destruct (X25_search_copies_agree SearchExamples.key Examples.no_jitter
              (SearchExamples.steady (SearchExamples.refused 429 "Too Many Requests"))
              (SearchExamples.ask "Fed rates today")
              (SearchExamples.refused 429 "Too Many Requests")
              (fun _ _ _ => eq_refl) ltac:(discriminate))
    as (_ & _ & _ & _ & A & B).
  split; [apply A; right; right; reflexivity | exact B].
Defined.

(* ================================================================== *)
(** * The two routes together                                          *)
(* ================================================================== *)

Lemma search_route_calls (apiKey : option string) (jitter : nat -> Z)
      (fetch : string -> nat -> completion Fetched) (body : option value) :
  snd (SearchRoute.POST apiKey jitter fetch body) <= 3.
Proof.
  unfold SearchRoute.POST.
  destruct (SearchRoute.accept apiKey body) as [[r|query]|e]; cbn [snd]; try lia.
  destruct (search_outcome jitter (fetch query)) as (n & Hn & Hc & _). lia.
Qed.

Lemma js_or_truthy (a b : value) : truthy a = true -> js_or a b = a.
Proof. intros H. unfold js_or. now rewrite H. Qed.

Lemma js_or_truthy_default (a : value) : truthy (js_or a (JArr [])) = true.
Proof. destruct (js_or_default a (JArr [])) as [H| ->]; [exact H | reflexivity]. Qed.

Section Layers.
Context `{P : Platform}.
Variable apiKey : option string.
Variable describe : SearchResponse -> string.
Variable service : nat -> string -> nat -> completion Fetched.
Variable route_jitter : nat -> nat -> Z.
Variable w : World.

Let deployed : World := Deployment.world apiKey describe service route_jitter w.
Let route := Deployment.route apiKey service route_jitter.
Let service_calls := Deployment.service_calls apiKey service route_jitter.

Lemma service_calls_snoc (query : string) (n : nat) :
  service_calls query (S n) = service_calls query n + snd (route query n).
Proof.
  subst service_calls route. unfold Deployment.service_calls.
  rewrite seq_S, map_app, list_sum_app. cbn. lia.
Qed.

Lemma service_calls_bound (query : string) (n : nat) : service_calls query n <= 3 * n.
Proof.
  induction n as [|n IH]; [reflexivity|].
  rewrite service_calls_snoc.
  pose proof (search_route_calls apiKey (route_jitter n) (service n)
                (Some (JObj [("query", JStr query)]))) as H.
  subst route. unfold Deployment.route. lia.
Qed.

Lemma asked_accepted (query : string) :
  blank query = false -> SearchRoute.configured apiKey = true ->
  SearchRoute.accept apiKey (Some (JObj [("query", JStr query)])) = Normal (inr query).
Proof. intros Hb Hk. now apply accept_asked. Qed.

(** Step 1b on a last message that is a non-blank string. *)
Lemma step1b_string (w0 : World) (req : Request) (earlier : list Turn) (r : value)
      (query : string) :
  messages req = JArr (map turn_value (earlier ++ [mkTurn r (JStr query)])%list) ->
  truthy (includeLiveData req) = true -> blank query = false ->
  Finance.step1b w0 req (Normalizer.items_of (messages req))
  = Normal (query,
            match Retry.outcome (Finance.searchLive w0 query) with
            | Normal responseData => Finance.perplexityData_of responseData
            | Throw _ => None
            end,
            Retry.calls (Finance.searchLive w0 query)).
Proof.
  intros Hm Hon Hb. rewrite Hm. cbn [Normalizer.items_of].
  unfold Finance.step1b. rewrite Hon.
  rewrite length_map, length_app. cbn [List.length].
  replace (Nat.eqb (List.length earlier + 1) 0) with false
    by (symmetry; apply Nat.eqb_neq; lia).
  cbn [andb negb]. rewrite last_turn_value. cbn. rewrite Hb. reflexivity.
Qed.

(** X26.  Two layers of retries.  Whatever the request and the search service
    do, one request to the finance route makes at most 2 x 3 = 6 calls to the
    search service, and none when [includeLiveData] is falsy.  Each invocation
    of the search route it makes carries a query that is not blank, so that
    with a key configured the search route never rejects it in validation. *)
Theorem X26_layered_retries (req : Request) :
  Deployment.service_calls_of apiKey describe service route_jitter w req <= 6
  /\ (truthy (includeLiveData req) = false ->
      Deployment.service_calls_of apiKey describe service route_jitter w req = 0)
  /\ (forall query pd n,
         Finance.step1b deployed req (Normalizer.items_of (messages req))
         = Normal (query, pd, n) ->
         1 <= n ->
         blank query = false
         /\ (SearchRoute.configured apiKey = true ->
             SearchRoute.accept apiKey (Some (JObj [("query", JStr query)]))
             = Normal (inr query))).
Proof.
  assert (Hstep : forall query pd n,
             Finance.step1b deployed req (Normalizer.items_of (messages req))
             = Normal (query, pd, n) ->
             n <= 2 /\ (1 <= n <-> truthy (includeLiveData req) = true
                                    /\ blank query = false)).
  { intros query pd n H.
    pose proof (step1b_calls deployed req (Normalizer.items_of (messages req))) as Hb.
    rewrite H in Hb. exact Hb. }
  split; [|split].
  - unfold Deployment.service_calls_of.
    destruct (Finance.prepare req); [lia|]. fold deployed.
    destruct (Finance.step1b deployed req _) as [[[query pd] n]|e] eqn:H; [|lia].
    destruct (Hstep _ _ _ eq_refl) as [Hn _].
    pose proof (service_calls_bound query n). subst service_calls. lia.
  - intros Hoff. unfold Deployment.service_calls_of.
    destruct (Finance.prepare req); [reflexivity|]. fold deployed.
    destruct (Finance.step1b deployed req _) as [[[query pd] n]|e] eqn:H;
      [|reflexivity].
    destruct (Hstep _ _ _ eq_refl) as [_ Hiff].
    destruct n as [|n]; [reflexivity|].
    destruct Hiff as [Hiff _]. destruct Hiff as [Hon _]; [lia|]. congruence.
  - intros query pd n H Hn. destruct (Hstep _ _ _ H) as [_ [Hiff _]].
    destruct (Hiff Hn) as [_ Hb]. split; [exact Hb|].
    intros Hk. now apply asked_accepted.
Qed.
End Layers.

Lemma X26_layered_retries_witness :
  @Deployment.service_calls_of Reference.platform SearchExamples.key
    DeploymentExamples.describe
    (DeploymentExamples.steady (SearchExamples.refused 503 "Service Unavailable"))
    DeploymentExamples.no_jitter Examples.text_world MoreExamples.plain_request = 0
  /\ blank "How is my portfolio doing?" = false
  /\ SearchRoute.accept SearchExamples.key
       (Some (JObj [("query", JStr "How is my portfolio doing?")]))
     = Normal (inr "How is my portfolio doing?").
Proof.
  destruct (@X26_layered_retries Reference.platform SearchExamples.key
              DeploymentExamples.describe
              (DeploymentExamples.steady (SearchExamples.refused 503 "Service Unavailable"))
              DeploymentExamples.no_jitter Examples.text_world
              MoreExamples.plain_request) as (_ & A & _).
  destruct (@X26_layered_retries Reference.platform SearchExamples.key
              DeploymentExamples.describe
              (DeploymentExamples.steady (SearchExamples.refused 503 "Service Unavailable"))
              DeploymentExamples.no_jitter Examples.text_world
              Examples.live_request) as (_ & _ & B).
  split; [apply A; reflexivity|].
  destruct (B "How is my portfolio doing?" None 2) as [Hb Ha];
    [vm_compute; reflexivity | lia |].
  split; [exact Hb | apply Ha; reflexivity].
Defined.

Section Amplification.
Context `{P : Platform}.
Variable apiKey : option string.
Variable describe : SearchResponse -> string.
Variable service : nat -> string -> nat -> completion Fetched.
Variable route_jitter : nat -> nat -> Z.
Variable w : World.

Let deployed : World := Deployment.world apiKey describe service route_jitter w.
Let route := Deployment.route apiKey service route_jitter.
Let service_calls := Deployment.service_calls apiKey service route_jitter.
Let perplexity_api := Deployment.perplexity_api apiKey describe service route_jitter.

Variable query : string.
Hypothesis asked : blank query = false.
Hypothesis key_set : SearchRoute.configured apiKey = true.

Lemma searchLive_deployed :
  Finance.searchLive deployed query
  = Finance.retryWithBackoff (jitter w 1) (perplexity_api query) 2 2000 8000
      Finance.retryable.
Proof. reflexivity. Qed.

Lemma perplexity_api_failed (k : nat) (r : SearchResponse) (n : nat) :
  route query k = (r, n) -> SearchRoute.ok (s_status r) = false ->
  perplexity_api query k = Throw (Deployment.call_failed describe r).
Proof.
  intros Hr Hok. subst perplexity_api route. unfold Deployment.perplexity_api.
  rewrite Hr. cbn [fst]. now rewrite Hok.
Qed.

Lemma route_exhausted (k : nat) (res : Fetched) :
  (forall i, i <= 2 -> service k query i = Normal res) ->
  f_status res = 429%Z \/ (500 <= f_status res <= 599)%Z ->
  route query k = (search_failure (f_status res) (reported res), 3).
Proof.
  intros Hall Hc. subst route. unfold Deployment.route.
  apply (search_exhausted apiKey (route_jitter k) (service k) _ query
           (asked_accepted apiKey query asked key_set) res Hall Hc).
Qed.

Lemma route_terminal (k : nat) (res : Fetched) :
  service k query 0 = Normal res ->
  (400 <= f_status res < 500)%Z -> f_status res <> 429%Z ->
  route query k = (search_failure (f_status res) (reported res), 1).
Proof.
  intros Hf Hrange Hne. subst route. unfold Deployment.route.
  apply (search_terminal apiKey (route_jitter k) (service k) _ query
           (asked_accepted apiKey query asked key_set) res Hf Hrange Hne).
Qed.

(** X27.  Amplification of retries.  Live data on, the last message a string
    that is not blank, a key configured, and a search service that answers
    every call with the same status.  With a status among 429, 500, 502, 503
    and 504 the finance route invokes the search route twice and the service
    is called six times; with another status in [500,600) the finance route
    gives up after one invocation, three calls; with a status in [400,500)
    other than 429, after one invocation and one call.  In each case the
    request goes on without live data. *)
Theorem X27_retry_amplification (req : Request) (earlier : list Turn) (r : value)
        (res : Fetched) :
  messages req = JArr (map turn_value (earlier ++ [mkTurn r (JStr query)])%list) ->
  truthy (includeLiveData req) = true ->
  (forall k i, k <= 1 -> i <= 2 -> service k query i = Normal res) ->
  let outcome := Finance.step1b deployed req (Normalizer.items_of (messages req)) in
  (In (f_status res) [429; 500; 502; 503; 504]%Z ->
   outcome = Normal (query, None, 2) /\ service_calls query 2 = 6)
  /\ ((500 <= f_status res <= 599)%Z ->
      ~ In (f_status res) [429; 500; 502; 503; 504]%Z ->
      outcome = Normal (query, None, 1) /\ service_calls query 1 = 3)
  /\ ((400 <= f_status res < 500)%Z -> f_status res <> 429%Z ->
      outcome = Normal (query, None, 1) /\ service_calls query 1 = 1).
Proof.
  intros Hm Hon Hsteady outcome. subst outcome.
  rewrite (step1b_string deployed req earlier r query Hm Hon asked).
  rewrite searchLive_deployed. unfold Finance.retryWithBackoff.
  assert (Hcode : forall status text,
             status <> 0%Z ->
             Finance.statusCode_of
               (Deployment.call_failed describe (search_failure status text))
             = Some status).
  { intros status text Hnz. cbn. unfold Retry.or_code, Retry.truthy_code.
    replace (status =? 0)%Z with false by (symmetry; now apply Z.eqb_neq).
    cbn. replace (status =? 0)%Z with false by (symmetry; now apply Z.eqb_neq).
    reflexivity. }
  split; [|split].
  - intros Hin.
    assert (Hc : f_status res = 429%Z \/ (500 <= f_status res <= 599)%Z).
    { cbn in Hin. lia. }
    assert (Hroute : forall k, k <= 1 ->
                       route query k = (search_failure (f_status res) (reported res), 3)).
    { intros k Hk. apply route_exhausted; [|exact Hc].
      intros i Hi. now apply Hsteady. }
    assert (Hfail : forall k, k <= 1 ->
                      perplexity_api query k
                      = Throw (Deployment.call_failed describe
                                 (search_failure (f_status res) (reported res)))).
    { intros k Hk. apply (perplexity_api_failed k _ 3 (Hroute k Hk)).
      apply not_ok_range. cbn. lia. }
    rewrite (run_exhausted (perplexity_api query) (jitter w 1) 2 2000 8000
               Finance.statusCode_of Finance.retryable 1 eq_refl).
    + rewrite (Hfail 1) by lia. cbn [Retry.outcome Retry.calls]. split; [reflexivity|].
      subst service_calls. unfold Deployment.service_calls. cbn [seq map list_sum].
      fold route. rewrite (Hroute 0), (Hroute 1) by lia. reflexivity.
    + intros k Hk. eexists. split; [apply (Hfail k Hk)|].
      rewrite Hcode by lia. split.
      * apply client_error_false. lia.
      * now apply not_listed_member.
  - intros Hrange Hout.
    assert (Hroute : route query 0 = (search_failure (f_status res) (reported res), 3)).
    { apply route_exhausted; [|right; exact Hrange].
      intros i Hi. apply Hsteady; lia. }
    rewrite (run_unlisted (perplexity_api query) (jitter w 1) 2 2000 8000
               Finance.statusCode_of Finance.retryable
               (Deployment.call_failed describe
                  (search_failure (f_status res) (reported res)))
               (f_status res) _ eq_refl); try lia.
    + cbn [Retry.outcome Retry.calls]. split; [reflexivity|].
      subst service_calls. unfold Deployment.service_calls. cbn [seq map list_sum].
      fold route. rewrite Hroute. reflexivity.
    + apply (perplexity_api_failed 0 _ 3 Hroute). apply not_ok_range. cbn. lia.
    + apply Hcode. lia.
    + exact Hout.
  - intros Hrange Hne.
    assert (Hroute : route query 0 = (search_failure (f_status res) (reported res), 1)).
    { apply route_terminal; [apply Hsteady; lia | exact Hrange | exact Hne]. }
    rewrite (run_client_error (perplexity_api query) (jitter w 1) 2000 8000
               Finance.statusCode_of Finance.retryable 2
               (Deployment.call_failed describe
                  (search_failure (f_status res) (reported res)))
               (f_status res)); try lia.
    + cbn [Retry.outcome Retry.calls]. split; [reflexivity|].
      subst service_calls. unfold Deployment.service_calls. cbn [seq map list_sum].
      fold route. rewrite Hroute. reflexivity.
    + apply (perplexity_api_failed 0 _ 1 Hroute). apply not_ok_range. cbn. lia.
    + apply Hcode. lia.
Qed.

(** X28.  Live data through both routes.  Live data on, the last message a
    string that is not blank, a key configured, and a first answer of the
    search service that is [ok] and whose body is JSON other than [null].  The
    service is called once.  When [choices[0].message.content] of the answer
    is truthy, the live data of the request is that content, the citations of
    the answer ([[]] when it has none) and their number; when it is falsy or
    missing, the search has succeeded but the request goes on without live
    data. *)
Theorem X28_live_data_through_routes (req : Request) (earlier : list Turn) (r : value)
        (res : Fetched) (data : value) :
  messages req = JArr (map turn_value (earlier ++ [mkTurn r (JStr query)])%list) ->
  truthy (includeLiveData req) = true ->
  service 0 query 0 = Normal res ->
  SearchRoute.ok (f_status res) = true ->
  f_json res = Some data -> nullish data = false ->
  let content :=
    opt_member (opt_member (opt_member (prop data "choices") "0") "message") "content" in
  let citations := js_or (prop data "citations") (JArr []) in
  let outcome := Finance.step1b deployed req (Normalizer.items_of (messages req)) in
  service_calls query 1 = 1
  /\ (truthy content = true ->
      outcome
      = Normal (query,
                Some (Finance.mkPerplexityData content citations
                        (js_or (opt_member citations "length") (JNum 0))),
                1))
  /\ (truthy content = false -> outcome = Normal (query, None, 1)).
Proof.
  intros Hm Hon Hf Hok Hjson Hdata content citations outcome. subst outcome.
  rewrite (step1b_string deployed req earlier r query Hm Hon asked).
  rewrite searchLive_deployed. unfold Finance.retryWithBackoff.
  assert (Hroute : route query 0
                   = (mkSearchResponse 200 true None (js_or content (JStr EmptyString))
                        citations, 1)).
  { subst route. unfold Deployment.route.
    rewrite (search_answered apiKey (route_jitter 0) (service 0) _ query
               (asked_accepted apiKey query asked key_set) 0 res);
      [| lia | intros i Hi; lia | exact Hf | exact Hok].
    unfold SearchRoute.extract. rewrite Hjson, (member_normal _ _ Hdata).
    reflexivity. }
  assert (Hcall : perplexity_api query 0
                  = Normal (Deployment.payload
                              (mkSearchResponse 200 true None
                                 (js_or content (JStr EmptyString)) citations))).
  { subst perplexity_api. unfold Deployment.perplexity_api. fold route.
    rewrite Hroute. reflexivity. }
  rewrite (run_success (perplexity_api query) (jitter w 1) 2 2000 8000
             Finance.statusCode_of Finance.retryable 0
             (Deployment.payload
                (mkSearchResponse 200 true None (js_or content (JStr EmptyString))
                   citations)));
    [| lia | intros i Hi; lia | exact Hcall].
  cbn [Retry.outcome Retry.calls plus]. split; [|split].
  - subst service_calls. unfold Deployment.service_calls. cbn [seq map list_sum].
    fold route. rewrite Hroute. reflexivity.
  - intros Ht. unfold Finance.perplexityData_of, Deployment.payload.
    cbn [nullish prop assoc String.eqb Ascii.eqb Bool.eqb s_success s_content
         s_citations].
    rewrite (js_or_truthy content _ Ht). cbn [js_and truthy]. rewrite Ht.
    rewrite (js_or_truthy citations (JArr [])) by apply js_or_truthy_default.
    reflexivity.
  - intros Ht. unfold Finance.perplexityData_of, Deployment.payload.
    cbn [nullish prop assoc String.eqb Ascii.eqb Bool.eqb s_success s_content
         s_citations].
    unfold js_or at 1. rewrite Ht. reflexivity.
Qed.
End Amplification.

Lemma X27_retry_amplification_witness :
  Finance.step1b
    (Deployment.world SearchExamples.key DeploymentExamples.describe
       (DeploymentExamples.steady (SearchExamples.refused 503 "Service Unavailable"))
       DeploymentExamples.no_jitter Examples.text_world)
    Examples.live_request (Normalizer.items_of (messages Examples.live_request))
  = Normal ("How is my portfolio doing?", None, 2)
  /\ Deployment.service_calls SearchExamples.key
       (DeploymentExamples.steady (SearchExamples.refused 503 "Service Unavailable"))
       DeploymentExamples.no_jitter "How is my portfolio doing?" 2 = 6.
Proof.
  destruct (X27_retry_amplification SearchExamples.key DeploymentExamples.describe
              (DeploymentExamples.steady
                 (SearchExamples.refused 503 "Service Unavailable"))
              DeploymentExamples.no_jitter Examples.text_world
              "How is my portfolio doing?" eq_refl eq_refl
              Examples.live_request [] (JStr "user")
              (SearchExamples.refused 503 "Service Unavailable")
              eq_refl eq_refl (fun _ _ _ _ => eq_refl)) as (A & _).
  apply A. cbn. tauto.
Defined.

Lemma X28_live_data_through_routes_witness :
  Finance.step1b
    (Deployment.world SearchExamples.key DeploymentExamples.describe
       (DeploymentExamples.steady SearchExamples.answered)
       DeploymentExamples.no_jitter Examples.text_world)
    Examples.live_request (Normalizer.items_of (messages Examples.live_request))
  = Normal ("How is my portfolio doing?",
            Some (Finance.mkPerplexityData (JStr "Rates were held.")
                    (JArr [JStr "https://example.org/rates"]) (JNum 1)),
            1).
Proof.
  destruct (X28_live_data_through_routes SearchExamples.key DeploymentExamples.describe
              (DeploymentExamples.steady SearchExamples.answered)
              DeploymentExamples.no_jitter Examples.text_world
              "How is my portfolio doing?" eq_refl eq_refl
              Examples.live_request [] (JStr "user")
              SearchExamples.answered SearchExamples.answer
              eq_refl eq_refl eq_refl eq_refl eq_refl eq_refl) as (_ & A & _).
  apply A. reflexivity.
Defined.

(* ================================================================== *)
(** * The two copies of the finance route                              *)
(* ================================================================== *)

Section FinanceCopies.
Context `{P : Platform}.

Lemma processToolResponse_after_parse (o : value) :
  nullish o = false -> (forall s, prop o "data" <> JStr s) ->
  Finance.processToolResponse o = FinanceEarlier.processToolResponse o.
Proof.
  intros Hn Hd. unfold Finance.processToolResponse.
  unfold Normalizer.bindU at 1. now rewrite (parse_data_not_string o Hn Hd).
Qed.

(** X29.  Where the two copies of the finance route agree.  On a model
    response with at most one text block and exactly one tool invocation,
    whose input is present, whose [data] is no string, whose segment key
    converts to a string and which passes the normalizer of the earlier copy,
    both copies answer with the same status and the same body.  (The headers,
    which differ between the copies, are not compared.  A response without
    tool invocation, a second text block, a second invocation, a [data] given
    as a string and a tool input the normalizer rejects are the cases in which
    the bodies differ.) *)
Theorem X29_finance_copies_agree (content : list ContentBlock) (t : ToolUse) :
  List.length (texts content) <= 1 ->
  tool_uses content = [t] ->
  nullish (tu_input t) = false ->
  (forall s, prop (tu_input t) "data" <> JStr s) ->
  has_primitive (js_or (prop (prop (tu_input t) "config") "xAxisKey") (JStr "segment"))
  = true ->
  (exists chart st,
      FinanceEarlier.processToolResponse (tu_input t) = (Normal chart, st)) ->
  http_status (FinanceEarlier.respond content) = http_status (Finance.respond content)
  /\ body (FinanceEarlier.respond content) = body (Finance.respond content).
Proof.
  intros Htexts Htools Hn Hd _ (chart & st & Hrun).
  assert (E : FinanceEarlier.respond content = Finance.respond content);
    [|now rewrite E].
  rewrite respond_fields.
  unfold FinanceEarlier.respond.
  destruct content as [|c rest]; [discriminate Htools|].
  set (blocks := c :: rest) in *.
  assert (Htext : match FinanceEarlier.textContent_of blocks with
                  | Some s => s
                  | None => EmptyString
                  end = String.concat (nl ++ nl) (texts blocks)).
  { unfold FinanceEarlier.textContent_of.
    destruct (texts blocks) as [|s [|s' r]]; cbn in Htexts |- *; [reflexivity..|lia]. }
  rewrite Htext.
  unfold FinanceEarlier.toolUseContent_of, Finance.toolUseContent_of.
  rewrite Htools.
  assert (Hsel : match find (fun c0 => tu_name c0 =? "generate_graph_data") [t] with
                 | Some c0 => Some c0
                 | None => List.hd_error [t]
                 end = Some t).
  { cbn. destruct (tu_name t =? "generate_graph_data"); reflexivity. }
  rewrite Hsel. cbn [List.hd_error option_map].
  rewrite (processToolResponse_after_parse _ Hn Hd), Hrun. reflexivity.
Qed.
End FinanceCopies.

Lemma X29_finance_copies_agree_witness :
  http_status (FinanceEarlier.respond MoreExamples.chart_response)
  = http_status (@Finance.respond Reference.platform MoreExamples.chart_response)
  /\ body (FinanceEarlier.respond MoreExamples.chart_response)
     = body (@Finance.respond Reference.platform MoreExamples.chart_response).
Proof.
  apply (@X29_finance_copies_agree Reference.platform MoreExamples.chart_response
           (Examples.chart_tool Examples.bar_payload)).
  - cbn. lia.
  - reflexivity.
  - reflexivity.
  - intros s. discriminate.
  - reflexivity.
  - eexists. eexists. vm_compute. reflexivity.
Defined.

(* ================================================================== *)
(** * The page and the finance route                                   *)
(* ================================================================== *)

Lemma to_turn_received (t : Turn) :
  Finance.to_turn (Client.received (turn_value t))
  = Normal (mkTurn (Client.received (role t)) (Client.received (content t))).
Proof.
  destruct t as [r c]. unfold turn_value. cbn [role content].
  destruct r; destruct c; reflexivity.
Qed.

Lemma received_turns (turns : list Turn) :
  Client.received (JArr (map turn_value turns))
  = JArr (map (fun t => Client.received (turn_value t)) turns).
Proof.
  change (Client.received (JArr (map turn_value turns)))
    with (JArr (map (fun x => match x with
                              | JUndefined => JNull
                              | _ => Client.received x
                              end) (map turn_value turns))).
  rewrite map_map. reflexivity.
Qed.

Lemma mapM_to_turn_received (turns : list Turn) :
  mapM Finance.to_turn (map (fun t => Client.received (turn_value t)) turns)
  = Normal (arrived turns).
Proof.
  induction turns as [|t rest IH]; [reflexivity|].
  cbn [map mapM]. rewrite to_turn_received. cbn [bind]. rewrite IH. reflexivity.
Qed.

Lemma tool_use_selected (content : list ContentBlock) (t : ToolUse) :
  Finance.toolUseContent_of content = Some t -> existsb is_tool_use content = true.
Proof.
  unfold Finance.toolUseContent_of. intros H.
  assert (Hne : tool_uses content <> []).
  { intros E. rewrite E in H. discriminate. }
  clear H. induction content as [|c rest IH]; [now destruct Hne|].
  destruct c; cbn in *; auto.
Qed.

Lemma set_last_two {A} (l : list A) (a b x : A) :
  Finance.set_last x (l ++ [a; b])%list = (l ++ [a; x])%list.
Proof.
  change (l ++ [a; b])%list with (l ++ [a] ++ [b])%list.
  rewrite app_assoc, set_last_app, <- app_assoc. reflexivity.
Qed.

Section SubmitFacts.
Context `{P : Platform}.
Variable decode : string -> option string.
Variable w : World.

Lemma prepare_requestBody (turns : list Turn) (selectedModel : string) (icfObj : value) :
  selectedModel <> EmptyString ->
  Finance.prepare (Client.requestBody turns selectedModel icfObj) = inr (arrived turns).
Proof.
  intros Hmodel. unfold Finance.prepare, Client.requestBody.
  cbn [messages model fileData]. rewrite received_turns.
  assert (Ht : truthy (JStr selectedModel) = true).
  { cbn. destruct (selectedModel =? EmptyString) eqn:E; [|reflexivity].
    apply String.eqb_eq in E. contradiction. }
  rewrite Ht. cbn [negb]. rewrite mapM_to_turn_received. reflexivity.
Qed.

Lemma reply_respond (content : list ContentBlock) :
  Client.reply (Finance.respond content)
  = Client.mkMessage "assistant" (JStr (Finance.fullTextContent content))
      (JBool (existsb is_tool_use content)) None (chart_shown content).
Proof.
  rewrite respond_fields. unfold Client.reply, chart_shown, Finance.fullTextContent.
  cbn [http_status body SearchRoute.ok SearchRoute.in_range Z.leb Z.compare
       Pos.compare Pos.compare_cont andb].
  destruct (Finance.toolUseContent_of content) as [t|] eqn:Ht; cbn [option_map].
  - rewrite (tool_use_selected _ _ Ht). cbn [orb].
    destruct (Finance.processToolResponse (tu_input t)) as [[chart|e] st] eqn:Hrun;
      cbn [fst snd normal tu_input].
    + destruct (processToolResponse_normal _ _ _ Hrun) as (o1 & o2 & o3 & _ & _ & _ & Hf).
      destruct (finish_normal _ _ _ Hf) as [_ ->]. reflexivity.
    + reflexivity.
  - rewrite orb_false_r. reflexivity.
Qed.

(** X30.  A submit, from the form to the reply.  For a page that is not
    loading, with some input or an upload, whose messages can all be turned
    into turns, and with a model selected: the request carries neither
    [fileData] nor [includeLiveData], so the route calls neither the portfolio
    service nor the search route and hands the model the conversation as it
    arrived; afterwards the page is not loading and its input is empty.  When
    the model answers, the thinking message is replaced by a message with the
    joined text of the answer and, as chart data, the chart of the route or,
    when the normalizer rejected the tool input, that input as the normalizer
    left it; the upload is cleared.  When the request fails with a status that
    is not [ok], it is replaced by the error message and the upload is kept. *)
Theorem X30_submit_round_trip (selectedModel : string) (icfObj : value)
        (page : Client.Page) (turns : list Turn) :
  blank (Client.p_input page) = false \/ Client.p_currentUpload page <> None ->
  Client.p_isLoading page = false ->
  Client.apiMessages decode
    (Client.p_messages page
     ++ [Client.user_message (Client.p_input page) (Client.p_currentUpload page)])%list
  = Some turns ->
  selectedModel <> EmptyString ->
  let userMessage :=
    Client.user_message (Client.p_input page) (Client.p_currentUpload page) in
  let request := Client.requestBody turns selectedModel icfObj in
  let run := Finance.createMessage w request (arrived turns) in
  let after := Client.handleSubmit decode w selectedModel icfObj page in
  snd after = Some (mkTrace 0 0 (Retry.calls run) (Some (arrived turns)))
  /\ Client.p_isLoading (fst after) = false
  /\ Client.p_input (fst after) = EmptyString
  /\ (forall content,
         Retry.outcome run = Normal content ->
         fst after
         = Client.mkPage
             (Client.p_messages page
              ++ [ userMessage;
                   Client.mkMessage "assistant" (JStr (Finance.fullTextContent content))
                     (JBool (existsb is_tool_use content)) None (chart_shown content) ])%list
             EmptyString false None)
  /\ (forall e,
         Retry.outcome run = Throw e ->
         SearchRoute.ok (http_status (Finance.failure e)) = false ->
         fst after
         = Client.mkPage
             (Client.p_messages page ++ [userMessage; Client.error_message])%list
             EmptyString false (Client.p_currentUpload page)).
Proof.
  intros Hsome Hidle Hturns Hmodel userMessage request run after.
  subst after. unfold Client.handleSubmit.
  assert (Hguard : blank (Client.p_input page)
                   && match Client.p_currentUpload page with
                      | Some _ => false
                      | None => true
                      end = false).
  { destruct Hsome as [Hb|Hu]; [now rewrite Hb|].
    destruct (Client.p_currentUpload page); [apply andb_false_r | now destruct Hu]. }
  rewrite Hguard, Hidle. cbv zeta. rewrite Hturns.
  rewrite (POST_off w (Client.requestBody turns selectedModel icfObj) (arrived turns)
             eq_refl (prepare_requestBody turns selectedModel icfObj Hmodel)).
  fold request. fold run. cbn [fst snd Client.p_isLoading Client.p_input].
  split; [reflexivity|]. split; [reflexivity|]. split; [reflexivity|]. split.
  - intros content ->. rewrite set_last_two, reply_respond.
    rewrite respond_fields. reflexivity.
  - intros e -> Hbad. rewrite set_last_two. unfold Client.reply. rewrite Hbad.
    reflexivity.
Qed.
End SubmitFacts.

Lemma X30_submit_round_trip_witness :
  @Client.handleSubmit Reference.platform ClientExamples.decode
    ClientExamples.careless_model "claude-3-5-sonnet-20240620" JNull
    ClientExamples.first_page
  = (Client.mkPage
       [ Client.user_message "Chart my sales by month." None;
         Client.mkMessage "assistant" (JStr "Here is the analysis.") (JBool true) None
           Examples.malformed_payload ]
       EmptyString false None,
     Some (mkTrace 0 0 1 (Some [Examples.ask "Chart my sales by month."]))).
Proof.
  destruct (@X30_submit_round_trip Reference.platform ClientExamples.decode
              ClientExamples.careless_model "claude-3-5-sonnet-20240620" JNull
              ClientExamples.first_page [Examples.ask "Chart my sales by month."]
              (or_introl eq_refl) eq_refl eq_refl ltac:(discriminate))
    as (Htrace & _ & _ & Hpage & _).
  specialize (Hpage Examples.malformed_response eq_refl).
  destruct (@Client.handleSubmit Reference.platform ClientExamples.decode
              ClientExamples.careless_model "claude-3-5-sonnet-20240620" JNull
              ClientExamples.first_page) as [after trace].
  cbn [fst snd] in Htrace, Hpage. rewrite Htrace, Hpage. reflexivity.
Defined.
